(** * Grocery List Manager (app.py): list state, filters, edits, persistence

    A shallow embedding of [src/app.py].  The script is a Streamlit page that
    keeps one pandas DataFrame in the session, mirrors it to a Google sheet,
    and derives a filtered view that the user can edit.

    Modelling conventions.
    - Python [str] values are [string]s whose characters are the code points
      U+0000..U+00FF; [strip] and [lower] follow Python on that range.
    - A DataFrame is its ordered columns, each a label with its dtype, and
      its rows; every row carries its index label next to its cells.  A cell
      is a text, a boolean or a missing value (NaN); numeric cells are not
      modelled.  A dtype is bool, float64 (here a column of NaN) or object
      (which also stands for a string dtype).  The dtype decides what
      [~series], [df[series]] and the [.str] accessor do; [pd.concat] takes
      the common dtype of the pieces, empty frames included.
    - [st.cache_data(ttl=60)] is a cache of one entry, stamped with the
      reading of a clock that counts seconds.
    - Exceptions escaping the script are values of [exn].
    - [re] is outside the repository: its behaviour on patterns that contain a
      regular-expression metacharacter is a parameter of the development. *)

From Stdlib Require Import List String Ascii Bool Arith Lia Sorted.
Import ListNotations.
Local Open Scope string_scope.
Local Open Scope list_scope.
Local Open Scope nat_scope.

(** ** Python strings *)

Module PyStr.

(** Characters for which [str.isspace] holds below U+0100:
    TAB, LF, VT, FF, CR, FS, GS, RS, US, SPACE, NEL and NBSP. *)
Definition is_space (c : ascii) : bool :=
  let n := nat_of_ascii c in
  ((9 <=? n) && (n <=? 13)) || ((28 <=? n) && (n <=? 32))
  || (n =? 133) || (n =? 160).

Fixpoint lstrip (s : string) : string :=
  match s with
  | EmptyString => EmptyString
  | String c s' => if is_space c then lstrip s' else s
  end.

Fixpoint rstrip (s : string) : string :=
  match s with
  | EmptyString => EmptyString
  | String c s' =>
      match rstrip s' with
      | EmptyString => if is_space c then EmptyString else String c EmptyString
      | t => String c t
      end
  end.

(** [s.strip()] *)
Definition strip (s : string) : string := rstrip (lstrip s).

(** [str.lower] on one code point: A-Z and the Latin-1 capitals
    U+00C0..U+00DE (the multiplication sign U+00D7 excepted) move up by 32. *)
Definition lower_char (c : ascii) : ascii :=
  let n := nat_of_ascii c in
  if ((65 <=? n) && (n <=? 90))
     || ((192 <=? n) && (n <=? 222) && negb (n =? 215))
  then ascii_of_nat (n + 32) else c.

(** [s.lower()] *)
Fixpoint lower (s : string) : string :=
  match s with
  | EmptyString => EmptyString
  | String c s' => String (lower_char c) (lower s')
  end.

(** [bool(s)]: a string is truthy when it is not empty. *)
Definition truthy (s : string) : bool :=
  match s with EmptyString => false | _ => true end.

(** [pat in s] *)
Fixpoint contains (pat s : string) : bool :=
  prefix pat s
  || match s with
     | EmptyString => false
     | String _ s' => contains pat s'
     end.

(** [c in s] for one character *)
Fixpoint mem_char (c : ascii) (s : string) : bool :=
  match s with
  | EmptyString => false
  | String d s' => Ascii.eqb c d || mem_char c s'
  end.

(** Some character of [s] satisfies [p]. *)
Fixpoint any_char (p : ascii -> bool) (s : string) : bool :=
  match s with
  | EmptyString => false
  | String c s' => p c || any_char p s'
  end.

(** Every character of [s] satisfies [p] (true of the empty string). *)
Fixpoint all_chars (p : ascii -> bool) (s : string) : bool :=
  match s with
  | EmptyString => true
  | String c s' => p c && all_chars p s'
  end.

(** [sep.join(l)] *)
Fixpoint join (sep : string) (l : list string) : string :=
  match l with
  | [] => EmptyString
  | [x] => x
  | x :: l' => (x ++ sep ++ join sep l')%string
  end.

Definition LF : ascii := "010"%char.
Definition CR : ascii := "013"%char.
Definition COMMA : ascii := ","%char.
Definition QUOTE : ascii := "034"%char.

(** The lines of a text: it is cut after every line feed, and a last piece
    that no line feed ends counts as a line when it is not empty. *)
Fixpoint lines (s : string) : list string :=
  match s with
  | EmptyString => []
  | String c s' =>
      if Ascii.eqb c LF then EmptyString :: lines s'
      else match lines s' with
           | [] => [String c EmptyString]
           | l :: ls => String c l :: ls
           end
  end.

End PyStr.


(** ** Exceptions *)

Inductive exn : Type :=
| KeyError        (* a column or index label that the frame does not have *)
| TypeError       (* [~] on a value that is not a boolean *)
| AttributeError  (* [.str] on a series that holds no text *)
| ReError.        (* [re.compile] rejects the pattern *)

Inductive result (A : Type) : Type :=
| Ok (a : A)
| Raise (e : exn).

Arguments Ok {A} a.
Arguments Raise {A} e.

Definition bind {A B : Type} (r : result A) (k : A -> result B) : result B :=
  match r with
  | Ok a => k a
  | Raise e => Raise e
  end.

Notation "x <- r ;; k" := (bind r (fun x => k))
  (at level 61, r at next level, right associativity).

Fixpoint mapM {A B : Type} (f : A -> result B) (l : list A) : result (list B) :=
  match l with
  | [] => Ok []
  | a :: l' => b <- f a ;; bs <- mapM f l' ;; Ok (b :: bs)
  end.

(** ** Python's [re], as far as the script reaches it *)

Module Re.

(** The characters that are special in a pattern. *)
Definition is_meta (c : ascii) : bool := PyStr.mem_char c ".^$*+?{}[]\|()".

Definition literal (pat : string) : bool := negb (PyStr.any_char is_meta pat).

Section Engine.
(** [re_meta pat] stands for [re.compile(pat)] on a pattern that holds a
    metacharacter: [None] when the pattern is rejected, and otherwise the
    test [lambda x: compiled.search(x) is not None]. *)
Variable re_meta : string -> option (string -> bool).

(** A pattern without metacharacter is searched for as it is written. *)
Definition compile_search (pat : string) : result (string -> bool) :=
  if literal pat then Ok (PyStr.contains pat)
  else match re_meta pat with
       | Some m => Ok m
       | None => Raise ReError
       end.
End Engine.

End Re.

(** ** pandas: cells, series and frames *)

Inductive cell : Type :=
| NaN                  (* a missing value *)
| Text (s : string)
| Flag (b : bool).

(** The dtype of a column. *)
Inductive dtype : Type :=
| BoolDtype    (* bool *)
| Float64      (* float64: a column of missing values *)
| Object.      (* object, or a string dtype *)

(** A frame: the columns in order, each a label with its dtype, and the rows
    in order, each with its index label. *)
Record DataFrame : Type := mkDataFrame {
  schema : list (string * dtype);
  rows : list (nat * list cell)
}.

(** [df.columns] *)
Definition columns (df : DataFrame) : list string := map fst (schema df).

(** A series: a dtype and the values. *)
Definition Series : Type := (dtype * list cell)%type.

(** A series used as the key of [df[key]]: a boolean series is a mask on the
    rows; a series of [n] other values is read as [n] column labels. *)
Inductive key : Type :=
| Mask (m : list bool)
| Labels (n : nat).

Module Pd.

(** [columns.get_loc(c)] *)
Fixpoint get_loc (c : string) (cols : list string) : option nat :=
  match cols with
  | [] => None
  | d :: cols' =>
      if String.eqb c d then Some 0
      else match get_loc c cols' with
           | Some i => Some (S i)
           | None => None
           end
  end.

(** The dtype of the first column labelled [c]. *)
Fixpoint lookup (c : string) (sch : list (string * dtype)) : option dtype :=
  match sch with
  | [] => None
  | p :: sch' => if String.eqb c (fst p) then Some (snd p) else lookup c sch'
  end.

(** [c in df.columns] *)
Definition has_column (df : DataFrame) (c : string) : bool :=
  match get_loc c (columns df) with Some _ => true | None => false end.

(** [df[c].dtype] *)
Definition dtype_of (df : DataFrame) (c : string) : option dtype :=
  lookup c (schema df).

(** [df.index] *)
Definition index (df : DataFrame) : list nat := map fst (rows df).

(** [df.empty]: no column or no row. *)
Definition empty (df : DataFrame) : bool :=
  (List.length (columns df) =? 0) || (List.length (rows df) =? 0).

(** [pd.DataFrame(columns=cols)]: no row, and every column of object
    dtype. *)
Definition new_frame (cols : list string) : DataFrame :=
  mkDataFrame (map (fun c => (c, Object)) cols) [].

(** [df[c]]: the values of one column, [KeyError] without that column. *)
Definition getitem (df : DataFrame) (c : string) : result (list cell) :=
  match get_loc c (columns df) with
  | Some i => Ok (map (fun r => nth i (snd r) NaN) (rows df))
  | None => Raise KeyError
  end.

(** [df[c]]: the series, its dtype with its values. *)
Definition column (df : DataFrame) (c : string) : result Series :=
  vals <- getitem df c ;;
  match dtype_of df c with
  | Some t => Ok (t, vals)
  | None => Raise KeyError
  end.

(** The elements of [l] that the mask keeps. *)
Fixpoint select {A : Type} (mask : list bool) (l : list A) : list A :=
  match mask, l with
  | b :: mask', a :: l' => if b then a :: select mask' l' else select mask' l'
  | _, _ => []
  end.

(** [df[mask]]: the rows that the boolean series keeps, with their labels. *)
Definition getitem_mask (df : DataFrame) (mask : list bool) : DataFrame :=
  mkDataFrame (schema df) (select mask (rows df)).

(** [df[key]] for a series: the rows that a mask keeps; for values that are
    no column labels, the frame without any column when there is no value,
    and [KeyError] when there is one. *)
Definition getitem_key (df : DataFrame) (k : key) : result DataFrame :=
  match k with
  | Mask m => Ok (getitem_mask df m)
  | Labels 0 => Ok (mkDataFrame [] (map (fun r => (fst r, [])) (rows df)))
  | Labels (S _) => Raise KeyError
  end.

(** [a | b] on two boolean series of one index. *)
Fixpoint series_or (a b : list bool) : list bool :=
  match a, b with
  | x :: a', y :: b' => (x || y) :: series_or a' b'
  | _, _ => []
  end.

(** One element of [series.isin(values)]. *)
Definition isin (values : list string) (c : cell) : bool :=
  match c with
  | Text s => existsb (String.eqb s) values
  | _ => false
  end.

Definition is_nan (c : cell) : bool :=
  match c with NaN => true | _ => false end.

Definition is_str (c : cell) : bool :=
  match c with Text _ => true | _ => false end.

Definition is_bool (c : cell) : bool :=
  match c with Flag _ => true | _ => false end.

(** The dtype that pandas infers for the values of a column: bool for
    booleans only, float64 for missing values only, object otherwise. *)
Definition infer (vals : list cell) : dtype :=
  match vals with
  | [] => Object
  | _ :: _ =>
      if forallb is_bool vals then BoolDtype
      else if forallb is_nan vals then Float64
      else Object
  end.

(** One element of [~series] on a bool series. *)
Definition invert_bool (c : cell) : result bool :=
  match c with
  | Flag b => Ok (negb b)
  | _ => Raise TypeError
  end.

(** One element of [~series] on an object series: Python's [~] makes an
    integer of a boolean, and rejects a text or a float. *)
Definition invert_object (c : cell) : result unit :=
  match c with
  | Flag _ => Ok tt
  | _ => Raise TypeError
  end.

(** [~series].  A bool series is negated and is a mask.  An object series
    is inverted value by value, which leaves integers, no mask.  float64 has
    no [~]. *)
Definition invert (ser : Series) : result key :=
  match fst ser with
  | BoolDtype => m <- mapM invert_bool (snd ser) ;; Ok (Mask m)
  | Object => l <- mapM invert_object (snd ser) ;; Ok (Labels (List.length l))
  | Float64 => Raise TypeError
  end.

(** [series.str]: the accessor of an object series whose values, the missing
    ones aside, are not all booleans; [AttributeError] on any other. *)
Definition str (ser : Series) : result (list cell) :=
  match fst ser with
  | Object =>
      if existsb is_str (snd ser) || negb (existsb is_bool (snd ser))
      then Ok (snd ser)
      else Raise AttributeError
  | _ => Raise AttributeError
  end.

(** One element of [.str.lower()]: what is not text becomes NaN. *)
Definition lower_cell (c : cell) : cell :=
  match c with
  | Text s => Text (PyStr.lower s)
  | _ => NaN
  end.

(** [series.str.lower()] *)
Definition str_lower (ser : Series) : result Series :=
  vals <- str ser ;;
  Ok (Object, map lower_cell vals).

(** One element of [series.fillna(v)]. *)
Definition fillna (v : cell) (c : cell) : cell :=
  match c with
  | NaN => v
  | _ => c
  end.

(** One element of [series.astype(bool)]: Python truthiness. *)
Definition astype_bool (c : cell) : cell :=
  match c with
  | NaN => Flag true
  | Text s => Flag (PyStr.truthy s)
  | Flag b => Flag b
  end.

Fixpoint set_nth (i : nat) (v : cell) (r : list cell) : list cell :=
  match i, r with
  | _, [] => []
  | 0, _ :: r' => v :: r'
  | S i', c :: r' => c :: set_nth i' v r'
  end.

Fixpoint assign_at (i : nat) (vals : list cell) (rs : list (nat * list cell))
  : list (nat * list cell) :=
  match vals, rs with
  | v :: vals', (l, r) :: rs' => (l, set_nth i v r) :: assign_at i vals' rs'
  | _, _ => rs
  end.

(** The schema with dtype [t] for the first column labelled [c]. *)
Fixpoint set_dtype (c : string) (t : dtype) (sch : list (string * dtype))
  : list (string * dtype) :=
  match sch with
  | [] => []
  | p :: sch' =>
      if String.eqb c (fst p) then (fst p, t) :: sch'
      else p :: set_dtype c t sch'
  end.

(** [df[c] = series] for a column the frame has: the column takes the values
    and the dtype of the series. *)
Definition setitem (df : DataFrame) (c : string) (ser : Series) : DataFrame :=
  match get_loc c (columns df) with
  | Some i => mkDataFrame (set_dtype c (fst ser) (schema df))
                          (assign_at i (snd ser) (rows df))
  | None => df
  end.

(** [df[c] = v] for a scalar and a column the frame lacks: the column is
    added last, every row holding [v], with the dtype of [v]. *)
Definition add_column (df : DataFrame) (c : string) (v : cell) : DataFrame :=
  mkDataFrame (schema df ++ [(c, infer [v])])
              (map (fun r => (fst r, snd r ++ [v])) (rows df)).

(** The cells of a row under other column labels; NaN where the row has no
    such column. *)
Definition reindex_row (from to : list string) (r : list cell) : list cell :=
  map (fun c => match get_loc c from with
                | Some i => nth i r NaN
                | None => NaN
                end) to.

(** The dtype that holds the values of both. *)
Definition common (t u : dtype) : dtype :=
  match t, u with
  | BoolDtype, BoolDtype => BoolDtype
  | Float64, Float64 => Float64
  | _, _ => Object
  end.

(** The dtype that holds missing values besides those of [t]. *)
Definition with_nan (t : dtype) : dtype :=
  match t with
  | BoolDtype => Object
  | _ => t
  end.

(** The dtype of column [c] in [pd.concat([a, b])]: the common dtype of the
    two pieces; where one frame lacks the column its rows hold NaN. *)
Definition concat_dtype (a b : DataFrame) (c : string) : dtype :=
  match dtype_of a c, dtype_of b c with
  | Some t, Some u => common t u
  | Some t, None => match rows b with [] => t | _ :: _ => with_nan t end
  | None, Some u => match rows a with [] => u | _ :: _ => with_nan u end
  | None, None => Object
  end.

(** [pd.concat([a, b], ignore_index=True)]: the columns of [a], then those
    only [b] has; the rows of [a], then those of [b]; labels 0, 1, ... *)
Definition concat_ignore_index (a b : DataFrame) : DataFrame :=
  let cols :=
    columns a ++ filter (fun c => negb (has_column a c)) (columns b) in
  let cells :=
    map (fun r => reindex_row (columns a) cols (snd r)) (rows a)
    ++ map (fun r => reindex_row (columns b) cols (snd r)) (rows b) in
  mkDataFrame (map (fun c => (c, concat_dtype a b c)) cols)
              (combine (seq 0 (List.length cells)) cells).

(** The dtype of a column of [df] after values of [e] are written into it. *)
Definition loc_dtype (e : DataFrame) (p : string * dtype) : string * dtype :=
  (fst p, match dtype_of e (fst p) with
          | Some u => common (snd p) u
          | None => with_nan (snd p)
          end).

(** [df.loc[e.index, :] = e]: every row of [df] whose label is in [e] takes
    the cells of the row of [e] with that label, aligned on the column
    labels; [KeyError] when [df] lacks a label of [e]. *)
Definition loc_setitem (df e : DataFrame) : result DataFrame :=
  if forallb (fun l => existsb (Nat.eqb l) (index df)) (index e)
  then Ok (mkDataFrame (map (loc_dtype e) (schema df))
             (map (fun r =>
                     match find (fun x => fst x =? fst r) (rows e) with
                     | Some x =>
                         (fst r, reindex_row (columns e) (columns df) (snd x))
                     | None => r
                     end) (rows df)))
  else Raise KeyError.

Section StrContains.
Variable re_meta : string -> option (string -> bool).

(** [series.str.contains(pat, na=False)]: the pattern is compiled as a
    regular expression, then searched in every text; what is not text
    counts as no match. *)
Definition str_contains (pat : string) (ser : Series) : result (list bool) :=
  vals <- str ser ;;
  m <- Re.compile_search re_meta pat ;;
  Ok (map (fun c => match c with Text s => m s | _ => false end) vals).
End StrContains.

(** *** [df.to_csv(buffer, index=False)] *)

Definition render (c : cell) : string :=
  match c with
  | NaN => EmptyString
  | Text s => s
  | Flag true => "True"
  | Flag false => "False"
  end.

Section Csv.
(** Whether the writer quotes a field for a carriage return alone
    (it depends on the release of the [csv] module). *)
Variable quote_cr : bool.

Definition needs_quote (c : ascii) : bool :=
  Ascii.eqb c PyStr.COMMA || Ascii.eqb c PyStr.QUOTE
  || Ascii.eqb c PyStr.LF || (quote_cr && Ascii.eqb c PyStr.CR).

(** Every quote character is written twice. *)
Fixpoint double_quotes (s : string) : string :=
  match s with
  | EmptyString => EmptyString
  | String c s' =>
      if Ascii.eqb c PyStr.QUOTE
      then String c (String c (double_quotes s'))
      else String c (double_quotes s')
  end.

Definition quoted (s : string) : string :=
  String PyStr.QUOTE (double_quotes s ++ String PyStr.QUOTE EmptyString).

(** Minimal quoting. *)
Definition csv_field (s : string) : string :=
  if PyStr.any_char needs_quote s then quoted s else s.

(** One record and its line feed; a record that is one empty field is
    written as two quote characters. *)
Definition csv_record (fields : list string) : string :=
  (match fields with
   | [EmptyString] => quoted EmptyString
   | _ => PyStr.join "," (map csv_field fields)
   end ++ String PyStr.LF EmptyString)%string.

(** The fields of a row, written out and joined. *)
Definition csv_line (r : list cell) : string :=
  PyStr.join "," (map csv_field (map render r)).

(** The record of the column labels, then one record per row. *)
Definition to_csv (df : DataFrame) : string :=
  fold_right String.append EmptyString
    (csv_record (columns df)
     :: map (fun r => csv_record (map render (snd r))) (rows df)).
End Csv.

End Pd.

(** ** The script *)

(** What the connection holds: the header line of the sheet and its lines. *)
Record Sheet : Type := mkSheet {
  header : list string;
  body : list (list cell)
}.

(** The options of the urgency widgets. *)
Inductive Urgency : Type := Now | Soon | Yesterday.

(** What the script does that the user or the store can observe. *)
Inductive event : Type :=
| Update (data : Sheet)      (* [conn.update(spreadsheet=SHEET_URL, data=df)] *)
| StError (msg : string)     (* [st.error] *)
| StSuccess (msg : string)   (* [st.success], [st.sidebar.success] *)
| StInfo (msg : string).     (* [st.info] *)

(** [st.session_state.df], the sheet behind [conn], and the events so far. *)
Record State : Type := mkState {
  session_df : DataFrame;
  sheet : Sheet;
  trace : list event
}.

(** What [st.cache_data] keeps of [load_data]: the frame that the last read
    returned and the reading of the clock at that read, if there was one.
    The cache outlives the session. *)
Record Entry : Type := mkEntry {
  stored_at : nat;
  cached : DataFrame
}.

Definition Cache : Type := option Entry.

Module App.

Definition CANONICAL : list string :=
  ["Date Added"; "Item Needed"; "Quantity"; "Where to Get"; "Urgency";
   "Completed"].

Definition label (u : Urgency) : string :=
  match u with
  | Now => "Now"
  | Soon => "Soon"
  | Yesterday => "Yesterday!"
  end.

Definition ALL_URGENCIES : list Urgency := [Now; Soon; Yesterday].

(** [ttl=60], in seconds. *)
Definition TTL : nat := 60.

(** The dtypes that a read gives the columns: one per label of the header,
    inferred from the cells under it. *)
Fixpoint read_schema (hdr : list string) (j : nat) (lines : list (list cell))
  : list (string * dtype) :=
  match hdr with
  | [] => []
  | c :: hdr' =>
      (c, Pd.infer (map (fun r => nth j r NaN) lines))
      :: read_schema hdr' (S j) lines
  end.

(** [conn.read(spreadsheet=SHEET_URL)]: the sheet as a frame, its rows
    labelled 0, 1, ... *)
Definition conn_read (sh : Sheet) : DataFrame :=
  mkDataFrame (read_schema (header sh) 0 (body sh))
              (combine (seq 0 (List.length (body sh))) (body sh)).

(** What [conn.update(spreadsheet=SHEET_URL, data=df)] leaves in the sheet:
    the columns and the cells of the frame, without the index. *)
Definition conn_update (df : DataFrame) : Sheet :=
  mkSheet (columns df) (map snd (rows df)).

(** The body of [load_data(conn)], which runs when the cache has nothing to
    return.  The read yields a frame (never [None]). *)
Definition load_data_body (sh : Sheet) : DataFrame :=
  let df := conn_read sh in
  let df := if Pd.empty df then Pd.new_frame CANONICAL else df in
  match Pd.getitem df "Completed" with
  | Ok ser =>
      Pd.setitem df "Completed"
        (BoolDtype,
         map (fun c => Pd.astype_bool (Pd.fillna (Flag false) c)) ser)
  | Raise _ => df
  end.

(** The frame that the cache returns at time [clock]: that of an entry
    younger than [TTL]. *)
Definition cache_lookup (clock : nat) (cache : Cache) : option DataFrame :=
  match cache with
  | Some e => if clock <? stored_at e + TTL then Some (cached e) else None
  | None => None
  end.

(** [load_data(conn)] under [@st.cache_data(ttl=60)]: a copy of the cached
    frame while the entry lives, whatever the sheet holds by then; otherwise
    the body runs and its frame is cached.  Nothing but time removes the
    entry. *)
Definition load_data (clock : nat) (cache : Cache) (sh : Sheet)
  : DataFrame * Cache :=
  match cache_lookup clock cache with
  | Some df => (df, cache)
  | None =>
      let df := load_data_body sh in
      (df, Some (mkEntry clock df))
  end.

(** The loop of [save_data]: a canonical column that the frame lacks is
    added, empty text everywhere, [False] for "Completed". *)
Definition ensure_column (df : DataFrame) (col : string) : DataFrame :=
  if Pd.has_column df col then df
  else Pd.add_column df col
         (if String.eqb col "Completed" then Flag false
          else Text EmptyString).

Definition ensure_columns (df : DataFrame) : DataFrame :=
  fold_left ensure_column CANONICAL df.

(** [save_data(conn, df)]: the frame as the loop leaves it (the caller's
    frame is the same object) and the sheet as the update leaves it. *)
Definition save_data (df : DataFrame) : DataFrame * Sheet :=
  let df' := ensure_columns df in
  (df', conn_update df').

(** The session state block: the frame is loaded when the session has
    none. *)
Definition initialize (session : option DataFrame) (clock : nat)
           (cache : Cache) (sh : Sheet) : State * Cache :=
  match session with
  | Some df => (mkState df sh [], cache)
  | None =>
      let '(df, cache') := load_data clock cache sh in
      (mkState df sh [], cache')
  end.

(** The "Create New List" button: the new frame has object columns only,
    "Completed" too. *)
Definition create_new_list (st : State) : State :=
  let '(df, sh) := save_data (Pd.new_frame CANONICAL) in
  mkState df sh (trace st ++ [Update sh; StSuccess "Started a new list!"]).

(** The dictionary [new_row] as the one-row frame [pd.DataFrame([new_row])];
    [now] is [datetime.now().strftime("%Y-%m-%d %H:%M")]. *)
Definition new_row (now item_needed quantity where_to_get : string)
           (urgency : Urgency) : DataFrame :=
  mkDataFrame
    [("Date Added", Object); ("Item Needed", Object); ("Quantity", Object);
     ("Where to Get", Object); ("Urgency", Object); ("Completed", BoolDtype)]
    [(0, [Text now;
          Text (PyStr.strip item_needed);
          Text (PyStr.strip quantity);
          Text (PyStr.strip where_to_get);
          Text (label urgency);
          Flag false])].

(** The submit handler of the form "add_item_form". *)
Definition add_item (st : State)
           (now item_needed quantity where_to_get : string)
           (urgency : Urgency) : State :=
  if negb (PyStr.truthy (PyStr.strip item_needed)) then
    mkState (session_df st) (sheet st)
            (trace st ++ [StError "Item Needed is required."])
  else
    let df :=
      Pd.concat_ignore_index (session_df st)
        (new_row now item_needed quantity where_to_get urgency) in
    let '(df', sh) := save_data df in
    mkState df' sh
      (trace st
       ++ [Update sh;
           StSuccess ("Added '" ++ item_needed ++ "' to the list!")%string]).

Section Filter.
Variable re_meta : string -> option (string -> bool).

(** Lines 158-159:
    [if urgency_filter: df = df[df["Urgency"].isin(urgency_filter)]] *)
Definition filter_urgency (df : DataFrame) (urgency_filter : list Urgency)
  : result DataFrame :=
  match urgency_filter with
  | [] => Ok df
  | _ :: _ =>
      u <- Pd.getitem df "Urgency" ;;
      Ok (Pd.getitem_mask df (map (Pd.isin (map label urgency_filter)) u))
  end.

(** Lines 161-162: [if not show_completed: df = df[~df["Completed"]]] *)
Definition filter_completed (df : DataFrame) (show_completed : bool)
  : result DataFrame :=
  if negb show_completed then
    c <- Pd.column df "Completed" ;;
    k <- Pd.invert c ;;
    Pd.getitem_key df k
  else Ok df.

(** Lines 164-169: [if search_text.strip():] the rows whose lower-cased
    "Item Needed" or "Where to Get" holds [s], the trimmed and lower-cased
    search text.  The left operand of [|] is evaluated first. *)
Definition filter_search (df : DataFrame) (search_text : string)
  : result DataFrame :=
  if PyStr.truthy (PyStr.strip search_text) then
    let s := PyStr.lower (PyStr.strip search_text) in
    a <- Pd.column df "Item Needed" ;;
    la <- Pd.str_lower a ;;
    ma <- Pd.str_contains re_meta s la ;;
    b <- Pd.column df "Where to Get" ;;
    lb <- Pd.str_lower b ;;
    mb <- Pd.str_contains re_meta s lb ;;
    Ok (Pd.getitem_mask df (Pd.series_or ma mb))
  else Ok df.

(** The block "FILTERED DATA": the view [df] that the three sidebar
    controls leave of [st.session_state.df]. *)
Definition filtered_data (table : DataFrame) (urgency_filter : list Urgency)
           (show_completed : bool) (search_text : string)
  : result DataFrame :=
  let df := table in
  df <- filter_urgency df urgency_filter ;;
  df <- filter_completed df show_completed ;;
  filter_search df search_text.

(** The block in a run of the script: it reads the session frame, and
    the state goes on as it was. *)
Definition filter_block (st : State) (urgency_filter : list Urgency)
           (show_completed : bool) (search_text : string)
  : State * result DataFrame :=
  (st, filtered_data (session_df st) urgency_filter show_completed
         search_text).
End Filter.

(** [st.data_editor(df, num_rows="fixed", ...)]: the frame of the view, its
    columns and their dtypes kept, with the cells as the user leaves them,
    [edits] being those cells line by line. *)
Definition data_editor (view : DataFrame) (edits : list (list cell))
  : DataFrame :=
  mkDataFrame (schema view) (combine (Pd.index view) edits).

(** The block "EDITABLE TABLE". *)
Definition edit_table (st : State) (view : DataFrame) (edits : list (list cell))
  : result State :=
  if Pd.empty view then
    Ok (mkState (session_df st) (sheet st)
          (trace st
           ++ [StInfo "Your list is empty or filter settings hide all items."]))
  else
    let edited_df := data_editor view edits in
    df <- Pd.loc_setitem (session_df st) edited_df ;;
    let '(df', sh) := save_data df in
    Ok (mkState df' sh (trace st ++ [Update sh])).

Section ExportCsv.
Variable quote_cr : bool.

(** The block "EXPORT TO CSV": the data behind the download button, or
    nothing when the frame is empty. *)
Definition export_csv (st : State) : option string :=
  if negb (Pd.empty (session_df st))
  then Some (Pd.to_csv quote_cr (session_df st))
  else None.
End ExportCsv.

Section Styled.
(** The emoji of the three labels lie outside the code points of [string];
    [emoji u] stands for the one that is shown before the label of [u]. *)
Variable emoji : Urgency -> string.

(** [fmt(u)] of [styled_urgency]: a known label gets its emoji; any other
    value [u] is shown as [u or ""], which keeps what is truthy (NaN is) and
    turns [False] and the empty text into the empty text. *)
Definition fmt (u : cell) : cell :=
  match u with
  | Text s =>
      if String.eqb s "Now" then Text (emoji Now ++ " Now")
      else if String.eqb s "Soon" then Text (emoji Soon ++ " Soon")
      else if String.eqb s "Yesterday!"
           then Text (emoji Yesterday ++ " Yesterday!")
      else Text s
  | NaN => NaN
  | Flag true => Flag true
  | Flag false => Text EmptyString
  end.

(** [styled_urgency(df)]: a copy of the frame whose column "Urgency" is
    passed through [fmt]. *)
Definition styled_urgency (df : DataFrame) : result DataFrame :=
  u <- Pd.getitem df "Urgency" ;;
  Ok (Pd.setitem df "Urgency" (Pd.infer (map fmt u), map fmt u)).

(** [bool(v)] for a cell: NaN is truthy. *)
Definition cell_truthy (c : cell) : bool :=
  match c with
  | NaN => true
  | Text s => PyStr.truthy s
  | Flag b => b
  end.

Definition DIMMED : string := "color: #888; text-decoration: line-through".

(** [style_row(row)]: one style per cell of the row, the dimmed one for a
    row whose "Completed" is truthy. *)
Definition style_row (cols : list string) (row : list cell)
  : result (list string) :=
  match Pd.get_loc "Completed" cols with
  | Some i =>
      Ok (if cell_truthy (nth i row NaN)
          then map (fun _ => DIMMED) row
          else repeat EmptyString (List.length row))
  | None => Raise KeyError
  end.

(** The block "READ-ONLY STYLED VIEW": nothing but a message for an empty
    view, and otherwise the frame that is displayed with the style of every
    cell. *)
Definition styled_view (view : DataFrame)
  : result (option (DataFrame * list (list string))) :=
  if Pd.empty view then Ok None
  else
    display_df <- styled_urgency view ;;
    completed_mask <- Pd.getitem display_df "Completed" ;;
    styles <- mapM (style_row (columns display_df))
                (map snd (rows display_df)) ;;
    Ok (Some (display_df, styles)).
End Styled.



Section Script.
Variable re_meta : string -> option (string -> bool).
Variable emoji : Urgency -> string.
Variable quote_cr : bool.

End Script.

End App.

(** ** The list as the specification sees it *)

Module Spec.

(** A row of six cells, the last one a boolean. *)
Definition canonical_row (r : list cell) : bool :=
  match r with
  | [_; _; _; _; _; Flag _] => true
  | _ => false
  end.

(** A Table: the six canonical columns, rows of six cells with a boolean
    "Completed", labelled by their positions.  [load_data] yields such a
    frame from a sheet with the canonical header, and the handlers keep
    it. *)
Definition Table (df : DataFrame) : Prop :=
  columns df = App.CANONICAL
  /\ Pd.index df = seq 0 (List.length (rows df))
  /\ forallb canonical_row (map snd (rows df)) = true.

(** The fields of a row, by position in the canonical order. *)
Definition itemNeeded (r : list cell) : cell := nth 1 r NaN.
Definition quantity (r : list cell) : cell := nth 2 r NaN.
Definition whereToGet (r : list cell) : cell := nth 3 r NaN.
Definition urgency (r : list cell) : cell := nth 4 r NaN.
Definition completed (r : list cell) : cell := nth 5 r NaN.

(** "Completed" is a bool column, as [load_data] leaves it: [~] on it is a
    mask. *)
Definition bool_completed (df : DataFrame) : Prop :=
  Pd.dtype_of df "Completed" = Some BoolDtype.

(** A row whose item and shop are texts or missing. *)
Definition text_row (r : list cell) : bool :=
  negb (Pd.is_bool (itemNeeded r)) && negb (Pd.is_bool (whereToGet r)).

(** "Item Needed" and "Where to Get" are object columns of texts and
    missing values: [.str] exists on them and on every selection of their
    rows. *)
Definition searchable (df : DataFrame) : Prop :=
  Pd.dtype_of df "Item Needed" = Some Object
  /\ Pd.dtype_of df "Where to Get" = Some Object
  /\ forallb text_row (map snd (rows df)) = true.

(** A Table on which every control of the sidebar works. *)
Definition Ready (df : DataFrame) : Prop :=
  Table df /\ bool_completed df /\ searchable df.

(** [v] is [l] with some elements left out. *)
Inductive subseq {A : Type} : list A -> list A -> Prop :=
| subseq_nil : subseq [] []
| subseq_keep : forall a v l, subseq v l -> subseq (a :: v) (a :: l)
| subseq_drop : forall a v l, subseq v l -> subseq v (a :: l).

(** *** What the code keeps *)

(** The urgency filter runs only when something is selected. *)
Definition keep_urgency (uf : list Urgency) (r : nat * list cell) : bool :=
  match uf with
  | [] => true
  | _ :: _ => Pd.isin (map App.label uf) (urgency (snd r))
  end.

Definition keep_completed (show_completed : bool) (r : nat * list cell)
  : bool :=
  show_completed
  || match completed (snd r) with Flag b => negb b | _ => false end.

(** A field matches when it is a text whose lower-cased form passes the
    test [m]. *)
Definition field_matches (m : string -> bool) (c : cell) : bool :=
  match c with
  | Text s => m (PyStr.lower s)
  | _ => false
  end.

Definition keep_search (m : string -> bool) (r : nat * list cell) : bool :=
  field_matches m (itemNeeded (snd r)) || field_matches m (whereToGet (snd r)).

(** No search runs on a search text that trimming empties. *)
Definition keep_search_opt (om : option (string -> bool))
           (r : nat * list cell) : bool :=
  match om with
  | None => true
  | Some m => keep_search m r
  end.

(** The test that the search text stands for: none when trimming empties
    it, and otherwise its trimmed, lower-cased form compiled as a
    pattern. *)
Definition search_test (re_meta : string -> option (string -> bool))
           (search_text : string) : result (option (string -> bool)) :=
  if PyStr.truthy (PyStr.strip search_text) then
    m <- Re.compile_search re_meta (PyStr.lower (PyStr.strip search_text)) ;;
    Ok (Some m)
  else Ok None.

(** The three filters, one after the other. *)
Definition view_rows (uf : list Urgency) (show_completed : bool)
           (om : option (string -> bool)) (rs : list (nat * list cell))
  : list (nat * list cell) :=
  filter (keep_search_opt om)
    (filter (keep_completed show_completed) (filter (keep_urgency uf) rs)).

(** *** What the specification says is kept *)

(** Case-insensitive containment of the search text, as it is given. *)
Definition spec_field_matches (search_text : string) (c : cell) : bool :=
  match c with
  | Text s => PyStr.contains (PyStr.lower search_text) (PyStr.lower s)
  | _ => false
  end.

Definition spec_keep (uf : list Urgency) (show_completed : bool)
           (search_text : string) (r : nat * list cell) : bool :=
  Pd.isin (map App.label uf) (urgency (snd r))
  && (show_completed
      || match completed (snd r) with Flag b => negb b | _ => false end)
  && (negb (PyStr.truthy search_text)
      || spec_field_matches search_text (itemNeeded (snd r))
      || spec_field_matches search_text (whereToGet (snd r))).

(** [computeFilteredView] after the words of the specification. *)
Definition spec_filtered_view (table : DataFrame) (uf : list Urgency)
           (show_completed : bool) (search_text : string) : DataFrame :=
  mkDataFrame (schema table)
              (filter (spec_keep uf show_completed search_text) (rows table)).

(** *** Sheets that a load followed by a save leaves as they are *)

Definition is_flag (c : cell) : bool :=
  match c with Flag _ => true | _ => false end.

(** Every line of the sheet has one cell per column. *)
Definition rectangular (sh : Sheet) : Prop :=
  Forall (fun r => List.length r = List.length (header sh)) (body sh).

(** Either the canonical header alone, or at least one line under a header
    with all canonical columns, "Completed" holding booleans only. *)
Definition normal (sh : Sheet) : Prop :=
  (body sh = [] /\ header sh = App.CANONICAL)
  \/ (body sh <> []
      /\ Forall (fun c => Pd.get_loc c (header sh) <> None) App.CANONICAL
      /\ forall i, Pd.get_loc "Completed" (header sh) = Some i ->
                   Forall (fun r => is_flag (nth i r NaN) = true) (body sh)).

(** Rows of one cell per column, and booleans under "Completed" when the
    frame has that column. *)
Definition tidy (df : DataFrame) : Prop :=
  Forall (fun r => List.length (snd r) = List.length (columns df)) (rows df)
  /\ forall i, Pd.get_loc "Completed" (columns df) = Some i ->
               Forall (fun r => is_flag (nth i (snd r) NaN) = true) (rows df).

(** The row that a submission builds. *)
Definition added_row (now item q w : string) (u : Urgency) : list cell :=
  [Text now; Text (PyStr.strip item); Text (PyStr.strip q);
   Text (PyStr.strip w); Text (App.label u); Flag false].

(** What [load_data] makes of a cell of "Completed". *)
Definition normalize (c : cell) : cell :=
  Pd.astype_bool (Pd.fillna (Flag false) c).

(** The first line of an export of a Table. *)
Definition HEADER_LINE : string :=
  "Date Added,Item Needed,Quantity,Where to Get,Urgency,Completed".

(** No text of the row holds a line feed. *)
Definition one_line (r : list cell) : bool :=
  forallb (fun c => negb (PyStr.mem_char PyStr.LF (Pd.render c))) r.

(** *** Vocabulary for the other blocks *)

(** What [save_data] puts in a column that it adds. *)
Definition default_cell (c : string) : cell :=
  if String.eqb c "Completed" then Flag false else Text EmptyString.

(** The canonical labels that a frame lacks, in canonical order. *)
Definition lacking (df : DataFrame) : list string :=
  filter (fun c => negb (Pd.has_column df c)) App.CANONICAL.

(** The row that is displayed for a row of the view. *)
Definition display_row (emoji : Urgency -> string) (r : nat * list cell)
  : nat * list cell :=
  (fst r, Pd.set_nth 4 (App.fmt emoji (urgency (snd r))) (snd r)).

(** The styles of a row of a Table: all six cells dimmed, or none. *)
Definition row_styles (r : nat * list cell) : list string :=
  repeat (match completed (snd r) with
          | Flag true => App.DIMMED
          | _ => EmptyString
          end) 6.

(** [load_data] reads the sheet at time [clock]: the cache has no entry, or
    one that is [TTL] seconds old or older. *)
Definition fresh_read (clock : nat) (cache : Cache) : Prop :=
  match cache with
  | Some e => stored_at e + App.TTL <= clock
  | None => True
  end.





End Spec.

(** ** Sample data *)

Module Sample.

(** An engine that rejects every pattern with a metacharacter. *)
Definition strict_engine : string -> option (string -> bool) :=
  fun _ => None.

(** The columns of a list that was loaded and added to: texts, and a bool
    "Completed". *)
Definition SCHEMA : list (string * dtype) :=
  [("Date Added", Object); ("Item Needed", Object); ("Quantity", Object);
   ("Where to Get", Object); ("Urgency", Object); ("Completed", BoolDtype)].

Definition milk : list cell :=
  [Text "2024-05-01 09:30"; Text "Milk"; Text "2 gallons"; Text "Walmart";
   Text "Now"; Flag false].

Definition eggs : list cell :=
  [Text "2024-05-01 09:31"; Text "Eggs"; NaN; NaN; Text "Soon"; Flag true].

Definition blank : list cell :=
  [Text "2024-05-01 09:32"; NaN; NaN; NaN; Text "Now"; Flag false].

Definition two_lines : list cell :=
  [Text "2024-05-01 09:33"; Text "Rice
Beans"; NaN; NaN; Text "Now"; Flag false].

Definition table1 : DataFrame := mkDataFrame SCHEMA [(0, milk)].

Definition table3 : DataFrame :=
  mkDataFrame SCHEMA [(0, milk); (1, eggs); (2, blank)].

(** A sheet whose only line has no value under "Completed". *)
Definition raw_sheet : Sheet :=
  mkSheet App.CANONICAL
    [[Text "2024-05-01 09:30"; Text "Milk"; NaN; NaN; Text "Now"; NaN]].

(** A sheet without the column "Quantity". *)
Definition short_sheet : Sheet :=
  mkSheet ["Date Added"; "Item Needed"; "Where to Get"; "Urgency";
           "Completed"]
    [[Text "2024-05-01 09:30"; Text "Milk"; Text "Walmart"; Text "Now";
      Flag false]].

Definition table_two_lines : DataFrame :=
  mkDataFrame SCHEMA [(0, two_lines)].

Definition state_of (df : DataFrame) : State :=
  mkState df (App.conn_update df) [].

(** A sign standing for every emoji. *)
Definition plain_emoji : Urgency -> string := fun _ => "*".


(** A frame without the column "Urgency". *)
Definition frame_without_urgency : DataFrame :=
  mkDataFrame [("Item Needed", Object); ("Completed", BoolDtype)]
    [(0, [Text "Milk"; Flag false])].

(** A row whose urgency is none of the three labels. *)
Definition someday : list cell :=
  [Text "2024-05-01 09:34"; Text "Salt"; NaN; NaN; Text "Someday";
   Flag false].

Definition table_someday : DataFrame :=
  mkDataFrame SCHEMA [(0, milk); (1, someday)].

End Sample.
(** * Properties *)

Example strip_ex : PyStr.strip "  Milk " = "Milk".
Proof. reflexivity. Qed.

Example lower_ex : PyStr.lower "Whole MILK" = "whole milk".
Proof. reflexivity. Qed.

Example contains_ex : PyStr.contains "mil" "whole milk" = true.
Proof. reflexivity. Qed.

Example lines_ex : PyStr.lines "a,b
c
" = ["a,b"; "c"].
Proof. reflexivity. Qed.

(** ** Strings *)

Lemma lstrip_blank (s : string) :
  PyStr.all_chars PyStr.is_space s = true -> PyStr.lstrip s = EmptyString.
Proof.
  induction s as [|c s IH]; simpl; intros H.
  - reflexivity.
  - apply andb_true_iff in H as [Hc Hs]. rewrite Hc. auto.
Qed.

Lemma strip_blank (s : string) :
  PyStr.all_chars PyStr.is_space s = true -> PyStr.strip s = EmptyString.
Proof.
  intros H. unfold PyStr.strip. rewrite (lstrip_blank s H). reflexivity.
Qed.

Lemma rstrip_empty_blank (s : string) :
  PyStr.rstrip s = EmptyString -> PyStr.all_chars PyStr.is_space s = true.
Proof.
  induction s as [|c s IH]; simpl; intros H.
  - reflexivity.
  - destruct (PyStr.rstrip s) eqn:E.
    + destruct (PyStr.is_space c); [rewrite IH; auto | discriminate].
    + discriminate.
Qed.

Lemma lstrip_blank_inv (s : string) :
  PyStr.all_chars PyStr.is_space (PyStr.lstrip s) = true ->
  PyStr.all_chars PyStr.is_space s = true.
Proof.
  induction s as [|c s IH]; simpl; intros H.
  - reflexivity.
  - destruct (PyStr.is_space c) eqn:E; simpl in *.
    + auto.
    + rewrite E in H. discriminate.
Qed.

(** Trimming leaves nothing exactly of the texts made of whitespace. *)
Lemma strip_empty_iff (s : string) :
  PyStr.strip s = EmptyString <-> PyStr.all_chars PyStr.is_space s = true.
Proof.
  split.
  - intros H. apply lstrip_blank_inv, rstrip_empty_blank, H.
  - apply strip_blank.
Qed.

Lemma truthy_false_iff (s : string) :
  PyStr.truthy s = false <-> s = EmptyString.
Proof. destruct s; simpl; split; congruence. Qed.

(** ** Frames *)

Lemma map_snd_combine_seq {A : Type} (l : list A) (k : nat) :
  map snd (combine (seq k (List.length l)) l) = l.
Proof.
  revert k. induction l as [|a l IH]; simpl; intros k; [reflexivity|].
  now rewrite IH.
Qed.

Lemma map_fst_combine_seq {A : Type} (l : list A) (k : nat) :
  map fst (combine (seq k (List.length l)) l) = seq k (List.length l).
Proof.
  revert k. induction l as [|a l IH]; simpl; intros k; [reflexivity|].
  now rewrite IH.
Qed.

Lemma combine_fst_snd {A B : Type} (l : list (A * B)) :
  combine (map fst l) (map snd l) = l.
Proof.
  induction l as [|[a b] l IH]; simpl; [reflexivity | now rewrite IH].
Qed.

Lemma canonical_row_inv (r : list cell) :
  Spec.canonical_row r = true ->
  exists a b c d e f, r = [a; b; c; d; e; Flag f].
Proof.
  destruct r as [|a [|b [|c [|d [|e [|f [|g r]]]]]]]; simpl; try discriminate.
  - destruct f; try discriminate. intros _. now exists a, b, c, d, e, b0.
  - destruct f; discriminate.
Qed.

(** A canonical row, taken apart into its six cells. *)
Ltac canonical_cells H :=
  let a := fresh "a" in
  let b := fresh "b" in
  let c := fresh "c" in
  let d := fresh "d" in
  let e := fresh "e" in
  let f := fresh "f" in
  destruct (canonical_row_inv _ H) as (a & b & c & d & e & f & ->).

Lemma reindex_canonical (r : list cell) :
  Spec.canonical_row r = true ->
  Pd.reindex_row App.CANONICAL App.CANONICAL r = r.
Proof. intros H. canonical_cells H. reflexivity. Qed.

Lemma map_reindex_canonical (rs : list (nat * list cell)) :
  forallb Spec.canonical_row (map snd rs) = true ->
  map (fun r => Pd.reindex_row App.CANONICAL App.CANONICAL (snd r)) rs
  = map snd rs.
Proof.
  induction rs as [|r rs IH]; intros H; [reflexivity|].
  cbn [map forallb] in *.
  apply andb_true_iff in H as [Hr Hrs].
  now rewrite reindex_canonical, IH.
Qed.

Lemma fold_ensure_present (cols : list string) (df : DataFrame) :
  Forall (fun c => Pd.has_column df c = true) cols ->
  fold_left App.ensure_column cols df = df.
Proof.
  induction cols as [|c cols IH]; simpl; intros H; [reflexivity|].
  inversion H as [|? ? Hc Hcols]; subst.
  unfold App.ensure_column at 2. rewrite Hc. auto.
Qed.

(** A frame that has the canonical columns is saved as it is. *)
Lemma save_data_present (df : DataFrame) :
  Forall (fun c => Pd.has_column df c = true) App.CANONICAL ->
  App.save_data df = (df, App.conn_update df).
Proof.
  intros H. unfold App.save_data, App.ensure_columns.
  now rewrite fold_ensure_present.
Qed.

Lemma save_data_canonical (df : DataFrame) :
  columns df = App.CANONICAL ->
  App.save_data df = (df, App.conn_update df).
Proof.
  intros H. apply save_data_present. unfold Pd.has_column. rewrite H.
  repeat constructor.
Qed.

Lemma combine_seq_app {A : Type} (l : list A) (a : A) (k : nat) :
  combine (seq k (List.length (l ++ [a]))) (l ++ [a])
  = combine (seq k (List.length l)) l ++ [(k + List.length l, a)].
Proof.
  revert k. induction l as [|x l IH]; intros k; simpl.
  - now rewrite Nat.add_0_r.
  - rewrite IH. now rewrite Nat.add_succ_r.
Qed.

Lemma columns_new_frame (cols : list string) :
  columns (Pd.new_frame cols) = cols.
Proof.
  unfold Pd.new_frame, columns. cbn [schema]. rewrite map_map. cbn [fst].
  apply map_id.
Qed.

Lemma columns_add_column (df : DataFrame) (c : string) (v : cell) :
  columns (Pd.add_column df c v) = columns df ++ [c].
Proof. unfold Pd.add_column, columns. cbn [schema]. apply map_app. Qed.

(** The schema of a frame with the canonical columns, taken apart. *)
Lemma canonical_schema (sch : list (string * dtype)) :
  map fst sch = App.CANONICAL ->
  exists t0 t1 t2 t3 t4 t5,
    sch = [("Date Added", t0); ("Item Needed", t1); ("Quantity", t2);
           ("Where to Get", t3); ("Urgency", t4); ("Completed", t5)].
Proof.
  destruct sch as [|[c0 t0] [|[c1 t1] [|[c2 t2] [|[c3 t3] [|[c4 t4]
    [|[c5 t5] [|p sch]]]]]]]; cbn [map fst]; try discriminate.
  unfold App.CANONICAL. intros H. injection H as -> -> -> -> -> ->.
  now exists t0, t1, t2, t3, t4, t5.
Qed.

(** A frame with the canonical columns, its schema taken apart. *)
Ltac canonical_frame df H :=
  let sch := fresh "sch" in
  let rs := fresh "rs" in
  let t0 := fresh "t0" in
  let t1 := fresh "t1" in
  let t2 := fresh "t2" in
  let t3 := fresh "t3" in
  let t4 := fresh "t4" in
  let t5 := fresh "t5" in
  destruct df as [sch rs]; unfold columns in H; cbn [schema] in H;
  destruct (canonical_schema _ H) as (t0 & t1 & t2 & t3 & t4 & t5 & ->);
  clear H.

Lemma lookup_get_loc (c : string) (sch : list (string * dtype)) :
  Pd.lookup c sch = None <-> Pd.get_loc c (map fst sch) = None.
Proof.
  induction sch as [|p sch IH]; cbn [Pd.lookup Pd.get_loc map]; [tauto|].
  destruct (String.eqb c (fst p)); [split; discriminate|].
  destruct (Pd.get_loc c (map fst sch)); split; intros H;
    try discriminate; try reflexivity.
  - apply IH in H. discriminate.
  - apply IH. reflexivity.
Qed.

(** A frame has a dtype for exactly the columns that it has. *)
Lemma dtype_of_has_column (df : DataFrame) (c : string) :
  Pd.dtype_of df c = None <-> Pd.has_column df c = false.
Proof.
  unfold Pd.dtype_of, Pd.has_column, columns.
  rewrite lookup_get_loc.
  destruct (Pd.get_loc c (map fst (schema df))); split; congruence.
Qed.

(** Concatenating one canonical row to a Table appends it under the next
    label. *)
Lemma concat_one_row (df : DataFrame) (sch : list (string * dtype))
      (r : list cell) :
  Spec.Table df -> Spec.canonical_row r = true ->
  map fst sch = App.CANONICAL ->
  Pd.concat_ignore_index df (mkDataFrame sch [(0, r)])
  = mkDataFrame
      (map (fun c => (c, Pd.concat_dtype df (mkDataFrame sch [(0, r)]) c))
         App.CANONICAL)
      (rows df ++ [(List.length (rows df), r)]).
Proof.
  intros (Hc & Hi & Hr) Hrow Hsch. unfold Pd.concat_ignore_index, Pd.has_column.
  replace (columns (mkDataFrame sch [(0, r)])) with App.CANONICAL
    by (symmetry; exact Hsch).
  rewrite Hc. cbn [rows].
  change (filter _ App.CANONICAL) with (@nil string).
  rewrite app_nil_r. f_equal.
  rewrite (map_reindex_canonical _ Hr).
  cbn [map snd]. rewrite (reindex_canonical _ Hrow).
  rewrite combine_seq_app. rewrite length_map. cbn [Nat.add].
  f_equal. rewrite <- Hi. unfold Pd.index. apply combine_fst_snd.
Qed.

(** What a valid submission makes of a Table. *)
Lemma add_item_valid (st : State) (now item q w : string) (u : Urgency) :
  Spec.Table (session_df st) ->
  PyStr.truthy (PyStr.strip item) = true ->
  let df' :=
    mkDataFrame
      (map (fun c => (c, Pd.concat_dtype (session_df st)
                           (App.new_row now item q w u) c)) App.CANONICAL)
      (rows (session_df st)
       ++ [(List.length (rows (session_df st)),
            Spec.added_row now item q w u)]) in
  App.add_item st now item q w u
  = mkState df' (App.conn_update df')
      (trace st
       ++ [Update (App.conn_update df');
           StSuccess ("Added '" ++ item ++ "' to the list!")%string]).
Proof.
  intros HT Hv df'. unfold App.add_item. rewrite Hv. cbn [negb].
  unfold App.new_row at 1. fold (Spec.added_row now item q w u).
  rewrite (concat_one_row _ _ _ HT) by reflexivity.
  unfold App.new_row in df'. fold (Spec.added_row now item q w u) in df'.
  fold df'.
  rewrite save_data_canonical by reflexivity. reflexivity.
Qed.

(** ** The filters as list filters *)

Lemma select_map {A : Type} (f : A -> bool) (l : list A) :
  Pd.select (map f l) l = filter f l.
Proof.
  induction l as [|a l IH]; simpl; [reflexivity|].
  destruct (f a); now rewrite IH.
Qed.

Lemma filter_all {A : Type} (f : A -> bool) (l : list A) :
  (forall a, f a = true) -> filter f l = l.
Proof.
  intros H. induction l as [|a l IH]; simpl; [reflexivity|].
  now rewrite H, IH.
Qed.

Lemma series_or_map {A : Type} (f g : A -> bool) (l : list A) :
  Pd.series_or (map f l) (map g l) = map (fun a => f a || g a) l.
Proof.
  induction l as [|a l IH]; simpl; [reflexivity | now rewrite IH].
Qed.

Lemma canonical_rows_filter (f : nat * list cell -> bool)
      (rs : list (nat * list cell)) :
  forallb Spec.canonical_row (map snd rs) = true ->
  forallb Spec.canonical_row (map snd (filter f rs)) = true.
Proof.
  induction rs as [|r rs IH]; simpl; intros H; [reflexivity|].
  apply andb_true_iff in H as [Hr Hrs].
  destruct (f r); simpl; [rewrite Hr|]; auto.
Qed.

Lemma mapM_invert_bool (rs : list (nat * list cell)) :
  forallb Spec.canonical_row (map snd rs) = true ->
  mapM Pd.invert_bool (map (fun r => nth 5 (snd r) NaN) rs)
  = Ok (map (Spec.keep_completed false) rs).
Proof.
  induction rs as [|r rs IH]; simpl; intros H; [reflexivity|].
  apply andb_true_iff in H as [Hr Hrs].
  rewrite (IH Hrs).
  destruct (canonical_row_inv _ Hr) as (a & b & c & d & e & f & E).
  unfold Spec.keep_completed, Spec.completed. rewrite E. reflexivity.
Qed.

Lemma mapM_invert_object (rs : list (nat * list cell)) :
  forallb Spec.canonical_row (map snd rs) = true ->
  mapM Pd.invert_object (map (fun r => nth 5 (snd r) NaN) rs)
  = Ok (repeat tt (List.length rs)).
Proof.
  induction rs as [|r rs IH]; simpl; intros H; [reflexivity|].
  apply andb_true_iff in H as [Hr Hrs].
  rewrite (IH Hrs).
  destruct (canonical_row_inv _ Hr) as (a & b & c & d & e & f & E).
  rewrite E. reflexivity.
Qed.

Lemma mapM_length {A B : Type} (f : A -> result B) (l : list A)
      (l' : list B) :
  mapM f l = Ok l' -> List.length l' = List.length l.
Proof.
  revert l'. induction l as [|a l IH]; simpl; intros l' H.
  - injection H as <-. reflexivity.
  - destruct (f a) as [b|e]; cbn [bind] in H; [|discriminate].
    destruct (mapM f l) as [bs|e]; cbn [bind] in H; [|discriminate].
    injection H as <-. simpl. now rewrite (IH bs).
Qed.

(** The series of a frame with the canonical columns. *)
Lemma column_canonical (t0 t1 t2 t3 t4 t5 : dtype)
      (rs : list (nat * list cell)) :
  let df :=
    mkDataFrame
      [("Date Added", t0); ("Item Needed", t1); ("Quantity", t2);
       ("Where to Get", t3); ("Urgency", t4); ("Completed", t5)] rs in
  Pd.getitem df "Urgency" = Ok (map (fun r => Spec.urgency (snd r)) rs)
  /\ Pd.column df "Completed" = Ok (t5, map (fun r => nth 5 (snd r) NaN) rs)
  /\ Pd.column df "Item Needed"
     = Ok (t1, map (fun r => Spec.itemNeeded (snd r)) rs)
  /\ Pd.column df "Where to Get"
     = Ok (t3, map (fun r => Spec.whereToGet (snd r)) rs).
Proof. repeat split. Qed.

Create HintDb frames.
#[local] Hint Constructors Spec.subseq : frames.

Lemma subseq_refl {A : Type} (l : list A) : Spec.subseq l l.
Proof. induction l; auto with frames. Qed.

Lemma subseq_nil_l {A : Type} (l : list A) : Spec.subseq [] l.
Proof. induction l; auto with frames. Qed.

Lemma subseq_trans {A : Type} (u v l : list A) :
  Spec.subseq u v -> Spec.subseq v l -> Spec.subseq u l.
Proof.
  intros Huv Hvl. revert u Huv.
  induction Hvl as [|a v l H IH|a v l H IH]; intros u Huv.
  - exact Huv.
  - inversion Huv; subst; auto with frames.
  - auto with frames.
Qed.

Lemma subseq_select {A : Type} (m : list bool) (l : list A) :
  Spec.subseq (Pd.select m l) l.
Proof.
  revert m. induction l as [|a l IH]; intros [|b m]; simpl;
    auto using subseq_nil_l with frames.
  destruct b; auto with frames.
Qed.

Lemma subseq_filter {A : Type} (f : A -> bool) (v l : list A) :
  Spec.subseq v l -> Spec.subseq (filter f v) l.
Proof.
  induction 1 as [|a v l H IH|a v l H IH]; simpl; auto with frames.
  destruct (f a); auto with frames.
Qed.

Lemma subseq_view_rows uf sc om (rs : list (nat * list cell)) :
  Spec.subseq (Spec.view_rows uf sc om rs) rs.
Proof.
  unfold Spec.view_rows. do 3 apply subseq_filter. apply subseq_refl.
Qed.

Lemma subseq_map {A B : Type} (f : A -> B) (v l : list A) :
  Spec.subseq v l -> Spec.subseq (map f v) (map f l).
Proof. induction 1; simpl; auto with frames. Qed.

Lemma subseq_In {A : Type} (v l : list A) (a : A) :
  Spec.subseq v l -> In a v -> In a l.
Proof.
  induction 1 as [|b v l H IH|b v l H IH]; simpl; intros Hin; auto.
  destruct Hin; auto.
Qed.

Lemma subseq_seq_sorted (v : list nat) (k n : nat) :
  Spec.subseq v (seq k n) -> StronglySorted lt v.
Proof.
  revert v k. induction n as [|n IH]; simpl; intros v k H.
  - inversion H; subst. constructor.
  - inversion H as [|a v' l H'|a v' l H']; subst.
    + constructor; [eapply IH; eassumption|].
      apply Forall_forall. intros x Hx.
      apply (subseq_In _ _ _ H') in Hx. apply in_seq in Hx. lia.
    + eapply IH; eassumption.
Qed.

Lemma sorted_NoDup (v : list nat) : StronglySorted lt v -> NoDup v.
Proof.
  induction 1 as [|a v H IH Hall]; constructor; auto.
  intros Hin. rewrite Forall_forall in Hall. specialize (Hall a Hin). lia.
Qed.

Lemma positional_rows (rs : list (nat * list cell)) (k : nat) :
  map fst rs = seq k (List.length rs) ->
  forall r, In r rs -> nth_error rs (fst r - k) = Some r /\ k <= fst r.
Proof.
  revert k. induction rs as [|x rs IH]; simpl; intros k H r Hin; [tauto|].
  injection H as Hx Hrs. destruct Hin as [->|Hin].
  - rewrite Hx, Nat.sub_diag. split; [reflexivity | lia].
  - destruct (IH (S k) Hrs r Hin) as [Hn Hle].
    replace (fst r - k) with (S (fst r - S k)) by lia. simpl.
    split; [assumption | lia].
Qed.

Lemma forallb_filter {A : Type} (p f : A -> bool) (l : list A) :
  forallb p l = true -> forallb p (filter f l) = true.
Proof.
  induction l as [|a l IH]; simpl; intros H; [reflexivity|].
  apply andb_true_iff in H as [Ha Hl].
  destruct (f a); simpl; [rewrite Ha|]; auto.
Qed.

Lemma text_rows_filter (f : nat * list cell -> bool)
      (rs : list (nat * list cell)) :
  forallb Spec.text_row (map snd rs) = true ->
  forallb Spec.text_row (map snd (filter f rs)) = true.
Proof.
  induction rs as [|r rs IH]; simpl; intros H; [reflexivity|].
  apply andb_true_iff in H as [Hr Hrs].
  destruct (f r); simpl; [rewrite Hr|]; auto.
Qed.

(** [.str] returns the values of the series when it exists. *)
Lemma str_ok (ser : Series) (vals : list cell) :
  Pd.str ser = Ok vals -> vals = snd ser.
Proof.
  unfold Pd.str. destruct (fst ser); try discriminate.
  destruct (_ || _); [|discriminate]. now intros [= <-].
Qed.

(** The accessor exists on what [.str.lower()] returns. *)
Lemma str_lowered (vals : list cell) :
  Pd.str (Object, map Pd.lower_cell vals) = Ok (map Pd.lower_cell vals).
Proof.
  unfold Pd.str. cbn [fst snd].
  assert (H : existsb Pd.is_bool (map Pd.lower_cell vals) = false).
  { induction vals as [|c vals IH]; simpl; [reflexivity|].
    rewrite IH. now destruct c. }
  rewrite H. cbn [negb]. now rewrite orb_true_r.
Qed.

(** The accessor exists on the two searched columns of text rows. *)
Lemma str_text_rows (rs : list (nat * list cell)) :
  forallb Spec.text_row (map snd rs) = true ->
  Pd.str (Object, map (fun r => Spec.itemNeeded (snd r)) rs)
  = Ok (map (fun r => Spec.itemNeeded (snd r)) rs)
  /\ Pd.str (Object, map (fun r => Spec.whereToGet (snd r)) rs)
     = Ok (map (fun r => Spec.whereToGet (snd r)) rs).
Proof.
  intros H. unfold Pd.str. cbn [fst snd].
  assert (Ha : existsb Pd.is_bool (map (fun r => Spec.itemNeeded (snd r)) rs)
               = false
               /\ existsb Pd.is_bool
                    (map (fun r => Spec.whereToGet (snd r)) rs) = false).
  { induction rs as [|r rs IH]; simpl; [auto|].
    simpl in H. apply andb_true_iff in H as [Hr Hrs].
    destruct (IH Hrs) as [-> ->].
    unfold Spec.text_row in Hr. apply andb_true_iff in Hr as [H1 H2].
    apply negb_true_iff in H1, H2. rewrite H1, H2. auto. }
  destruct Ha as [-> ->]. cbn [negb]. now rewrite !orb_true_r.
Qed.

Section FilterFacts.
Variable re_meta : string -> option (string -> bool).

Lemma compile_search_error (pat : string) (e : exn) :
  Re.compile_search re_meta pat = Raise e -> e = ReError.
Proof.
  unfold Re.compile_search. destruct (Re.literal pat); [discriminate|].
  destruct (re_meta pat); [discriminate|]. now intros [= <-].
Qed.

(** The urgency filter on a frame with the canonical columns. *)
Lemma filter_urgency_canonical (df : DataFrame) (uf : list Urgency) :
  columns df = App.CANONICAL ->
  App.filter_urgency df uf
  = Ok (mkDataFrame (schema df) (filter (Spec.keep_urgency uf) (rows df))).
Proof.
  intros H. canonical_frame df H. unfold App.filter_urgency.
  cbn [schema rows].
  destruct uf as [|u0 uf].
  - now rewrite filter_all.
  - pose proof (column_canonical t0 t1 t2 t3 t4 t5 rs) as G.
    cbv zeta in G. destruct G as (Gu & _). rewrite Gu. cbn [bind].
    unfold Pd.getitem_mask. cbn [schema rows].
    rewrite map_map, select_map. reflexivity.
Qed.

(** Hiding the completed rows of a frame with the canonical columns and
    rows: what [~] and [df[...]] do depends on the dtype of "Completed". *)
Lemma filter_completed_canonical (df : DataFrame) (sc : bool) :
  columns df = App.CANONICAL ->
  forallb Spec.canonical_row (map snd (rows df)) = true ->
  App.filter_completed df sc
  = if sc then Ok df
    else match Pd.dtype_of df "Completed" with
         | Some BoolDtype =>
             Ok (mkDataFrame (schema df)
                   (filter (Spec.keep_completed false) (rows df)))
         | Some Object =>
             match rows df with
             | [] => Ok (mkDataFrame [] [])
             | _ :: _ => Raise KeyError
             end
         | _ => Raise TypeError
         end.
Proof.
  intros H Hr. canonical_frame df H. unfold App.filter_completed.
  cbn [schema rows] in *.
  destruct sc; cbn [negb]; [reflexivity|].
  pose proof (column_canonical t0 t1 t2 t3 t4 t5 rs) as G.
  cbv zeta in G. destruct G as (_ & Gc & _). rewrite Gc. cbn [bind].
  change (Pd.dtype_of _ "Completed") with (Some t5).
  unfold Pd.invert. cbn [fst snd].
  destruct t5.
  - rewrite (mapM_invert_bool _ Hr). cbn [bind Pd.getitem_key].
    unfold Pd.getitem_mask. cbn [schema rows]. now rewrite select_map.
  - reflexivity.
  - rewrite (mapM_invert_object _ Hr). cbn [bind]. rewrite repeat_length.
    destruct rs; reflexivity.
Qed.

(** The search on a frame with the canonical columns: the accessor is asked
    for on both columns, and the rows kept are those that match. *)
Lemma filter_search_canonical (df : DataFrame) (search : string) :
  columns df = App.CANONICAL ->
  App.filter_search re_meta df search
  = if PyStr.truthy (PyStr.strip search) then
      a <- Pd.column df "Item Needed" ;;
      _ <- Pd.str a ;;
      m <- Re.compile_search re_meta (PyStr.lower (PyStr.strip search)) ;;
      b <- Pd.column df "Where to Get" ;;
      _ <- Pd.str b ;;
      Ok (mkDataFrame (schema df) (filter (Spec.keep_search m) (rows df)))
    else Ok df.
Proof.
  intros H. canonical_frame df H. unfold App.filter_search.
  destruct (PyStr.truthy (PyStr.strip search)); [|reflexivity].
  pose proof (column_canonical t0 t1 t2 t3 t4 t5 rs) as G.
  cbv zeta in G. destruct G as (_ & _ & Ga & Gb). rewrite Ga, Gb.
  cbn [bind]. unfold Pd.str_lower.
  destruct (Pd.str (t1, _)) as [va|e] eqn:Ea; cbn [bind]; [|reflexivity].
  apply str_ok in Ea. cbn [snd] in Ea. subst va.
  unfold Pd.str_contains. rewrite !str_lowered. cbn [bind].
  destruct (Re.compile_search re_meta (PyStr.lower (PyStr.strip search)))
    as [m|e]; cbn [bind]; [|reflexivity].
  destruct (Pd.str (t3, _)) as [vb|e] eqn:Eb; cbn [bind]; [|reflexivity].
  apply str_ok in Eb. cbn [snd] in Eb. subst vb.
  rewrite str_lowered. cbn [bind].
  unfold Pd.getitem_mask. cbn [schema rows]. rewrite !map_map.
  rewrite series_or_map. rewrite select_map.
  f_equal. f_equal. apply filter_ext. intros r.
  unfold Spec.keep_search, Spec.field_matches.
  destruct (Spec.itemNeeded (snd r)), (Spec.whereToGet (snd r));
    reflexivity.
Qed.

(** A blank search filters nothing, whatever the frame. *)
Lemma filter_search_blank (df : DataFrame) (search : string) :
  PyStr.truthy (PyStr.strip search) = false ->
  App.filter_search re_meta df search = Ok df.
Proof. intros H. unfold App.filter_search. now rewrite H. Qed.

(** The search on searchable columns: the rows that match, once the search
    text is turned into a test. *)
Lemma filter_search_char (df : DataFrame) (search : string) :
  columns df = App.CANONICAL ->
  (PyStr.truthy (PyStr.strip search) = true -> Spec.searchable df) ->
  App.filter_search re_meta df search
  = om <- Spec.search_test re_meta search ;;
    Ok (mkDataFrame (schema df) (filter (Spec.keep_search_opt om) (rows df))).
Proof.
  intros Hc Hs. rewrite (filter_search_canonical df search Hc).
  unfold Spec.search_test.
  destruct (PyStr.truthy (PyStr.strip search)).
  - destruct (Hs eq_refl) as (Da & Db & Ht).
    destruct (str_text_rows _ Ht) as [Sa Sb].
    canonical_frame df Hc. cbn [schema rows] in *.
    pose proof (column_canonical t0 t1 t2 t3 t4 t5 rs) as G.
    cbv zeta in G. destruct G as (_ & _ & Ga & Gb). rewrite Ga, Gb.
    cbn [bind].
    change (Some t1 = Some Object) in Da. injection Da as ->.
    change (Some t3 = Some Object) in Db. injection Db as ->.
    rewrite Sa, Sb. cbn [bind].
    destruct (Re.compile_search re_meta (PyStr.lower (PyStr.strip search)));
      reflexivity.
  - cbn [bind]. destruct df as [sch rs]. cbn [schema rows].
    now rewrite filter_all.
Qed.

(** On a frame with canonical columns and rows, a bool "Completed" where
    completed rows are hidden and searchable columns where a search is made,
    the block is the three list filters in a row, once the search text is
    turned into a test. *)
Lemma filtered_data_char (df : DataFrame) (uf : list Urgency) (sc : bool)
      (search : string) :
  columns df = App.CANONICAL ->
  forallb Spec.canonical_row (map snd (rows df)) = true ->
  (sc = false -> Spec.bool_completed df) ->
  (PyStr.truthy (PyStr.strip search) = true -> Spec.searchable df) ->
  App.filtered_data re_meta df uf sc search
  = om <- Spec.search_test re_meta search ;;
    Ok (mkDataFrame (schema df) (Spec.view_rows uf sc om (rows df))).
Proof.
  intros Hc Hr Hb Hs. unfold App.filtered_data, Spec.view_rows.
  rewrite (filter_urgency_canonical df uf Hc). cbn [bind].
  pose proof (canonical_rows_filter (Spec.keep_urgency uf) _ Hr) as Hr1.
  set (rs1 := filter (Spec.keep_urgency uf) (rows df)) in *.
  rewrite (filter_completed_canonical (mkDataFrame (schema df) rs1) sc Hc Hr1).
  destruct sc.
  - cbn [bind].
    rewrite (filter_search_char (mkDataFrame (schema df) rs1) search Hc).
    + cbn [schema rows]. now rewrite (filter_all (Spec.keep_completed true)).
    + intros Et. destruct (Hs Et) as (Da & Db & Ht).
      repeat split; try assumption. cbn [rows]. unfold rs1.
      now apply text_rows_filter.
  - change (Pd.dtype_of (mkDataFrame (schema df) rs1) "Completed")
      with (Pd.dtype_of df "Completed").
    rewrite (Hb eq_refl). cbn [bind schema rows].
    rewrite (filter_search_char
               (mkDataFrame (schema df)
                  (filter (Spec.keep_completed false) rs1)) search Hc).
    + reflexivity.
    + intros Et. destruct (Hs Et) as (Da & Db & Ht).
      repeat split; try assumption. cbn [rows]. unfold rs1.
      now do 2 apply text_rows_filter.
Qed.

(** What the block returns on a frame with canonical columns and rows,
    whatever the dtypes: the rows that the three list filters keep, under
    the columns of the frame or, when there is no row left to hide in an
    object "Completed", without any column. *)
Lemma filtered_data_view (df v : DataFrame) (uf : list Urgency) (sc : bool)
      (search : string) :
  columns df = App.CANONICAL ->
  forallb Spec.canonical_row (map snd (rows df)) = true ->
  App.filtered_data re_meta df uf sc search = Ok v ->
  exists om,
    Spec.search_test re_meta search = Ok om
    /\ rows v = Spec.view_rows uf sc om (rows df)
    /\ (schema v = schema df \/ (schema v = [] /\ rows v = [])).
Proof.
  intros Hc Hr. unfold App.filtered_data, Spec.view_rows.
  rewrite (filter_urgency_canonical df uf Hc). cbn [bind].
  pose proof (canonical_rows_filter (Spec.keep_urgency uf) _ Hr) as Hr1.
  set (rs1 := filter (Spec.keep_urgency uf) (rows df)) in *.
  rewrite (filter_completed_canonical (mkDataFrame (schema df) rs1) sc Hc Hr1).
  assert (Canon : forall rs2,
    App.filter_search re_meta (mkDataFrame (schema df) rs2) search = Ok v ->
    exists om,
      Spec.search_test re_meta search = Ok om
      /\ rows v = filter (Spec.keep_search_opt om) rs2
      /\ (schema v = schema df \/ (schema v = [] /\ rows v = []))).
  { intros rs2.
    rewrite (filter_search_canonical (mkDataFrame (schema df) rs2) search Hc).
    unfold Spec.search_test.
    destruct (PyStr.truthy (PyStr.strip search)).
    - destruct (Pd.column _ "Item Needed") as [a|e]; cbn [bind];
        [|discriminate].
      destruct (Pd.str a) as [va|e]; cbn [bind]; [|discriminate].
      destruct (Re.compile_search re_meta _) as [m|e]; cbn [bind];
        [|discriminate].
      destruct (Pd.column _ "Where to Get") as [b|e]; cbn [bind];
        [|discriminate].
      destruct (Pd.str b) as [vb|e]; cbn [bind]; [|discriminate].
      intros [= <-]. exists (Some m). cbn [schema rows]. auto.
    - intros [= <-]. exists None. cbn [schema rows Spec.keep_search_opt].
      rewrite filter_all by reflexivity. auto. }
  destruct sc.
  - cbn [bind]. intros H. destruct (Canon _ H) as (om & Eo & Ev & Es).
    exists om. rewrite (filter_all (Spec.keep_completed true)) by reflexivity.
    auto.
  - change (Pd.dtype_of (mkDataFrame (schema df) rs1) "Completed")
      with (Pd.dtype_of df "Completed").
    destruct (Pd.dtype_of df "Completed") as [[| |]|]; cbn [bind schema rows];
      try discriminate.
    + intros H. destruct (Canon _ H) as (om & Eo & Ev & Es).
      exists om. auto.
    + destruct rs1 as [|r1 rs1']; cbn [bind]; [|discriminate].
      unfold App.filter_search, Spec.search_test.
      destruct (PyStr.truthy (PyStr.strip search)); [discriminate|].
      intros [= <-]. exists None. cbn [schema rows filter]. auto.
Qed.

(** The ways the search ends on a frame with the canonical columns. *)
Lemma filter_search_cases (df : DataFrame) (search : string) :
  columns df = App.CANONICAL ->
  match App.filter_search re_meta df search with
  | Ok v =>
      exists om,
        Spec.search_test re_meta search = Ok om
        /\ v = mkDataFrame (schema df)
                 (filter (Spec.keep_search_opt om) (rows df))
  | Raise e =>
      (e = ReError /\ Spec.search_test re_meta search = Raise ReError)
      \/ (e = AttributeError
          /\ PyStr.truthy (PyStr.strip search) = true
          /\ ~ Spec.searchable df)
  end.
Proof.
  intros Hc. rewrite (filter_search_canonical df search Hc).
  unfold Spec.search_test.
  destruct (PyStr.truthy (PyStr.strip search)).
  2:{ exists None. split; [reflexivity|]. destruct df as [sch rs].
      cbn [schema rows Spec.keep_search_opt]. now rewrite filter_all. }
  canonical_frame df Hc. cbn [schema rows].
  pose proof (column_canonical t0 t1 t2 t3 t4 t5 rs) as G.
  cbv zeta in G. destruct G as (_ & _ & Ga & Gb). rewrite Ga, Gb.
  cbn [bind].
  destruct (Pd.str (t1, _)) as [va|e] eqn:Ea; cbn [bind].
  2:{ right. unfold Pd.str in Ea. cbn [fst snd] in Ea.
      assert (e = AttributeError) as ->.
      { destruct t1; try congruence. destruct (_ || _); congruence. }
      repeat split. intros (Da & Db & Ht).
      change (Some t1 = Some Object) in Da. injection Da as ->.
      cbn [rows] in Ht. destruct (str_text_rows rs Ht) as [Sa _].
      unfold Pd.str in Sa. cbn [fst snd] in Sa. congruence. }
  destruct (Re.compile_search re_meta (PyStr.lower (PyStr.strip search)))
    as [m|e] eqn:Em; cbn [bind].
  2:{ left. apply compile_search_error in Em. subst e. auto. }
  destruct (Pd.str (t3, _)) as [vb|e] eqn:Eb; cbn [bind].
  2:{ right. unfold Pd.str in Eb. cbn [fst snd] in Eb.
      assert (e = AttributeError) as ->.
      { destruct t3; try congruence. destruct (_ || _); congruence. }
      repeat split. intros (Da & Db & Ht).
      change (Some t3 = Some Object) in Db. injection Db as ->.
      cbn [rows] in Ht. destruct (str_text_rows rs Ht) as [_ Sb].
      unfold Pd.str in Sb. cbn [fst snd] in Sb. congruence. }
  exists (Some m). split; reflexivity.
Qed.

(** The ways the block ends on a frame with canonical columns and rows,
    whatever the dtypes.  A view holds the rows that the three list filters
    keep, under the columns of the frame or, when no row is left to hide in
    an object "Completed", under no column.  [re.error] comes from a search
    text that does not compile, [AttributeError] from a search in columns
    that are not searchable, [KeyError] and [TypeError] from hiding
    completed rows in a "Completed" that is not bool. *)
Lemma filtered_data_cases (df : DataFrame) (uf : list Urgency) (sc : bool)
      (search : string) :
  columns df = App.CANONICAL ->
  forallb Spec.canonical_row (map snd (rows df)) = true ->
  match App.filtered_data re_meta df uf sc search with
  | Ok v =>
      exists om,
        Spec.search_test re_meta search = Ok om
        /\ rows v = Spec.view_rows uf sc om (rows df)
        /\ (schema v = schema df \/ (schema v = [] /\ rows v = []))
  | Raise e =>
      (e = ReError /\ Spec.search_test re_meta search = Raise ReError)
      \/ (e = AttributeError
          /\ PyStr.truthy (PyStr.strip search) = true
          /\ ~ Spec.searchable df)
      \/ ((e = KeyError \/ e = TypeError)
          /\ sc = false
          /\ ~ Spec.bool_completed df)
  end.
Proof.
  intros Hc Hr.
  destruct (App.filtered_data re_meta df uf sc search) as [v|e] eqn:E.
  { exact (filtered_data_view df v uf sc search Hc Hr E). }
  revert E. unfold App.filtered_data.
  rewrite (filter_urgency_canonical df uf Hc). cbn [bind].
  pose proof (canonical_rows_filter (Spec.keep_urgency uf) _ Hr) as Hr1.
  set (rs1 := filter (Spec.keep_urgency uf) (rows df)) in *.
  rewrite (filter_completed_canonical (mkDataFrame (schema df) rs1) sc Hc Hr1).
  assert (Canon : forall rs2,
    (forallb Spec.text_row (map snd (rows df)) = true ->
     forallb Spec.text_row (map snd rs2) = true) ->
    App.filter_search re_meta (mkDataFrame (schema df) rs2) search = Raise e ->
    (e = ReError /\ Spec.search_test re_meta search = Raise ReError)
    \/ (e = AttributeError
        /\ PyStr.truthy (PyStr.strip search) = true
        /\ ~ Spec.searchable df)
    \/ ((e = KeyError \/ e = TypeError)
        /\ sc = false
        /\ ~ Spec.bool_completed df)).
  { intros rs2 Ht E.
    pose proof (filter_search_cases (mkDataFrame (schema df) rs2) search Hc)
      as H.
    rewrite E in H. destruct H as [H|(He & Hs & Hn)]; [now left|].
    right. left. repeat split; try assumption.
    intros (Da & Db & Hrows). apply Hn. repeat split; auto. }
  destruct sc.
  - cbn [bind]. apply Canon. intros Ht. unfold rs1.
    now apply text_rows_filter.
  - change (Pd.dtype_of (mkDataFrame (schema df) rs1) "Completed")
      with (Pd.dtype_of df "Completed").
    assert (Bad : Pd.dtype_of df "Completed" <> Some BoolDtype ->
                  forall e', e' = KeyError \/ e' = TypeError ->
                  e' = e ->
                  (e = ReError
                   /\ Spec.search_test re_meta search = Raise ReError)
                  \/ (e = AttributeError
                      /\ PyStr.truthy (PyStr.strip search) = true
                      /\ ~ Spec.searchable df)
                  \/ ((e = KeyError \/ e = TypeError)
                      /\ false = false
                      /\ ~ Spec.bool_completed df)).
    { intros Hd e' He' <-. right. right. repeat split; auto. }
    destruct (Pd.dtype_of df "Completed") as [[| |]|] eqn:Ed;
      cbn [bind schema rows].
    + apply Canon. intros Ht. unfold rs1. now do 2 apply text_rows_filter.
    + intros [= E]. apply (Bad ltac:(discriminate) TypeError); auto.
    + destruct rs1 as [|r1 rs1']; cbn [bind].
      * unfold App.filter_search.
        destruct (PyStr.truthy (PyStr.strip search)); [|discriminate].
        cbn. intros [= E]. apply (Bad ltac:(discriminate) KeyError); auto.
      * intros [= E]. apply (Bad ltac:(discriminate) KeyError); auto.
    + intros [= E]. apply (Bad ltac:(discriminate) TypeError); auto.
Qed.

End FilterFacts.
(** ** Adding an item *)

(** C2: a submission whose item name is not empty once trimmed makes the
    Table one row longer; the former rows stay in place and the new row comes
    last, with the trimmed name, [False] for "Completed" and the current
    time stamp for "Date Added"; the whole Table is then written to the
    sheet. *)
Theorem add_item_appends (st : State) (now item q w : string) (u : Urgency) :
  Spec.Table (session_df st) ->
  PyStr.truthy (PyStr.strip item) = true ->
  let st' := App.add_item st now item q w u in
  exists r,
    rows (session_df st')
    = rows (session_df st) ++ [(List.length (rows (session_df st)), r)]
    /\ List.length (rows (session_df st'))
       = S (List.length (rows (session_df st)))
    /\ columns (session_df st') = App.CANONICAL
    /\ Spec.itemNeeded r = Text (PyStr.strip item)
    /\ Spec.completed r = Flag false
    /\ nth 0 r NaN = Text now
    /\ sheet st' = App.conn_update (session_df st')
    /\ In (Update (sheet st')) (trace st').
Proof.
  intros HT Hv st'. exists (Spec.added_row now item q w u).
  unfold st'. rewrite (add_item_valid st now item q w u HT Hv).
  cbn [session_df sheet trace rows].
  repeat split; try reflexivity.
  - rewrite length_app. simpl. lia.
  - apply in_or_app. right. left. reflexivity.
Qed.

Lemma table1_is_table : Spec.Table Sample.table1.
Proof. repeat split. Qed.

Lemma table3_is_table : Spec.Table Sample.table3.
Proof. repeat split. Qed.

Lemma add_item_appends_witness :
  exists r,
    rows (session_df (App.add_item (Sample.state_of Sample.table1)
                        "2024-05-02 10:00" " Bread " "1" "Bakery" Soon))
    = rows Sample.table1 ++ [(1, r)]
    /\ Spec.itemNeeded r = Text "Bread".
Proof.
  destruct (add_item_appends (Sample.state_of Sample.table1)
              "2024-05-02 10:00" " Bread " "1" "Bakery" Soon
              table1_is_table eq_refl)
    as (r & Hrows & _ & _ & Hitem & _).
  exists r. split; [exact Hrows | exact Hitem].
Defined.

(** C3: a submission whose item name is empty or made of whitespace only
    leaves the Table and the sheet as they are; the only effect is the error
    message, and nothing is written. *)
Theorem add_item_blank (st : State) (now item q w : string) (u : Urgency) :
  PyStr.all_chars PyStr.is_space item = true ->
  App.add_item st now item q w u
  = mkState (session_df st) (sheet st)
      (trace st ++ [StError "Item Needed is required."]).
Proof.
  intros H. unfold App.add_item. rewrite (strip_blank item H). reflexivity.
Qed.

Lemma add_item_blank_witness :
  App.add_item (Sample.state_of Sample.table1) "2024-05-02 10:00" "   "
    "1" "Bakery" Now
  = mkState Sample.table1 (App.conn_update Sample.table1)
      [StError "Item Needed is required."].
Proof.
  exact (add_item_blank (Sample.state_of Sample.table1) "2024-05-02 10:00"
           "   " "1" "Bakery" Now eq_refl).
Defined.

(** C8: the row that a valid submission stores holds the trimmed quantity and
    the trimmed place, not the texts as they were typed. *)
Theorem add_item_trims_optional (st : State) (now item q w : string)
        (u : Urgency) :
  Spec.Table (session_df st) ->
  PyStr.truthy (PyStr.strip item) = true ->
  exists l r,
    nth_error (rows (session_df (App.add_item st now item q w u)))
              (List.length (rows (session_df st))) = Some (l, r)
    /\ Spec.quantity r = Text (PyStr.strip q)
    /\ Spec.whereToGet r = Text (PyStr.strip w).
Proof.
  intros HT Hv.
  exists (List.length (rows (session_df st))),
    (Spec.added_row now item q w u).
  rewrite (add_item_valid st now item q w u HT Hv).
  cbn [session_df rows]. repeat split.
  rewrite nth_error_app2 by lia. now rewrite Nat.sub_diag.
Qed.

(** ** The filtered view *)

Lemma keep_completed_false (r : nat * list cell) :
  Spec.keep_completed false r = true -> Spec.completed (snd r) = Flag false.
Proof.
  unfold Spec.keep_completed. cbn [orb].
  destruct (Spec.completed (snd r)) as [| |[|]]; simpl; congruence.
Qed.

Lemma filter_filter_filter {A : Type} (f g h : A -> bool) (l : list A) :
  filter h (filter g (filter f l)) = filter (fun a => f a && g a && h a) l.
Proof.
  induction l as [|a l IH]; simpl; [reflexivity|].
  destruct (f a); simpl; [|assumption].
  destruct (g a); simpl; [|assumption].
  destruct (h a); simpl; now rewrite IH.
Qed.

Lemma table3_is_ready : Spec.Ready Sample.table3.
Proof. repeat split. Qed.

Section FilterClaims.
Variable re_meta : string -> option (string -> bool).

(** C1 (amended): with no urgency selected, completed items shown and an
    empty search text the view is the whole Table, since the urgency filter
    runs only on a selection that is not empty.  With the three urgencies
    selected, completed items hidden and an empty search text, no view holds
    a row whose "Completed" is true; the view exists when "Completed" is a
    bool column, as [load_data] leaves it; when it is an object column, as
    "Create New List" leaves it, [~] gives no mask and the block raises
    [KeyError] as soon as a row has one of the three urgencies. *)
Theorem filter_composition (df : DataFrame) :
  Spec.Table df ->
  App.filtered_data re_meta df [] true EmptyString = Ok df
  /\ (forall v,
        App.filtered_data re_meta df App.ALL_URGENCIES false EmptyString
        = Ok v ->
        Forall (fun r => Spec.completed (snd r) <> Flag true) (rows v))
  /\ (Spec.bool_completed df ->
      exists v,
        App.filtered_data re_meta df App.ALL_URGENCIES false EmptyString
        = Ok v
        /\ schema v = schema df
        /\ rows v
           = filter (Spec.keep_completed false)
               (filter (Spec.keep_urgency App.ALL_URGENCIES) (rows df)))
  /\ (Pd.dtype_of df "Completed" = Some Object ->
      filter (Spec.keep_urgency App.ALL_URGENCIES) (rows df) <> [] ->
      App.filtered_data re_meta df App.ALL_URGENCIES false EmptyString
      = Raise KeyError).
Proof.
  intros (Hc & Hi & Hr). split; [reflexivity|]. split; [|split].
  - intros v Hv.
    destruct (filtered_data_view re_meta df v _ _ _ Hc Hr Hv)
      as (om & _ & Hrows & _).
    rewrite Hrows. apply Forall_forall. intros r Hin.
    unfold Spec.view_rows in Hin.
    apply filter_In in Hin as [Hin _]. apply filter_In in Hin as [_ Hk].
    rewrite (keep_completed_false r Hk). discriminate.
  - intros Hb.
    rewrite (filtered_data_char re_meta df _ _ _ Hc Hr (fun _ => Hb))
      by discriminate.
    eexists. split; [reflexivity|]. split; [reflexivity|].
    cbn [rows]. unfold Spec.view_rows. cbn [Spec.keep_search_opt].
    now rewrite filter_all.
  - intros Hd Hrows. unfold App.filtered_data.
    rewrite (filter_urgency_canonical df _ Hc). cbn [bind].
    pose proof (canonical_rows_filter (Spec.keep_urgency App.ALL_URGENCIES)
                  _ Hr) as Hr1.
    rewrite (filter_completed_canonical
               (mkDataFrame (schema df)
                  (filter (Spec.keep_urgency App.ALL_URGENCIES) (rows df)))
               false Hc Hr1).
    change (Pd.dtype_of (mkDataFrame (schema df) _) "Completed")
      with (Pd.dtype_of df "Completed").
    rewrite Hd. cbn [rows].
    destruct (filter (Spec.keep_urgency App.ALL_URGENCIES) (rows df));
      [congruence | reflexivity].
Qed.

(** C6 (amended): on a Table whose "Completed" is a bool column where
    completed rows are hidden, and whose "Item Needed" and "Where to Get" are
    object columns of texts and missing values where a search is made, the
    block applies the urgency filter (only when some urgency is selected),
    then the completed filter, then the search (only when the search text is
    not empty once trimmed); the search looks for the trimmed, lower-cased
    search text in the lower-cased "Item Needed" and "Where to Get", a row
    matching when either holds it.  This is stated for search texts without
    regular-expression metacharacter.  The state goes through the block
    unchanged.  With some urgency selected and a search text that trimming
    leaves as it is, the view is the one the specification words. *)
Theorem filtered_data_order (st : State) (uf : list Urgency) (sc : bool)
        (search : string) :
  Spec.Table (session_df st) ->
  (sc = false -> Spec.bool_completed (session_df st)) ->
  (PyStr.truthy (PyStr.strip search) = true ->
   Spec.searchable (session_df st)) ->
  Re.literal (PyStr.lower (PyStr.strip search)) = true ->
  let om :=
    if PyStr.truthy (PyStr.strip search)
    then Some (PyStr.contains (PyStr.lower (PyStr.strip search)))
    else None in
  App.filter_block re_meta st uf sc search
  = (st,
     Ok (mkDataFrame (schema (session_df st))
           (filter (Spec.keep_search_opt om)
              (filter (Spec.keep_completed sc)
                 (filter (Spec.keep_urgency uf) (rows (session_df st)))))))
  /\ (uf <> [] -> PyStr.strip search = search ->
      App.filtered_data re_meta (session_df st) uf sc search
      = Ok (Spec.spec_filtered_view (session_df st) uf sc search)).
Proof.
  intros (Hc & Hi & Hr) Hb Hse Hlit om.
  assert (E : App.filtered_data re_meta (session_df st) uf sc search
              = Ok (mkDataFrame (schema (session_df st))
                      (Spec.view_rows uf sc om (rows (session_df st))))).
  { rewrite (filtered_data_char re_meta _ uf sc search Hc Hr Hb Hse).
    unfold Spec.search_test, om, Re.compile_search. rewrite Hlit.
    destruct (PyStr.truthy (PyStr.strip search)); reflexivity. }
  split.
  - unfold App.filter_block. rewrite E. reflexivity.
  - intros Huf Hs. rewrite E. unfold Spec.spec_filtered_view, Spec.view_rows.
    f_equal. f_equal. rewrite filter_filter_filter.
    apply filter_ext. intros r. unfold Spec.spec_keep.
    f_equal; [f_equal|].
    + destruct uf; [congruence | reflexivity].
    + unfold om. rewrite Hs. destruct (PyStr.truthy search); [|reflexivity].
      cbn [negb orb Spec.keep_search_opt]. unfold Spec.keep_search.
      f_equal.
Qed.


(** C10: on a Table a view is a subsequence of the rows: the rows come in
    the order of the Table, their labels grow strictly (so no position comes
    twice), and each row stands in the Table at the position that its label
    names.  The view has the columns of the Table, or no column and no row.
    The block yields no view when the search text does not compile, when a
    search is made in columns that are not searchable, or when completed
    rows are hidden in a "Completed" that is not bool. *)
Theorem filtered_view_subsequence (df : DataFrame) (uf : list Urgency)
        (sc : bool) (search : string) :
  Spec.Table df ->
  match App.filtered_data re_meta df uf sc search with
  | Ok v =>
      (schema v = schema df \/ (schema v = [] /\ rows v = []))
      /\ Spec.subseq (rows v) (rows df)
      /\ StronglySorted lt (Pd.index v)
      /\ NoDup (Pd.index v)
      /\ Forall (fun r => nth_error (rows df) (fst r) = Some r) (rows v)
  | Raise e =>
      (e = ReError
       /\ Re.literal (PyStr.lower (PyStr.strip search)) = false)
      \/ (e = AttributeError
          /\ PyStr.truthy (PyStr.strip search) = true
          /\ ~ Spec.searchable df)
      \/ ((e = KeyError \/ e = TypeError)
          /\ sc = false /\ ~ Spec.bool_completed df)
  end.
Proof.
  intros (Hc & Hi & Hr).
  pose proof (filtered_data_cases re_meta df uf sc search Hc Hr) as H.
  destruct (App.filtered_data re_meta df uf sc search) as [v|e].
  - destruct H as (om & _ & Hrows & Hsch).
    pose proof (subseq_view_rows uf sc om (rows df)) as Hs.
    rewrite <- Hrows in Hs.
    assert (Hsorted : StronglySorted lt (Pd.index v)).
    { unfold Pd.index. eapply subseq_seq_sorted.
      rewrite <- Hi. apply subseq_map, Hs. }
    repeat split; auto.
    + apply sorted_NoDup, Hsorted.
    + apply Forall_forall. intros r Hin.
      apply (subseq_In _ _ _ Hs) in Hin.
      destruct (positional_rows (rows df) 0 Hi r Hin) as [Hn _].
      now rewrite Nat.sub_0_r in Hn.
  - destruct H as [[-> H]|H]; [left|right; exact H].
    split; [reflexivity|].
    unfold Spec.search_test in H.
    destruct (PyStr.truthy (PyStr.strip search)); [|discriminate].
    unfold Re.compile_search in H.
    destruct (Re.literal _); [discriminate | reflexivity].
Qed.

End FilterClaims.

Lemma filter_composition_witness :
  App.filtered_data Sample.strict_engine Sample.table3 [] true EmptyString
  = Ok Sample.table3
  /\ exists v,
       App.filtered_data Sample.strict_engine Sample.table3 App.ALL_URGENCIES
         false EmptyString = Ok v
       /\ rows v = [(0, Sample.milk); (2, Sample.blank)].
Proof.
  destruct (filter_composition Sample.strict_engine Sample.table3
              table3_is_table) as (H1 & _ & H3 & _).
  split; [exact H1|].
  destruct (H3 eq_refl) as (v & Hv & _ & Hrows).
  exists v. split; [exact Hv | exact Hrows].
Defined.

(** C1 as stated fails: with no urgency selected the view of a Table of one
    row is not empty. *)
Lemma empty_urgency_set_keeps_rows :
  ~ (exists v,
       App.filtered_data Sample.strict_engine Sample.table1 [] true EmptyString
       = Ok v
       /\ rows v = []).
Proof.
  intros (v & Hv & Hrows). vm_compute in Hv. injection Hv as <-.
  discriminate Hrows.
Qed.

Lemma filtered_data_order_witness :
  App.filter_block Sample.strict_engine (Sample.state_of Sample.table3)
    [Now; Soon] true " MILK "
  = (Sample.state_of Sample.table3,
     Ok (mkDataFrame Sample.SCHEMA [(0, Sample.milk)])).
Proof.
  exact (proj1 (filtered_data_order Sample.strict_engine
                  (Sample.state_of Sample.table3) [Now; Soon] true " MILK "
                  table3_is_table (fun _ => eq_refl)
                  (fun _ => proj2 (proj2 table3_is_ready)) eq_refl)).
Defined.

(** C6 as stated fails twice: the urgency filter does not run on an empty
    selection, and the search text is trimmed before it is looked for. *)
Lemma filtered_data_differs_from_spec :
  App.filtered_data Sample.strict_engine Sample.table3 [] true EmptyString
  <> Ok (Spec.spec_filtered_view Sample.table3 [] true EmptyString)
  /\ App.filtered_data Sample.strict_engine Sample.table3 App.ALL_URGENCIES
       true " milk"
     <> Ok (Spec.spec_filtered_view Sample.table3 App.ALL_URGENCIES true
              " milk").
Proof.
  split; intros H; vm_compute in H; discriminate H.
Qed.



Lemma filtered_view_subsequence_witness :
  exists v,
    App.filtered_data Sample.strict_engine Sample.table3 [Now] false "MILK"
    = Ok v
    /\ Spec.subseq (rows v) (rows Sample.table3)
    /\ NoDup (Pd.index v).
Proof.
  pose proof (filtered_view_subsequence Sample.strict_engine Sample.table3
                [Now] false "MILK" table3_is_table) as H.
  destruct (App.filtered_data Sample.strict_engine Sample.table3 [Now] false
              "MILK") as [v|e] eqn:E.
  - exists v. destruct H as (_ & Hs & _ & Hn & _). auto.
  - exfalso. vm_compute in E. discriminate E.
Defined.

(** ** Writing edits back *)

Lemma reindex_six (r : list cell) :
  List.length r = 6 -> Pd.reindex_row App.CANONICAL App.CANONICAL r = r.
Proof.
  destruct r as [|a [|b [|c [|d [|e [|f [|g r]]]]]]]; simpl; try discriminate.
  reflexivity.
Qed.

Lemma find_combine_none {B : Type} (ks : list nat) (vs : list B) (i : nat) :
  ~ In i ks -> find (fun x => fst x =? i) (combine ks vs) = None.
Proof.
  revert vs. induction ks as [|k ks IH]; intros vs Hin; [reflexivity|].
  destruct vs as [|v vs]; [reflexivity|]. cbn [combine find fst].
  destruct (Nat.eqb_spec k i) as [->|Hne].
  - exfalso. apply Hin. now left.
  - apply IH. intros H. apply Hin. now right.
Qed.

Lemma find_combine_some {B : Type} (ks : list nat) (vs : list B) (k i : nat)
      (v : B) :
  NoDup ks -> nth_error ks k = Some i -> nth_error vs k = Some v ->
  find (fun x => fst x =? i) (combine ks vs) = Some (i, v).
Proof.
  revert vs k. induction ks as [|k0 ks IH]; intros vs k Hnd Hk Hv.
  - destruct k; discriminate.
  - destruct vs as [|v0 vs]; [destruct k; discriminate|].
    inversion Hnd as [|? ? Hnot Hnd']; subst.
    cbn [combine find fst]. destruct k as [|k]; simpl in Hk, Hv.
    + injection Hk as ->. injection Hv as ->. now rewrite Nat.eqb_refl.
    + destruct (Nat.eqb_spec k0 i) as [->|Hne].
      * exfalso. apply Hnot. eapply nth_error_In. eassumption.
      * eapply IH; eassumption.
Qed.

Lemma existsb_eqb_In (i : nat) (l : list nat) :
  In i l -> existsb (Nat.eqb i) l = true.
Proof.
  intros H. apply existsb_exists. exists i.
  split; [assumption | apply Nat.eqb_refl].
Qed.

Lemma label_at_position (rs : list (nat * list cell)) (i : nat)
      (r : nat * list cell) :
  map fst rs = seq 0 (List.length rs) -> nth_error rs i = Some r -> fst r = i.
Proof.
  intros H Hn.
  assert (E : nth_error (map fst rs) i = Some (fst r))
    by (rewrite nth_error_map, Hn; reflexivity).
  rewrite H in E. 
  assert (Hlt : i < List.length rs) by (apply nth_error_Some; congruence).
  rewrite nth_error_seq in E.
  destruct (Nat.ltb_spec i (List.length rs)); [|lia].
  injection E as <-. reflexivity.
Qed.

Lemma map_fst_combine {B : Type} (ks : list nat) (vs : list B) :
  List.length vs = List.length ks -> map fst (combine ks vs) = ks.
Proof.
  revert vs. induction ks as [|k ks IH]; intros [|v vs] H; simpl in *;
    try discriminate; try reflexivity.
  f_equal. apply IH. lia.
Qed.

Lemma columns_loc_dtype (e : DataFrame) (sch : list (string * dtype)) :
  map fst (map (Pd.loc_dtype e) sch) = map fst sch.
Proof. rewrite map_map. reflexivity. Qed.

(** The write-back of edited rows into a Table. *)
Lemma loc_setitem_table (df : DataFrame) (sch : list (string * dtype))
      (ks : list nat) (edits : list (list cell)) :
  Spec.Table df ->
  map fst sch = App.CANONICAL ->
  NoDup ks -> incl ks (Pd.index df) ->
  List.length edits = List.length ks ->
  Forall (fun e => List.length e = 6) edits ->
  exists rs',
    Pd.loc_setitem df (mkDataFrame sch (combine ks edits))
    = Ok (mkDataFrame
            (map (Pd.loc_dtype (mkDataFrame sch (combine ks edits)))
               (schema df)) rs')
    /\ List.length rs' = List.length (rows df)
    /\ (forall k i e, nth_error ks k = Some i -> nth_error edits k = Some e ->
                      nth_error rs' i = Some (i, e))
    /\ (forall i, ~ In i ks -> nth_error rs' i = nth_error (rows df) i).
Proof.
  intros (Hc & Hi & Hr) Hsch Hnd Hincl Hlen Hsix.
  unfold Pd.loc_setitem. unfold Pd.index at 2. cbn [rows].
  replace (columns (mkDataFrame sch (combine ks edits))) with App.CANONICAL
    by (symmetry; exact Hsch).
  rewrite (map_fst_combine ks edits Hlen).
  assert (Hchk :
    forallb (fun l => existsb (Nat.eqb l) (Pd.index df)) ks = true).
  { apply forallb_forall. intros l Hl. apply existsb_eqb_In, Hincl, Hl. }
  rewrite Hchk, Hc. eexists. split; [reflexivity|].
  split; [apply length_map|]. split.
  - intros k i e Hk He.
    assert (Hin : In i (Pd.index df))
      by (apply Hincl; eapply nth_error_In; eassumption).
    rewrite Hi in Hin. apply in_seq in Hin.
    destruct (nth_error (rows df) i) as [r|] eqn:Er.
    2:{ apply nth_error_None in Er. lia. }
    rewrite nth_error_map, Er. cbn [option_map].
    rewrite (label_at_position (rows df) i r Hi Er).
    rewrite (find_combine_some ks edits k i e Hnd Hk He). cbn [fst snd].
    rewrite reindex_six; [reflexivity|].
    rewrite Forall_forall in Hsix. apply Hsix. eapply nth_error_In. eassumption.
  - intros i Hnot. rewrite nth_error_map.
    destruct (nth_error (rows df) i) as [r|] eqn:Er; [|reflexivity].
    cbn [option_map]. rewrite (label_at_position (rows df) i r Hi Er).
    now rewrite (find_combine_none ks edits i Hnot).
Qed.

Section EditClaims.
Variable re_meta : string -> option (string -> bool).

(** The labels of a view of a Table are labels of the Table, each once; a
    view with a row has the columns of the Table. *)
Lemma view_labels (df v : DataFrame) uf sc search :
  Spec.Table df ->
  App.filtered_data re_meta df uf sc search = Ok v ->
  (rows v <> [] -> schema v = schema df)
  /\ NoDup (Pd.index v)
  /\ incl (Pd.index v) (Pd.index df)
  /\ forallb Spec.canonical_row (map snd (rows v)) = true.
Proof.
  intros (Hc & Hi & Hr) Hv.
  pose proof (filtered_data_cases re_meta df uf sc search Hc Hr) as H.
  rewrite Hv in H. destruct H as (om & _ & Hrows & Hsch).
  pose proof (subseq_map fst _ _ (subseq_view_rows uf sc om (rows df))) as Hs.
  fold (Pd.index df) in Hs. rewrite <- Hrows in Hs. fold (Pd.index v) in Hs.
  split; [|split; [|split]].
  - intros Hne. destruct Hsch as [E|[_ E]]; [exact E | congruence].
  - apply sorted_NoDup. eapply subseq_seq_sorted. rewrite <- Hi. exact Hs.
  - intros i Hin. eapply subseq_In; eassumption.
  - rewrite Hrows. unfold Spec.view_rows.
    now do 3 apply canonical_rows_filter.
Qed.

(** C4 (amended): for a view that is not empty, the block writes every edited
    row, whole, over the row of the Table at the position that the view row
    is labelled with, leaves the rows at the other positions as they were,
    and then writes the whole Table to the sheet.  For the empty view it
    shows a message and writes nothing. *)
Theorem edit_table_overwrites (st : State) (uf : list Urgency) (sc : bool)
        (search : string) (view : DataFrame) (edits : list (list cell)) :
  Spec.Table (session_df st) ->
  App.filtered_data re_meta (session_df st) uf sc search = Ok view ->
  List.length edits = List.length (rows view) ->
  Forall (fun e => List.length e = 6) edits ->
  (rows view = [] ->
   App.edit_table st view edits
   = Ok (mkState (session_df st) (sheet st)
           (trace st
            ++ [StInfo
                  "Your list is empty or filter settings hide all items."])))
  /\ (rows view <> [] ->
      exists df',
        App.edit_table st view edits
        = Ok (mkState df' (App.conn_update df')
                (trace st ++ [Update (App.conn_update df')]))
        /\ columns df' = App.CANONICAL
        /\ List.length (rows df') = List.length (rows (session_df st))
        /\ (forall k i e,
               nth_error (Pd.index view) k = Some i ->
               nth_error edits k = Some e ->
               nth_error (rows df') i = Some (i, e))
        /\ (forall i,
               ~ In i (Pd.index view) ->
               nth_error (rows df') i = nth_error (rows (session_df st)) i)).
Proof.
  intros HT Hv Hlen Hsix.
  destruct (view_labels _ _ _ _ _ HT Hv) as (Hsv & Hnd & Hincl & _).
  split.
  - intros Hnil. unfold App.edit_table, Pd.empty. rewrite Hnil.
    cbn [List.length Nat.eqb]. now rewrite orb_true_r.
  - intros Hne. specialize (Hsv Hne).
    assert (Hcv : map fst (schema view) = App.CANONICAL)
      by (rewrite Hsv; apply HT).
    assert (Hlen' : List.length edits = List.length (Pd.index view))
      by (unfold Pd.index; now rewrite length_map).
    destruct (loc_setitem_table (session_df st) (schema view) (Pd.index view)
                edits HT Hcv Hnd Hincl Hlen' Hsix)
      as (rs' & Hset & Hl & Hin & Hout).
    eexists (mkDataFrame _ rs').
    unfold App.edit_table, Pd.empty, App.data_editor. unfold columns at 1.
    rewrite Hcv.
    destruct (rows view) as [|r0 rv] eqn:Ev; [congruence|].
    cbn [List.length Nat.eqb orb App.CANONICAL].
    rewrite Hset. cbn [bind].
    rewrite save_data_canonical
      by (unfold columns; cbn [schema]; rewrite columns_loc_dtype; apply HT).
    repeat split; try assumption.
    unfold columns. cbn [schema]. rewrite columns_loc_dtype. apply HT.
Qed.

End EditClaims.

Lemma edit_table_overwrites_witness :
  exists df',
    App.edit_table (Sample.state_of Sample.table3)
      (mkDataFrame Sample.SCHEMA [(0, Sample.milk); (2, Sample.blank)])
      [Sample.eggs; Sample.milk]
    = Ok (mkState df' (App.conn_update df') [Update (App.conn_update df')])
    /\ nth_error (rows df') 0 = Some (0, Sample.eggs)
    /\ nth_error (rows df') 1 = Some (1, Sample.eggs)
    /\ nth_error (rows df') 2 = Some (2, Sample.milk).
Proof.
  destruct (proj2 (edit_table_overwrites Sample.strict_engine
                     (Sample.state_of Sample.table3) [Now] true EmptyString
                     (mkDataFrame Sample.SCHEMA
                        [(0, Sample.milk); (2, Sample.blank)])
                     [Sample.eggs; Sample.milk]
                     table3_is_table eq_refl eq_refl
                     ltac:(repeat constructor))
                  ltac:(discriminate))
    as (df' & Hrun & _ & _ & Hin & Hout).
  exists df'. split; [exact Hrun|]. repeat split.
  - apply (Hin 0 0 Sample.eggs); reflexivity.
  - rewrite (Hout 1); [reflexivity|]. simpl. intuition discriminate.
  - apply (Hin 1 2 Sample.milk); reflexivity.
Defined.

(** C4 as stated fails on the empty view: the block then shows a message and
    writes nothing, so a sheet that differs from the Table stays as it is. *)
Lemma empty_view_is_not_saved :
  let st := fst (App.initialize None 0 None Sample.raw_sheet) in
  exists view st',
    App.filtered_data Sample.strict_engine (session_df st) [Soon] true
      EmptyString = Ok view
    /\ App.edit_table st view [] = Ok st'
    /\ trace st' =
       [StInfo "Your list is empty or filter settings hide all items."]
    /\ sheet st' <> App.conn_update (session_df st').
Proof.
  do 2 eexists. split; [vm_compute; reflexivity|].
  split; [vm_compute; reflexivity|].
  split; [reflexivity|]. intros H. vm_compute in H. discriminate H.
Qed.

(** ** Loading and saving *)

Lemma set_nth_nth (i : nat) (r : list cell) :
  Pd.set_nth i (nth i r NaN) r = r.
Proof.
  revert i. induction r as [|c r IH]; intros [|i]; simpl; try reflexivity.
  now rewrite IH.
Qed.

Lemma set_nth_length (i : nat) (v : cell) (r : list cell) :
  List.length (Pd.set_nth i v r) = List.length r.
Proof.
  revert i. induction r as [|c r IH]; intros [|i]; simpl; auto.
Qed.

Lemma nth_set_nth (i : nat) (v : cell) (r : list cell) :
  i < List.length r -> nth i (Pd.set_nth i v r) NaN = v.
Proof.
  revert i. induction r as [|c r IH]; intros [|i]; simpl; intros H; try lia.
  - reflexivity.
  - apply IH. lia.
Qed.

Lemma normalize_flag (c : cell) :
  Spec.normalize c = c <-> Spec.is_flag c = true.
Proof.
  destruct c as [|s|b]; simpl; split; intros H; try discriminate;
    reflexivity.
Qed.

Lemma assign_at_map (i : nat) (f : cell -> cell) (rs : list (nat * list cell)) :
  Pd.assign_at i (map (fun r => f (nth i (snd r) NaN)) rs) rs
  = map (fun r => (fst r, Pd.set_nth i (f (nth i (snd r) NaN)) (snd r))) rs.
Proof.
  induction rs as [|[l r] rs IH]; simpl; [reflexivity | now rewrite IH].
Qed.

Lemma get_loc_lt (c : string) (cols : list string) (i : nat) :
  Pd.get_loc c cols = Some i -> i < List.length cols.
Proof.
  revert i. induction cols as [|d cols IH]; simpl; intros i H; [discriminate|].
  destruct (String.eqb c d).
  - injection H as <-. lia.
  - destruct (Pd.get_loc c cols) as [j|]; [|discriminate].
    injection H as <-. specialize (IH j eq_refl). lia.
Qed.


Lemma columns_read_schema (hdr : list string) (j : nat)
      (lines : list (list cell)) :
  map fst (App.read_schema hdr j lines) = hdr.
Proof.
  revert j. induction hdr as [|c hdr IH]; intros j; simpl; [reflexivity|].
  now rewrite IH.
Qed.

Lemma columns_conn_read (sh : Sheet) : columns (App.conn_read sh) = header sh.
Proof. apply columns_read_schema. Qed.

Lemma columns_set_dtype (c : string) (t : dtype)
      (sch : list (string * dtype)) :
  map fst (Pd.set_dtype c t sch) = map fst sch.
Proof.
  induction sch as [|p sch IH]; simpl; [reflexivity|].
  destruct (String.eqb c (fst p)); simpl; [reflexivity | now rewrite IH].
Qed.

Lemma empty_conn_read (sh : Sheet) :
  Pd.empty (App.conn_read sh)
  = (List.length (header sh) =? 0) || (List.length (body sh) =? 0).
Proof.
  unfold Pd.empty. rewrite columns_conn_read. unfold App.conn_read.
  cbn [rows]. now rewrite length_combine, length_seq, Nat.min_id.
Qed.

(** The body of [load_data] on a sheet with lines and with the column
    "Completed". *)
Lemma load_data_completed (sh : Sheet) (i : nat) :
  body sh <> [] ->
  Pd.get_loc "Completed" (header sh) = Some i ->
  App.load_data_body sh
  = mkDataFrame
      (Pd.set_dtype "Completed" BoolDtype (schema (App.conn_read sh)))
      (map (fun r =>
              (fst r,
               Pd.set_nth i (Spec.normalize (nth i (snd r) NaN)) (snd r)))
           (rows (App.conn_read sh))).
Proof.
  intros Hb Hloc.
  assert (Hne : Pd.empty (App.conn_read sh) = false).
  { rewrite empty_conn_read. destruct (header sh); [discriminate|].
    destruct (body sh); [congruence | reflexivity]. }
  unfold App.load_data_body. rewrite Hne.
  unfold Pd.getitem, Pd.setitem. rewrite columns_conn_read, Hloc.
  cbn [fst snd]. f_equal. rewrite map_map.
  apply (assign_at_map i Spec.normalize).
Qed.

(** The body of [load_data] on a sheet with lines and without the column
    "Completed". *)
Lemma load_data_plain (sh : Sheet) :
  header sh <> [] -> body sh <> [] ->
  Pd.get_loc "Completed" (header sh) = None ->
  App.load_data_body sh = App.conn_read sh.
Proof.
  intros Hh Hb Hloc.
  assert (Hne : Pd.empty (App.conn_read sh) = false).
  { rewrite empty_conn_read. destruct (header sh); [congruence|].
    destruct (body sh); [congruence | reflexivity]. }
  unfold App.load_data_body. rewrite Hne.
  unfold Pd.getitem. rewrite columns_conn_read, Hloc. reflexivity.
Qed.

(** The body of [load_data] on a sheet without header or without lines. *)
Lemma load_data_empty (sh : Sheet) :
  header sh = [] \/ body sh = [] ->
  App.load_data_body sh
  = Pd.setitem (Pd.new_frame App.CANONICAL) "Completed" (BoolDtype, []).
Proof.
  intros H.
  assert (He : Pd.empty (App.conn_read sh) = true).
  { rewrite empty_conn_read. destruct H as [-> | ->]; cbn;
      [reflexivity | apply orb_true_r]. }
  unfold App.load_data_body. rewrite He. reflexivity.
Qed.

(** The columns of the frame that the body of [load_data] reads from a sheet
    with a header and lines. *)
Lemma columns_load_data (sh : Sheet) :
  header sh <> [] -> body sh <> [] ->
  columns (App.load_data_body sh) = header sh.
Proof.
  intros Hh Hb.
  destruct (Pd.get_loc "Completed" (header sh)) as [i|] eqn:Ei.
  - rewrite (load_data_completed sh i Hb Ei). unfold columns. cbn [schema].
    rewrite columns_set_dtype. apply columns_conn_read.
  - rewrite (load_data_plain sh Hh Hb Ei). apply columns_conn_read.
Qed.

Lemma ensure_columns_length (cols : list string) (df : DataFrame) :
  List.length (columns df)
  <= List.length (columns (fold_left App.ensure_column cols df))
  /\ (List.length (columns (fold_left App.ensure_column cols df))
      = List.length (columns df) ->
      Forall (fun c => Pd.has_column df c = true) cols).
Proof.
  revert df. induction cols as [|c cols IH]; intros df; cbn [fold_left].
  - split; [lia | constructor].
  - destruct (IH (App.ensure_column df c)) as [Hle Heq].
    unfold App.ensure_column in *.
    destruct (Pd.has_column df c) eqn:Ec.
    + split; [exact Hle|]. intros H. constructor; auto.
    + unfold Pd.add_column, columns in *. cbn [schema] in *.
      rewrite map_app, length_app in *. cbn [List.length map] in *.
      split; lia.
Qed.

Lemma ensure_columns_rows (cols : list string) (df : DataFrame) :
  List.length (rows (fold_left App.ensure_column cols df))
  = List.length (rows df).
Proof.
  revert df. induction cols as [|c cols IH]; intros df; cbn [fold_left];
    [reflexivity|].
  rewrite IH. unfold App.ensure_column. destruct (Pd.has_column df c);
    [reflexivity|]. unfold Pd.add_column. cbn [rows]. apply length_map.
Qed.

Lemma has_column_get_loc (df : DataFrame) (c : string) :
  Pd.has_column df c = true <-> Pd.get_loc c (columns df) <> None.
Proof.
  unfold Pd.has_column. destruct (Pd.get_loc c (columns df)); split;
    congruence.
Qed.

Lemma conn_update_read (sh : Sheet) : App.conn_update (App.conn_read sh) = sh.
Proof.
  unfold App.conn_update. rewrite columns_conn_read.
  destruct sh as [h b]. unfold App.conn_read.
  cbn [rows header body]. now rewrite map_snd_combine_seq.
Qed.

Lemma normalize_flags_id (i : nat) (b : list (list cell)) (k : nat) :
  Forall (fun r => Spec.is_flag (nth i r NaN) = true) b ->
  map (fun r : nat * list cell =>
         (fst r, Pd.set_nth i (Spec.normalize (nth i (snd r) NaN)) (snd r)))
      (combine (seq k (List.length b)) b)
  = combine (seq k (List.length b)) b.
Proof.
  intros H. revert k. induction H as [|r rs Hr Hrs IH]; intros k; cbn;
    [reflexivity|].
  apply normalize_flag in Hr. rewrite Hr, set_nth_nth. f_equal. apply IH.
Qed.

Lemma map_snd_map_combine (F : list cell -> list cell) (b : list (list cell))
      (k : nat) :
  map snd (map (fun r : nat * list cell => (fst r, F (snd r)))
             (combine (seq k (List.length b)) b))
  = map F b.
Proof.
  revert k. induction b as [|r b IH]; intros k; cbn; [reflexivity|].
  now rewrite IH.
Qed.

Lemma normalize_fixed_flags (i n : nat) (b : list (list cell)) :
  i < n ->
  Forall (fun r => List.length r = n) b ->
  map (fun r => Pd.set_nth i (Spec.normalize (nth i r NaN)) r) b = b ->
  Forall (fun r => Spec.is_flag (nth i r NaN) = true) b.
Proof.
  intros Hlt Hrect. induction Hrect as [|r rs Hr Hrs IH]; intros Hbody;
    constructor.
  - injection Hbody as Hrow _. apply normalize_flag.
    rewrite <- Hrow at 2. rewrite nth_set_nth; [reflexivity | lia].
  - apply IH. now injection Hbody.
Qed.

(** A normal sheet comes back from a read and a save as it was. *)
Lemma normal_sheet_unchanged (sh : Sheet) :
  Spec.normal sh -> snd (App.save_data (App.load_data_body sh)) = sh.
Proof.
  intros [[Hb Hh]|(Hb & Hall & Hflag)].
  - destruct sh as [h b]. cbn [header body] in *. subst. reflexivity.
  - assert (Hc : exists i, Pd.get_loc "Completed" (header sh) = Some i).
    { rewrite Forall_forall in Hall.
      specialize (Hall "Completed" ltac:(simpl; tauto)).
      destruct (Pd.get_loc "Completed" (header sh)) as [i|];
        [now exists i | congruence]. }
    destruct Hc as [i Hi]. specialize (Hflag i Hi).
    assert (Hh : header sh <> []).
    { intros E. rewrite E in Hi. discriminate. }
    pose proof (columns_load_data sh Hh Hb) as Hcols.
    rewrite save_data_present.
    + cbn [snd]. unfold App.conn_update. rewrite Hcols.
      rewrite (load_data_completed sh i Hb Hi). cbn [rows].
      unfold App.conn_read. cbn [rows].
      rewrite normalize_flags_id by exact Hflag.
      rewrite map_snd_combine_seq. now destruct sh.
    + eapply Forall_impl; [|exact Hall]. intros c Hcol.
      apply has_column_get_loc. rewrite Hcols. exact Hcol.
Qed.

(** The sheets that a read and a save leave as they were are the normal
    ones, among those with one cell per column in every line. *)
Lemma unchanged_sheet_normal (sh : Sheet) :
  Spec.rectangular sh ->
  snd (App.save_data (App.load_data_body sh)) = sh -> Spec.normal sh.
Proof.
  intros Hrect H. destruct (body sh) as [|b bs] eqn:Eb.
  + left. split; [exact Eb|].
    revert H. rewrite load_data_empty by (right; exact Eb).
    cbn. intros <-. reflexivity.
  + right. split; [rewrite Eb; discriminate|].
    destruct (header sh) as [|h hs] eqn:Eh.
    { exfalso. revert H. rewrite load_data_empty by (left; exact Eh).
      cbn. intros H. rewrite <- H in Eb. discriminate. }
    assert (Hb : body sh <> []) by congruence.
    assert (Hh : header sh <> []) by congruence.
    unfold App.save_data in H. cbn [snd] in H.
    unfold App.ensure_columns in H.
    pose proof (ensure_columns_length App.CANONICAL (App.load_data_body sh))
      as [_ Hpres].
    pose proof (columns_load_data sh Hh Hb) as Hcols.
    assert (Hall : Forall (fun c => Pd.has_column (App.load_data_body sh) c
                                    = true) App.CANONICAL).
    { apply Hpres. rewrite Hcols. rewrite <- H at 2. reflexivity. }
    rewrite fold_ensure_present in H by exact Hall.
    split.
    * eapply Forall_impl; [|exact Hall]. intros c Hcol.
      apply has_column_get_loc in Hcol. rewrite Hcols, Eh in Hcol.
      exact Hcol.
    * intros i Hi. rewrite <- Eh in Hi.
      rewrite (load_data_completed sh i Hb Hi) in H.
      pose proof (get_loc_lt _ _ _ Hi) as Hlt.
      assert (Hbody : map (fun r : list cell =>
                             Pd.set_nth i (Spec.normalize (nth i r NaN)) r)
                        (body sh) = body sh).
      { apply (f_equal body) in H. unfold App.conn_update in H.
        cbn [body rows App.conn_read] in H.
        rewrite (map_snd_map_combine
                   (fun r => Pd.set_nth i (Spec.normalize (nth i r NaN)) r))
          in H.
        exact H. }
      exact (normalize_fixed_flags i _ _ Hlt Hrect Hbody).
Qed.

(** C5 (amended): when [load_data] reads the sheet, which it does unless its
    cache holds an entry younger than sixty seconds, a load followed at once
    by a save leaves the sheet as it was when the sheet is normal: the
    canonical header alone, or some lines under a header that has the six
    canonical columns, with booleans only under "Completed".  On a sheet
    whose lines all have one cell per column these are the only sheets left
    unchanged: elsewhere the save writes the canonical header, the added
    columns, or the booleans that the load put for the other values.  When
    the cache answers, the load returns the cached frame and the save writes
    that frame, whatever the sheet holds. *)
Theorem save_after_load (clock : nat) (cache : Cache) (sh : Sheet) :
  (Spec.fresh_read clock cache ->
   fst (App.load_data clock cache sh) = App.load_data_body sh
   /\ (Spec.normal sh ->
       snd (App.save_data (fst (App.load_data clock cache sh))) = sh)
   /\ (Spec.rectangular sh ->
       snd (App.save_data (fst (App.load_data clock cache sh))) = sh ->
       Spec.normal sh))
  /\ (forall e,
        cache = Some e -> clock < stored_at e + App.TTL ->
        fst (App.load_data clock cache sh) = cached e
        /\ snd (App.save_data (fst (App.load_data clock cache sh)))
           = snd (App.save_data (cached e))).
Proof.
  split.
  - intros Hf.
    assert (E : fst (App.load_data clock cache sh) = App.load_data_body sh).
    { unfold App.load_data, App.cache_lookup.
      destruct cache as [e|]; [|reflexivity].
      cbn in Hf. apply Nat.ltb_ge in Hf. now rewrite Hf. }
    rewrite E. split; [reflexivity|]. split.
    + apply normal_sheet_unchanged.
    + apply unchanged_sheet_normal.
  - intros e -> Hlt.
    assert (E : fst (App.load_data clock (Some e) sh) = cached e).
    { unfold App.load_data, App.cache_lookup.
      apply Nat.ltb_lt in Hlt. now rewrite Hlt. }
    rewrite E. split; reflexivity.
Qed.

Lemma save_after_load_witness :
  snd (App.save_data
         (fst (App.load_data 0 None (App.conn_update Sample.table3))))
  = App.conn_update Sample.table3.
Proof.
  apply (proj1 (proj2 (proj1 (save_after_load 0 None
                                (App.conn_update Sample.table3)) I))).
  right. split; [discriminate|]. split.
  - repeat constructor; discriminate.
  - intros i Hi. injection Hi as <-. repeat constructor.
Defined.

(** C5 as stated fails: the save after the load puts [False] where
    "Completed" had no value, adds the column that the sheet lacks, and gives
    the empty sheet the canonical header; and a load that the cache answers
    thirty seconds after a read makes the save overwrite a sheet that has
    changed since, normal as it is. *)
Lemma save_after_load_changes_sheet :
  snd (App.save_data (fst (App.load_data 0 None Sample.raw_sheet)))
  <> Sample.raw_sheet
  /\ snd (App.save_data (fst (App.load_data 0 None Sample.short_sheet)))
     <> Sample.short_sheet
  /\ snd (App.save_data (fst (App.load_data 0 None (mkSheet [] []))))
     <> mkSheet [] []
  /\ snd (App.save_data
            (fst (App.load_data 30 (Some (mkEntry 0 Sample.table1))
                    (App.conn_update Sample.table3))))
     <> App.conn_update Sample.table3.
Proof.
  repeat split; intros H; vm_compute in H; discriminate H.
Qed.


(** ** The export *)

Lemma append_assoc_s (a b c : string) : ((a ++ b) ++ c = a ++ (b ++ c))%string.
Proof. induction a as [|x a IH]; simpl; [reflexivity | now rewrite IH]. Qed.

Lemma mem_char_app (c : ascii) (a b : string) :
  PyStr.mem_char c (a ++ b)%string = PyStr.mem_char c a || PyStr.mem_char c b.
Proof.
  induction a as [|x a IH]; simpl; [reflexivity|].
  rewrite IH. now rewrite orb_assoc.
Qed.

(** A line without line feed, once ended, is the first line of the text. *)
Lemma lines_app_line (l rest : string) :
  PyStr.mem_char PyStr.LF l = false ->
  PyStr.lines (l ++ String PyStr.LF rest)%string = l :: PyStr.lines rest.
Proof.
  induction l as [|c l IH]; intros H.
  - reflexivity.
  - cbn [PyStr.mem_char] in H. apply orb_false_iff in H as [Hc Hl].
    cbn [append PyStr.lines]. rewrite Ascii.eqb_sym in Hc. rewrite Hc.
    now rewrite (IH Hl).
Qed.

Section CsvFacts.
Variable quote_cr : bool.

Lemma double_quotes_no_lf (s : string) :
  PyStr.mem_char PyStr.LF s = false ->
  PyStr.mem_char PyStr.LF (Pd.double_quotes s) = false.
Proof.
  induction s as [|c s IH]; simpl; intros H; [reflexivity|].
  apply orb_false_iff in H as [Hc Hs].
  destruct (Ascii.eqb c PyStr.QUOTE); simpl; rewrite Hc, ?IH; auto.
Qed.

Lemma csv_field_no_lf (s : string) :
  PyStr.mem_char PyStr.LF s = false ->
  PyStr.mem_char PyStr.LF (Pd.csv_field quote_cr s) = false.
Proof.
  intros H. unfold Pd.csv_field.
  destruct (PyStr.any_char _ s); [|exact H].
  unfold Pd.quoted. cbn [PyStr.mem_char]. rewrite mem_char_app.
  rewrite (double_quotes_no_lf s H). reflexivity.
Qed.

Lemma join_no_lf (fields : list string) :
  forallb (fun f => negb (PyStr.mem_char PyStr.LF f)) fields = true ->
  PyStr.mem_char PyStr.LF (PyStr.join "," fields) = false.
Proof.
  induction fields as [|f fs IH]; intros H; [reflexivity|].
  cbn [forallb] in H. apply andb_true_iff in H as [Hf Hfs].
  apply negb_true_iff in Hf. specialize (IH Hfs).
  destruct fs as [|g fs]; [exact Hf|].
  change (PyStr.join "," (f :: g :: fs))
    with (f ++ "," ++ PyStr.join "," (g :: fs))%string.
  rewrite !mem_char_app, Hf, IH. reflexivity.
Qed.

Lemma csv_line_no_lf (r : list cell) :
  Spec.one_line r = true ->
  PyStr.mem_char PyStr.LF (Pd.csv_line quote_cr r) = false.
Proof.
  intros H. apply join_no_lf. unfold Spec.one_line in H.
  rewrite map_map. rewrite forallb_forall in *. intros f Hin.
  apply in_map_iff in Hin as (c & <- & Hc). specialize (H c Hc).
  apply negb_true_iff in H. apply negb_true_iff. apply csv_field_no_lf, H.
Qed.

Lemma csv_record_canonical (r : list cell) :
  Spec.canonical_row r = true ->
  Pd.csv_record quote_cr (map Pd.render r)
  = (Pd.csv_line quote_cr r ++ String PyStr.LF EmptyString)%string.
Proof.
  intros H. canonical_cells H.
  unfold Pd.csv_record, Pd.csv_line. cbn [map].
  destruct (Pd.render a); reflexivity.
Qed.

Lemma lines_records (rs : list (nat * list cell)) :
  forallb Spec.canonical_row (map snd rs) = true ->
  forallb Spec.one_line (map snd rs) = true ->
  PyStr.lines (fold_right String.append EmptyString
                 (map (fun r => Pd.csv_record quote_cr (map Pd.render (snd r)))
                    rs))
  = map (fun r => Pd.csv_line quote_cr (snd r)) rs.
Proof.
  induction rs as [|r rs IH]; intros Hc Hl; [reflexivity|].
  cbn [map forallb] in Hc, Hl.
  apply andb_true_iff in Hc as [Hc Hcs]. apply andb_true_iff in Hl as [Hl Hls].
  cbn [map fold_right]. rewrite (csv_record_canonical _ Hc).
  rewrite append_assoc_s. cbn [append].
  rewrite (lines_app_line _ _ (csv_line_no_lf _ Hl)). now rewrite IH.
Qed.

Lemma header_record :
  Pd.csv_record quote_cr App.CANONICAL
  = (Spec.HEADER_LINE ++ String PyStr.LF EmptyString)%string.
Proof. destruct quote_cr; reflexivity. Qed.

(** C7 (amended): the export is made of the Table of the session, not of the
    view.  For a Table of N rows, N at least 1, in which no text holds a line
    feed, the text has N+1 lines: the line of the six canonical labels in
    their order, then one line per row in the order of the Table.  For the
    Table without rows there is no export. *)
Theorem export_csv_lines (st : State) :
  Spec.Table (session_df st) ->
  forallb Spec.one_line (map snd (rows (session_df st))) = true ->
  match rows (session_df st) with
  | [] => App.export_csv quote_cr st = None
  | _ :: _ =>
      exists text,
        App.export_csv quote_cr st = Some text
        /\ PyStr.lines text
           = Spec.HEADER_LINE
             :: map (fun r => Pd.csv_line quote_cr (snd r))
                  (rows (session_df st))
        /\ List.length (PyStr.lines text)
           = S (List.length (rows (session_df st)))
  end.
Proof.
  intros (Hc & Hi & Hr) Hl. unfold App.export_csv, Pd.empty. rewrite Hc.
  destruct (rows (session_df st)) as [|r rs] eqn:E; [reflexivity|].
  cbn [List.length Nat.eqb orb negb App.CANONICAL].
  eexists. split; [reflexivity|].
  assert (L : PyStr.lines (Pd.to_csv quote_cr (session_df st))
              = Spec.HEADER_LINE
                :: map (fun r => Pd.csv_line quote_cr (snd r)) (r :: rs)).
  { unfold Pd.to_csv. rewrite Hc, E. cbn [fold_right].
    rewrite header_record, append_assoc_s. cbn [append].
    rewrite lines_app_line by reflexivity.
    now rewrite (lines_records _ Hr Hl). }
  split; [exact L|]. rewrite L. cbn [List.length]. now rewrite length_map.
Qed.
End CsvFacts.

Lemma export_csv_lines_witness :
  exists text,
    App.export_csv true (Sample.state_of Sample.table3) = Some text
    /\ List.length (PyStr.lines text) = 4.
Proof.
  destruct (export_csv_lines true (Sample.state_of Sample.table3)
              table3_is_table eq_refl) as (text & Ht & _ & Hn).
  exists text. split; [exact Ht | exact Hn].
Defined.

(** C7 as stated fails: a text with a line feed is written as it is, between
    quote characters, and the export of a Table of one row has three lines. *)
Lemma export_csv_line_feed :
  exists text,
    App.export_csv true (Sample.state_of Sample.table_two_lines) = Some text
    /\ List.length (rows Sample.table_two_lines) = 1
    /\ List.length (PyStr.lines text) = 3.
Proof.
  eexists. split; [reflexivity|]. split; reflexivity.
Qed.

(** ** The handlers keep a Table a Table *)

Lemma add_item_trims_optional_witness :
  exists l r,
    nth_error
      (rows (session_df
               (App.add_item (Sample.state_of Sample.table1)
                  "2024-05-02 10:00" "Bread" " 2 loaves " "  Bakery" Soon)))
      1 = Some (l, r)
    /\ Spec.quantity r = Text "2 loaves"
    /\ Spec.whereToGet r = Text "Bakery".
Proof.
  exact (add_item_trims_optional (Sample.state_of Sample.table1)
           "2024-05-02 10:00" "Bread" " 2 loaves " "  Bakery" Soon
           table1_is_table eq_refl).
Defined.

Lemma new_list_is_table (st : State) :
  Spec.Table (session_df (App.create_new_list st)).
Proof. repeat split. Qed.

Lemma add_item_keeps_table (st : State) (now item q w : string) (u : Urgency) :
  Spec.Table (session_df st) ->
  Spec.Table (session_df (App.add_item st now item q w u)).
Proof.
  intros HT. destruct (PyStr.truthy (PyStr.strip item)) eqn:Hv.
  - rewrite (add_item_valid st now item q w u HT Hv). cbn [session_df].
    destruct HT as (Hc & Hi & Hr). repeat split.
    + unfold Pd.index in *. cbn [rows]. rewrite map_app, Hi, length_app.
      cbn [map fst List.length]. rewrite Nat.add_1_r, seq_S. reflexivity.
    + cbn [rows]. rewrite map_app, forallb_app, Hr. reflexivity.
  - unfold App.add_item. rewrite Hv. exact HT.
Qed.

(** The scenario of the specification: "Milk" added to the empty list, seen
    under "Now" and not under "Soon". *)
Example scenario_add :
  let df :=
    session_df
      (App.add_item
         (App.create_new_list (mkState Sample.table3
                                 (App.conn_update Sample.table3) []))
         "2024-05-01 09:30" "Milk" "2 gallons" "Walmart" Now) in
  columns df = App.CANONICAL /\ rows df = [(0, Sample.milk)].
Proof. split; reflexivity. Qed.

Example scenario_now :
  App.filtered_data Sample.strict_engine Sample.table1 [Now] true EmptyString
  = Ok Sample.table1.
Proof. reflexivity. Qed.

Example scenario_soon :
  App.filtered_data Sample.strict_engine Sample.table1 [Soon] true EmptyString
  = Ok (mkDataFrame Sample.SCHEMA []).
Proof. reflexivity. Qed.

Example export_ex :
  option_map PyStr.lines
    (App.export_csv true (Sample.state_of Sample.table_two_lines))
  = Some [Spec.HEADER_LINE;
          ("2024-05-01 09:33," ++ String PyStr.QUOTE "Rice")%string;
          ("Beans" ++ String PyStr.QUOTE ",,,Now,False")%string].
Proof. reflexivity. Qed.

Lemma normalize_is_flag (c : cell) : Spec.is_flag (Spec.normalize c) = true.
Proof. destruct c; reflexivity. Qed.

Lemma normalized_row_canonical (r : list cell) :
  List.length r = 6 ->
  Spec.canonical_row (Pd.set_nth 5 (Spec.normalize (nth 5 r NaN)) r) = true.
Proof.
  destruct r as [|a [|b [|c [|d [|e [|f [|g r]]]]]]]; simpl; try discriminate.
  intros _. destruct f; reflexivity.
Qed.

(** A sheet under the canonical header, its lines of six cells, is read as
    a Table. *)
Lemma load_data_is_table (sh : Sheet) :
  header sh = App.CANONICAL -> Spec.rectangular sh ->
  Spec.Table (App.load_data_body sh).
Proof.
  intros Hh Hrect. destruct (body sh) as [|b bs] eqn:Eb.
  - destruct sh as [h b]. cbn [header body] in *. subst. repeat split.
  - assert (Hb : body sh <> []) by congruence.
    assert (Hloc : Pd.get_loc "Completed" (header sh) = Some 5)
      by (rewrite Hh; reflexivity).
    rewrite (load_data_completed sh 5 Hb Hloc).
    unfold Spec.rectangular in Hrect. rewrite Hh in Hrect.
    clear Eb Hb Hloc. split; [|split].
    + unfold columns. cbn [schema]. rewrite columns_set_dtype.
      fold (columns (App.conn_read sh)). now rewrite columns_conn_read.
    + unfold App.conn_read. cbn [rows]. unfold Pd.index. cbn [rows].
      rewrite map_map. cbn [fst].
      rewrite length_map, length_combine, length_seq, Nat.min_id.
      apply map_fst_combine_seq.
    + unfold App.conn_read. cbn [rows]. rewrite map_map. cbn [snd].
      assert (G : forall k,
        forallb Spec.canonical_row
          (map (fun x : nat * list cell =>
                  Pd.set_nth 5 (Spec.normalize (nth 5 (snd x) NaN)) (snd x))
               (combine (seq k (List.length (body sh))) (body sh))) = true).
      { induction Hrect as [|r rs Hr Hrs IH]; intros k; [reflexivity|].
        cbn [List.length seq combine map forallb snd].
        rewrite (normalized_row_canonical r Hr). apply IH. }
      apply G.
Qed.

(** ** A second load and save *)

Lemma get_loc_app_l (c : string) (cols more : list string) (i : nat) :
  Pd.get_loc c cols = Some i -> Pd.get_loc c (cols ++ more) = Some i.
Proof.
  revert i. induction cols as [|d cols IH]; simpl; intros i H; [discriminate|].
  destruct (String.eqb c d); [exact H|].
  destruct (Pd.get_loc c cols) as [j|]; [|discriminate].
  now rewrite (IH j eq_refl).
Qed.

Lemma get_loc_app_r (c : string) (cols : list string) :
  Pd.get_loc c cols = None ->
  Pd.get_loc c (cols ++ [c]) = Some (List.length cols).
Proof.
  induction cols as [|d cols IH]; simpl; intros H.
  - now rewrite String.eqb_refl.
  - destruct (String.eqb c d); [discriminate|].
    destruct (Pd.get_loc c cols); [discriminate|]. now rewrite IH.
Qed.

Lemma get_loc_app_other (c d : string) (cols : list string) :
  String.eqb c d = false -> Pd.get_loc c cols = None ->
  Pd.get_loc c (cols ++ [d]) = None.
Proof.
  intros Hcd. induction cols as [|x cols IH]; simpl; intros H.
  - now rewrite Hcd.
  - destruct (String.eqb c x); [discriminate|].
    destruct (Pd.get_loc c cols); [discriminate|]. now rewrite IH.
Qed.

Lemma ensure_column_tidy (df : DataFrame) (c : string) :
  Spec.tidy df -> Spec.tidy (App.ensure_column df c).
Proof.
  intros [Hrect Hflag]. unfold App.ensure_column.
  destruct (Pd.has_column df c) eqn:Hc; [split; assumption|].
  unfold Pd.has_column in Hc.
  destruct (Pd.get_loc c (columns df)) eqn:Ec; [discriminate|]. clear Hc.
  split; rewrite columns_add_column; unfold Pd.add_column; cbn [rows].
  - rewrite Forall_map. cbn [snd]. eapply Forall_impl; [|exact Hrect].
    intros r Hr. rewrite !length_app, Hr. reflexivity.
  - intros i Hi. rewrite Forall_map. cbn [snd].
    destruct (Pd.get_loc "Completed" (columns df)) as [j|] eqn:Ej.
    + rewrite (get_loc_app_l _ _ [c] j Ej) in Hi. injection Hi as <-.
      pose proof (get_loc_lt _ _ _ Ej) as Hlt.
      specialize (Hflag j eq_refl).
      rewrite Forall_forall in *. intros r Hr.
      rewrite app_nth1 by (rewrite (Hrect r Hr); exact Hlt).
      apply Hflag, Hr.
    + destruct (String.eqb c "Completed") eqn:Ecc.
      * apply String.eqb_eq in Ecc. subst c.
        rewrite (get_loc_app_r _ _ Ej) in Hi. injection Hi as <-.
        rewrite Forall_forall in *. intros r Hr.
        rewrite app_nth2 by (rewrite (Hrect r Hr); lia).
        rewrite (Hrect r Hr), Nat.sub_diag. reflexivity.
      * rewrite String.eqb_sym in Ecc.
        rewrite (get_loc_app_other _ _ _ Ecc Ej) in Hi. discriminate.
Qed.

Lemma ensure_columns_tidy (cols : list string) (df : DataFrame) :
  Spec.tidy df -> Spec.tidy (fold_left App.ensure_column cols df).
Proof.
  revert df. induction cols as [|c cols IH]; intros df H; cbn [fold_left];
    [exact H|].
  apply IH, ensure_column_tidy, H.
Qed.

Lemma ensure_column_keeps (df : DataFrame) (c d : string) :
  Pd.has_column df c = true -> Pd.has_column (App.ensure_column df d) c = true.
Proof.
  intros H. unfold App.ensure_column. destruct (Pd.has_column df d); [exact H|].
  unfold Pd.has_column in *. rewrite columns_add_column.
  destruct (Pd.get_loc c (columns df)) as [i|] eqn:E; [|discriminate].
  now rewrite (get_loc_app_l _ _ [d] i E).
Qed.

Lemma ensure_column_has (df : DataFrame) (c : string) :
  Pd.has_column (App.ensure_column df c) c = true.
Proof.
  unfold App.ensure_column. destruct (Pd.has_column df c) eqn:E; [exact E|].
  unfold Pd.has_column in *. rewrite columns_add_column.
  destruct (Pd.get_loc c (columns df)) eqn:G; [discriminate|].
  now rewrite (get_loc_app_r _ _ G).
Qed.

Lemma fold_ensure_keeps (cols : list string) (df : DataFrame) (c : string) :
  Pd.has_column df c = true ->
  Pd.has_column (fold_left App.ensure_column cols df) c = true.
Proof.
  revert df. induction cols as [|d cols IH]; intros df H; cbn [fold_left];
    [exact H|].
  apply IH, ensure_column_keeps, H.
Qed.

Lemma fold_ensure_has (cols : list string) (df : DataFrame) :
  Forall (fun c => Pd.has_column (fold_left App.ensure_column cols df) c = true)
    cols.
Proof.
  revert df. induction cols as [|d cols IH]; intros df; cbn [fold_left];
    constructor.
  - apply fold_ensure_keeps, ensure_column_has.
  - apply IH.
Qed.

Lemma empty_read_cases (sh : Sheet) :
  (Pd.empty (App.conn_read sh) = true /\ (header sh = [] \/ body sh = []))
  \/ (Pd.empty (App.conn_read sh) = false /\ header sh <> []
      /\ body sh <> []).
Proof.
  rewrite empty_conn_read.
  destruct (header sh) as [|h hs]; [left; split; auto|].
  destruct (body sh) as [|b bs]; [left; split; auto|].
  right. repeat split; discriminate.
Qed.

Lemma load_data_tidy (sh : Sheet) :
  Spec.rectangular sh -> Spec.tidy (App.load_data_body sh).
Proof.
  intros Hrect.
  destruct (empty_read_cases sh) as [[_ He]|(_ & Hh & Hb)].
  - rewrite (load_data_empty sh He). cbn. split; [constructor|].
    intros i _. constructor.
  - assert (Hrows : Forall (fun r : nat * list cell =>
                             List.length (snd r) = List.length (header sh))
                      (rows (App.conn_read sh))).
    { unfold App.conn_read. cbn [rows]. unfold Spec.rectangular in Hrect.
      apply Forall_forall. intros [l r] Hin. apply in_combine_r in Hin.
      rewrite Forall_forall in Hrect. apply Hrect, Hin. }
    pose proof (columns_load_data sh Hh Hb) as Hcols.
    destruct (Pd.get_loc "Completed" (header sh)) as [i|] eqn:Ei.
    + unfold Spec.tidy. rewrite Hcols.
      rewrite (load_data_completed sh i Hb Ei).
      pose proof (get_loc_lt _ _ _ Ei) as Hlt.
      split; cbn [rows].
      * rewrite Forall_map. cbn [snd]. eapply Forall_impl; [|exact Hrows].
        intros r Hr. rewrite <- Hr. apply set_nth_length.
      * intros j Hj. rewrite Ei in Hj. injection Hj as <-.
        rewrite Forall_map. cbn [snd]. eapply Forall_impl; [|exact Hrows].
        intros r Hr. cbv beta in Hr.
        rewrite nth_set_nth by (rewrite Hr; exact Hlt).
        apply normalize_is_flag.
    + unfold Spec.tidy. rewrite Hcols.
      rewrite (load_data_plain sh Hh Hb Ei). split; [exact Hrows|].
      intros j Hj. congruence.
Qed.

Lemma load_data_rows (sh : Sheet) :
  header sh <> [] -> body sh <> [] ->
  List.length (rows (App.load_data_body sh)) = List.length (body sh).
Proof.
  intros Hh Hb.
  destruct (Pd.get_loc "Completed" (header sh)) as [i|] eqn:Ei.
  - rewrite (load_data_completed sh i Hb Ei). cbn [rows App.conn_read].
    now rewrite length_map, length_combine, length_seq, Nat.min_id.
  - rewrite (load_data_plain sh Hh Hb Ei). cbn [rows App.conn_read].
    now rewrite length_combine, length_seq, Nat.min_id.
Qed.

(** X7: after one read and save, a further read and save changes nothing:
    on a sheet whose lines have one cell per column, the sheet that a first
    read and save leaves is left as it is by the next. *)
Lemma save_after_load_settles (sh : Sheet) :
  Spec.rectangular sh ->
  let sh' := snd (App.save_data (App.load_data_body sh)) in
  snd (App.save_data (App.load_data_body sh')) = sh'.
Proof.
  intros Hrect sh'. apply normal_sheet_unchanged.
  unfold sh', App.save_data, App.ensure_columns. cbn [snd].
  destruct (empty_read_cases sh) as [[_ He]|(_ & Hh & Hb)].
  - rewrite (load_data_empty sh He). left. split; reflexivity.
  - pose proof (load_data_rows sh Hh Hb) as Hlen.
    set (df := fold_left App.ensure_column App.CANONICAL
                 (App.load_data_body sh)).
    assert (Ht : Spec.tidy df)
      by (apply ensure_columns_tidy, load_data_tidy, Hrect).
    assert (Hall : Forall (fun c => Pd.has_column df c = true) App.CANONICAL)
      by apply fold_ensure_has.
    assert (Hrows : rows df <> []).
    { intros E. apply (f_equal (@List.length _)) in E.
      unfold df in E. rewrite ensure_columns_rows, Hlen in E.
      destruct (body sh); [congruence | discriminate]. }
    right. unfold App.conn_update. cbn [header body]. split.
    + intros E. apply map_eq_nil in E. contradiction.
    + split.
      * eapply Forall_impl; [|exact Hall]. intros c Hc.
        now apply has_column_get_loc.
      * intros i Hi. destruct Ht as [_ Hflag]. specialize (Hflag i Hi).
        rewrite Forall_map. exact Hflag.
Qed.
(** * More of the script *)

(** ** What a save does to any frame *)

(** X1: whatever the frame, after [save_data] the frame has the six
    canonical columns, and so has the header of the sheet. *)
Theorem save_data_has_canonical (df : DataFrame) :
  Forall (fun c => Pd.has_column (fst (App.save_data df)) c = true)
    App.CANONICAL
  /\ Forall (fun c => In c (header (snd (App.save_data df)))) App.CANONICAL.
Proof.
  assert (H : Forall (fun c => Pd.has_column (fst (App.save_data df)) c = true)
                App.CANONICAL) by apply fold_ensure_has.
  split; [exact H|].
  eapply Forall_impl; [|exact H]. intros c Hc. cbn [App.save_data snd fst] in *.
  unfold App.conn_update. cbn [header].
  unfold Pd.has_column in Hc.
  destruct (Pd.get_loc c (columns (App.ensure_columns df))) as [i|] eqn:E;
    [|discriminate].
  clear Hc. revert i E. generalize (columns (App.ensure_columns df)).
  intros cols. induction cols as [|d cols IH]; simpl; intros i E;
    [discriminate|].
  destruct (String.eqb_spec c d) as [->|Hne]; [now left|].
  destruct (Pd.get_loc c cols) as [j|]; [|discriminate]. right.
  eapply IH. reflexivity.
Qed.

Lemma get_loc_app_none (c : string) (cols more : list string) :
  Pd.get_loc c (cols ++ more) = None -> Pd.get_loc c cols = None.
Proof.
  induction cols as [|d cols IH]; simpl; intros H; [reflexivity|].
  destruct (String.eqb c d); [discriminate|].
  destruct (Pd.get_loc c (cols ++ more)); [discriminate|].
  now rewrite IH.
Qed.

Lemma has_column_add_other (df : DataFrame) (c d : string) (v : cell) :
  String.eqb d c = false ->
  Pd.has_column (Pd.add_column df c v) d = Pd.has_column df d.
Proof.
  intros Hdc. unfold Pd.has_column. rewrite columns_add_column.
  destruct (Pd.get_loc d (columns df)) as [i|] eqn:E.
  - now rewrite (get_loc_app_l _ _ [c] i E).
  - now rewrite (get_loc_app_other _ _ _ Hdc E).
Qed.

Lemma filter_lacking_add (df : DataFrame) (c : string) (v : cell)
      (cols : list string) :
  ~ In c cols ->
  filter (fun d => negb (Pd.has_column (Pd.add_column df c v) d)) cols
  = filter (fun d => negb (Pd.has_column df d)) cols.
Proof.
  intros Hnot. apply filter_ext_in. intros d Hd.
  rewrite has_column_add_other; [reflexivity|].
  apply String.eqb_neq. intros ->. contradiction.
Qed.

(** The loop of [save_data] adds, in their order, the labels that the frame
    lacks, each once. *)
Lemma ensure_columns_extends (cols : list string) (df : DataFrame) :
  NoDup cols ->
  let more := filter (fun c => negb (Pd.has_column df c)) cols in
  columns (fold_left App.ensure_column cols df) = columns df ++ more
  /\ rows (fold_left App.ensure_column cols df)
     = map (fun r => (fst r, snd r ++ map Spec.default_cell more)) (rows df).
Proof.
  intros Hnd. revert df.
  induction Hnd as [|c cols Hnot Hnd IH]; intros df; cbn [fold_left filter].
  - cbn [map]. rewrite app_nil_r. split; [reflexivity|].
    rewrite <- (map_id (rows df)) at 1. apply map_ext. intros [l r]. cbn.
    now rewrite app_nil_r.
  - destruct (IH (App.ensure_column df c)) as [Hc Hr].
    unfold App.ensure_column in *.
    destruct (Pd.has_column df c) eqn:Ec; cbn [negb].
    + split; assumption.
    + rewrite columns_add_column in Hc.
      rewrite filter_lacking_add in Hc, Hr by exact Hnot.
      fold (Spec.default_cell c) in *.
      rewrite Hc, Hr. unfold Pd.add_column. cbn [rows map].
      rewrite <- app_assoc. split; [reflexivity|].
      rewrite map_map. apply map_ext. intros [l r]. cbn.
      now rewrite <- app_assoc.
Qed.

Lemma canonical_NoDup : NoDup App.CANONICAL.
Proof.
  repeat constructor; simpl; intuition discriminate.
Qed.

(** X2: [save_data] only adds to the right: the columns of the frame stay
    first and in their order, every row keeps its label and its cells, and
    what comes after them is exactly one column for each canonical label
    that the frame lacked, in the canonical order, filled with [False] for
    "Completed" and with the empty text for the others; the sheet gets the
    frame so completed. *)
Theorem save_data_extends (df : DataFrame) :
  columns (fst (App.save_data df)) = columns df ++ Spec.lacking df
  /\ rows (fst (App.save_data df))
     = map (fun r =>
              (fst r, snd r ++ map Spec.default_cell (Spec.lacking df)))
         (rows df)
  /\ NoDup (Spec.lacking df)
  /\ (forall c, In c (Spec.lacking df)
                <-> In c App.CANONICAL /\ Pd.has_column df c = false)
  /\ snd (App.save_data df) = App.conn_update (fst (App.save_data df)).
Proof.
  destruct (ensure_columns_extends App.CANONICAL df canonical_NoDup)
    as (Hc & Hr).
  cbn [App.save_data fst snd]. unfold App.ensure_columns, Spec.lacking.
  split; [exact Hc|]. split; [exact Hr|]. split; [|split; [|reflexivity]].
  - apply NoDup_filter, canonical_NoDup.
  - intros c. rewrite filter_In, negb_true_iff. reflexivity.
Qed.

(** X3: saving the frame that a save has left changes nothing more: the
    frame stays and the same sheet is written. *)
Theorem save_data_idempotent (df : DataFrame) :
  App.save_data (fst (App.save_data df)) = App.save_data df.
Proof.
  rewrite save_data_present by apply fold_ensure_has. reflexivity.
Qed.

(** ** What a load does to any sheet *)

Lemma nth_error_combine_seq {A : Type} (l : list A) (s k : nat) (a : A) :
  nth_error l k = Some a ->
  nth_error (combine (seq s (List.length l)) l) k = Some (s + k, a).
Proof.
  revert s k. induction l as [|x l IH]; intros s [|k] H; simpl in *;
    try discriminate.
  - injection H as ->. now rewrite Nat.add_0_r.
  - rewrite (IH (S s) k H). f_equal. f_equal. lia.
Qed.

Lemma nth_set_nth_other (i j : nat) (v : cell) (r : list cell) :
  i <> j -> nth j (Pd.set_nth i v r) NaN = nth j r NaN.
Proof.
  revert i j. induction r as [|c r IH]; intros [|i] [|j] H; simpl; auto;
    try lia.
Qed.

Lemma lookup_set_dtype (c : string) (t : dtype)
      (sch : list (string * dtype)) (i : nat) :
  Pd.get_loc c (map fst sch) = Some i ->
  Pd.lookup c (Pd.set_dtype c t sch) = Some t.
Proof.
  revert i. induction sch as [|p sch IH]; simpl; intros i H; [discriminate|].
  destruct (String.eqb c (fst p)) eqn:E; simpl; rewrite E; [reflexivity|].
  destruct (Pd.get_loc c (map fst sch)) as [j|]; [|discriminate].
  now apply (IH j).
Qed.

Lemma lookup_set_dtype_other (c d : string) (t : dtype)
      (sch : list (string * dtype)) :
  String.eqb c d = false ->
  Pd.lookup c (Pd.set_dtype d t sch) = Pd.lookup c sch.
Proof.
  intros Hcd. induction sch as [|p sch IH]; simpl; [reflexivity|].
  destruct (String.eqb d (fst p)) eqn:E; simpl.
  - apply String.eqb_eq in E. rewrite <- E, Hcd. reflexivity.
  - destruct (String.eqb c (fst p)); [reflexivity | exact IH].
Qed.

(** The dtype that a read gives a column: the one inferred from the cells
    under its label. *)
Lemma lookup_read_schema (c : string) (hdr : list string) (k j : nat)
      (lines : list (list cell)) :
  Pd.get_loc c hdr = Some j ->
  Pd.lookup c (App.read_schema hdr k lines)
  = Some (Pd.infer (map (fun r => nth (k + j) r NaN) lines)).
Proof.
  revert k j. induction hdr as [|d hdr IH]; simpl; intros k j H;
    [discriminate|].
  destruct (String.eqb c d).
  - injection H as <-. now rewrite Nat.add_0_r.
  - destruct (Pd.get_loc c hdr) as [i|]; [|discriminate].
    injection H as <-. rewrite (IH (S k) i eq_refl).
    now rewrite Nat.add_succ_r.
Qed.

(** X4: a sheet without header or without lines is read as the empty
    canonical frame, whatever header or lines it has, with object columns
    and a bool "Completed".  Any other sheet is read with its header as
    columns and its lines labelled 0, 1, ... in their order; a line keeps
    its length and all its cells except the one under "Completed", which
    becomes the boolean of [fillna(False)] and [astype(bool)]; "Completed"
    is a bool column, and any other column has the dtype inferred from its
    cells. *)
Theorem load_data_cells (sh : Sheet) :
  (header sh = [] \/ body sh = [] ->
   App.load_data_body sh
   = Pd.setitem (Pd.new_frame App.CANONICAL) "Completed" (BoolDtype, []))
  /\ (header sh <> [] -> body sh <> [] ->
      columns (App.load_data_body sh) = header sh
      /\ Pd.index (App.load_data_body sh) = seq 0 (List.length (body sh))
      /\ (forall k r,
            nth_error (body sh) k = Some r ->
            exists r',
              nth_error (rows (App.load_data_body sh)) k = Some (k, r')
              /\ List.length r' = List.length r
              /\ (forall j, Pd.get_loc "Completed" (header sh) <> Some j ->
                            nth j r' NaN = nth j r NaN)
              /\ (forall i, Pd.get_loc "Completed" (header sh) = Some i ->
                            i < List.length r ->
                            nth i r' NaN = Spec.normalize (nth i r NaN)))
      /\ (Pd.has_column (App.load_data_body sh) "Completed" = true ->
          Pd.dtype_of (App.load_data_body sh) "Completed" = Some BoolDtype)
      /\ (forall c j,
            String.eqb c "Completed" = false ->
            Pd.get_loc c (header sh) = Some j ->
            Pd.dtype_of (App.load_data_body sh) c
            = Some (Pd.infer (map (fun r => nth j r NaN) (body sh))))).
Proof.
  split.
  - apply load_data_empty.
  - intros Hh Hb. pose proof (columns_load_data sh Hh Hb) as Hcols.
    split; [exact Hcols|].
    destruct (Pd.get_loc "Completed" (header sh)) as [i|] eqn:Ei.
    + unfold Pd.has_column, Pd.dtype_of. rewrite Hcols, Ei.
      rewrite (load_data_completed sh i Hb Ei). cbn [schema rows].
      split; [|split; [|split]].
      * unfold Pd.index. cbn [rows App.conn_read]. rewrite map_map. cbn [fst].
        apply map_fst_combine_seq.
      * intros k r Hk. eexists. cbn [App.conn_read rows].
        rewrite nth_error_map, (nth_error_combine_seq _ 0 k r Hk).
        cbn [option_map fst snd Nat.add]. split; [reflexivity|].
        split; [apply set_nth_length|]. split.
        -- intros j Hj. apply nth_set_nth_other. congruence.
        -- intros i' Hi' Hlt. injection Hi' as <-. now apply nth_set_nth.
      * intros _. apply (lookup_set_dtype _ _ _ i).
        fold (columns (App.conn_read sh)). now rewrite columns_conn_read.
      * intros c j Hc Hj. rewrite (lookup_set_dtype_other _ _ _ _ Hc).
        unfold App.conn_read. cbn [schema].
        now rewrite (lookup_read_schema c _ 0 j _ Hj).
    + unfold Pd.has_column, Pd.dtype_of. rewrite Hcols, Ei.
      rewrite (load_data_plain sh Hh Hb Ei). cbn [rows App.conn_read].
      split; [|split; [|split]].
      * unfold Pd.index. cbn [rows]. apply map_fst_combine_seq.
      * intros k r Hk. exists r.
        rewrite (nth_error_combine_seq _ 0 k r Hk). cbn [Nat.add].
        repeat split. intros i Hi. discriminate.
      * discriminate.
      * intros c j Hc Hj. unfold App.conn_read. cbn [schema].
        now rewrite (lookup_read_schema c _ 0 j _ Hj).
Qed.

(** ** Adding an item to any frame *)

Lemma get_loc_map_nth (f : string -> cell) (c : string) (cols : list string)
      (j : nat) :
  Pd.get_loc c cols = Some j -> nth j (map f cols) NaN = f c.
Proof.
  revert j. induction cols as [|d cols IH]; simpl; intros j H; [discriminate|].
  destruct (String.eqb_spec c d) as [->|Hne].
  - injection H as <-. reflexivity.
  - destruct (Pd.get_loc c cols) as [k|]; [|discriminate].
    injection H as <-. now apply IH.
Qed.

Lemma get_loc_In (c : string) (cols : list string) :
  In c cols -> Pd.get_loc c cols <> None.
Proof.
  induction cols as [|d cols IH]; simpl; intros H; [contradiction|].
  destruct (String.eqb_spec c d) as [->|Hne]; [discriminate|].
  destruct H as [->|H]; [congruence|].
  specialize (IH H). destruct (Pd.get_loc c cols); congruence.
Qed.

Lemma get_loc_Some_In (c : string) (cols : list string) (i : nat) :
  Pd.get_loc c cols = Some i -> In c cols.
Proof.
  revert i. induction cols as [|d cols IH]; simpl; intros i H; [discriminate|].
  destruct (String.eqb_spec c d) as [->|Hne]; [now left|].
  destruct (Pd.get_loc c cols) as [j|]; [|discriminate].
  right. now apply (IH j).
Qed.

Lemma get_loc_app_present (c : string) (cols more : list string) :
  Pd.get_loc c cols = None -> In c more -> Pd.get_loc c (cols ++ more) <> None.
Proof.
  intros Hn Hin. induction cols as [|d cols IH]; simpl in *.
  - now apply get_loc_In.
  - destruct (String.eqb c d); [discriminate|].
    destruct (Pd.get_loc c cols); [discriminate|].
    specialize (IH eq_refl). destruct (Pd.get_loc c (cols ++ more)); congruence.
Qed.

(** The cell of a re-labelled row under a column of the new labels. *)
Lemma reindex_row_nth (from to : list string) (r : list cell) (c : string)
      (j : nat) :
  Pd.get_loc c to = Some j ->
  nth j (Pd.reindex_row from to r) NaN
  = match Pd.get_loc c from with
    | Some i => nth i r NaN
    | None => NaN
    end.
Proof.
  intros H. unfold Pd.reindex_row.
  now rewrite (get_loc_map_nth _ c to j H).
Qed.

Lemma columns_concat (a b : DataFrame) :
  columns (Pd.concat_ignore_index a b)
  = columns a ++ filter (fun c => negb (Pd.has_column a c)) (columns b).
Proof.
  unfold Pd.concat_ignore_index. unfold columns at 1. cbn [schema].
  rewrite map_map. cbn [fst]. apply map_id.
Qed.

(** The columns of a concatenation. *)
Lemma concat_columns (a b : DataFrame) (c : string) :
  (Pd.has_column a c = true \/ In c (columns b)) ->
  Pd.has_column (Pd.concat_ignore_index a b) c = true.
Proof.
  intros H. unfold Pd.has_column. rewrite columns_concat.
  destruct (Pd.get_loc c (columns a)) as [i|] eqn:E.
  - now rewrite (get_loc_app_l _ _ _ i E).
  - destruct H as [H|H].
    + unfold Pd.has_column in H. rewrite E in H. discriminate.
    + assert (Hin : In c (filter (fun c0 => negb (Pd.has_column a c0))
                             (columns b))).
      { apply filter_In. split; [exact H|]. unfold Pd.has_column.
        now rewrite E. }
      pose proof (get_loc_app_present c (columns a) _ E Hin) as Hp.
      unfold Pd.has_column in Hp.
      destruct (Pd.get_loc c (columns a ++ _)); congruence.
Qed.

(** A column of a concatenation: the cells of the first frame, then those of
    the second, NaN where a frame has no such column. *)
Lemma concat_getitem (a b : DataFrame) (c : string) (j : nat) :
  Pd.get_loc c (columns (Pd.concat_ignore_index a b)) = Some j ->
  Pd.getitem (Pd.concat_ignore_index a b) c
  = Ok (map (fun r => match Pd.get_loc c (columns a) with
                      | Some i => nth i (snd r) NaN
                      | None => NaN
                      end) (rows a)
        ++ map (fun r => match Pd.get_loc c (columns b) with
                         | Some i => nth i (snd r) NaN
                         | None => NaN
                         end) (rows b)).
Proof.
  intros Hj. unfold Pd.getitem. rewrite Hj. f_equal.
  rewrite columns_concat in Hj.
  unfold Pd.concat_ignore_index. cbn [rows].
  set (cols := columns a ++ _) in *.
  rewrite <- (map_map snd (fun r => nth j r NaN)).
  rewrite map_snd_combine_seq, map_app, !map_map.
  f_equal; apply map_ext; intros r; apply (reindex_row_nth _ _ _ c j Hj).
Qed.

Lemma concat_index (a b : DataFrame) :
  Pd.index (Pd.concat_ignore_index a b)
  = seq 0 (List.length (rows a) + List.length (rows b)).
Proof.
  unfold Pd.index, Pd.concat_ignore_index. cbn [rows].
  rewrite map_fst_combine_seq, length_app, !length_map. reflexivity.
Qed.

(** X8: a valid submission on any frame, whatever its columns: afterwards
    the frame has the six canonical columns and one row more, labelled 0, 1,
    ...; every column that the frame had keeps its cells in order, with one
    more at the end; under each canonical column the last cell is the one of
    the new row, and a canonical column that the frame lacked holds NaN for
    all former rows; the sheet holds the frame. *)
Theorem add_item_any_frame (st : State) (now item q w : string) (u : Urgency) :
  PyStr.truthy (PyStr.strip item) = true ->
  let st' := App.add_item st now item q w u in
  Forall (fun c => Pd.has_column (session_df st') c = true) App.CANONICAL
  /\ Pd.index (session_df st')
     = seq 0 (S (List.length (rows (session_df st))))
  /\ (forall c ser,
        Pd.getitem (session_df st) c = Ok ser ->
        exists x, Pd.getitem (session_df st') c = Ok (ser ++ [x]))
  /\ (forall c i,
        Pd.get_loc c App.CANONICAL = Some i ->
        exists ser,
          Pd.getitem (session_df st') c
          = Ok (ser ++ [nth i (Spec.added_row now item q w u) NaN])
          /\ List.length ser = List.length (rows (session_df st))
          /\ (Pd.has_column (session_df st) c = false ->
              ser = repeat NaN (List.length (rows (session_df st)))))
  /\ sheet st' = App.conn_update (session_df st').
Proof.
  intros Hv st'. unfold st', App.add_item. rewrite Hv. cbn [negb].
  set (b := App.new_row now item q w u).
  set (d := Pd.concat_ignore_index (session_df st) b).
  assert (Hall : Forall (fun c => Pd.has_column d c = true) App.CANONICAL).
  { apply Forall_forall. intros c Hc. apply concat_columns. now right. }
  rewrite (save_data_present d Hall). cbn [session_df sheet].
  split; [exact Hall|]. split.
  { unfold d. rewrite concat_index. cbn [b App.new_row rows List.length].
    now rewrite Nat.add_1_r. }
  split; [|split; [|reflexivity]].
  - intros c ser Hser. unfold Pd.getitem in Hser.
    destruct (Pd.get_loc c (columns (session_df st))) as [i|] eqn:Ei;
      [|discriminate].
    injection Hser as <-.
    assert (Hj : Pd.get_loc c (columns d) = Some i).
    { unfold d. rewrite columns_concat. now apply get_loc_app_l. }
    eexists. unfold d in *. rewrite (concat_getitem _ _ c i Hj), Ei.
    cbn [b App.new_row rows map]. reflexivity.
  - intros c i Hi.
    assert (Hc : Pd.has_column d c = true).
    { apply concat_columns. right.
      change (columns b) with App.CANONICAL.
      eapply get_loc_Some_In, Hi. }
    unfold Pd.has_column in Hc.
    destruct (Pd.get_loc c (columns d)) as [j|] eqn:Ej; [|discriminate].
    eexists. unfold d in *. rewrite (concat_getitem _ _ c j Ej).
    change (columns b) with App.CANONICAL.
    cbn [b App.new_row rows map snd]. rewrite Hi.
    split; [reflexivity|]. split; [apply length_map|].
    intros Hno. unfold Pd.has_column in Hno.
    destruct (Pd.get_loc c (columns (session_df st))); [discriminate|].
    clear. induction (rows (session_df st)); simpl; [reflexivity|].
    now f_equal.
Qed.

(** ** Edits and the Table *)

Lemma same_label_same_row (df : DataFrame) (r x : nat * list cell) :
  Spec.Table df -> In r (rows df) -> In x (rows df) -> fst x = fst r -> x = r.
Proof.
  intros (_ & Hi & _) Hr Hx E.
  destruct (positional_rows (rows df) 0 Hi r Hr) as [Hnr _].
  destruct (positional_rows (rows df) 0 Hi x Hx) as [Hnx _].
  rewrite E in Hnx. congruence.
Qed.

Lemma lookup_NoDup (sch : list (string * dtype)) (p : string * dtype) :
  NoDup (map fst sch) -> In p sch -> Pd.lookup (fst p) sch = Some (snd p).
Proof.
  induction sch as [|q sch IH]; cbn [map Pd.lookup]; intros Hnd Hin;
    [contradiction|].
  inversion Hnd as [|? ? Hnot Hnd']; subst.
  destruct Hin as [->|Hin]; [now rewrite String.eqb_refl|].
  destruct (String.eqb_spec (fst p) (fst q)) as [E|_]; [|now apply IH].
  exfalso. apply Hnot. rewrite <- E. now apply in_map.
Qed.

Lemma common_idem (t : dtype) : Pd.common t t = t.
Proof. destruct t; reflexivity. Qed.

(** Writing values of the same dtypes leaves the dtypes as they are. *)
Lemma loc_dtype_same (sch : list (string * dtype))
      (rs : list (nat * list cell)) :
  NoDup (map fst sch) -> map (Pd.loc_dtype (mkDataFrame sch rs)) sch = sch.
Proof.
  intros Hnd. transitivity (map (fun p : string * dtype => p) sch);
    [|apply map_id].
  apply map_ext_in.
  intros [c t] Hin. unfold Pd.loc_dtype, Pd.dtype_of. cbn [schema fst snd].
  pose proof (lookup_NoDup sch (c, t) Hnd Hin) as E. cbn [fst snd] in E.
  rewrite E. now rewrite common_idem.
Qed.

(** Writing rows of six cells, the last a boolean, into a Table gives a
    Table. *)
Lemma loc_setitem_keeps_table (df e df' : DataFrame) :
  Spec.Table df ->
  columns e = App.CANONICAL ->
  forallb Spec.canonical_row (map snd (rows e)) = true ->
  Pd.loc_setitem df e = Ok df' ->
  Spec.Table df'.
Proof.
  intros (Hc & Hi & Hr) Hce Hre H. unfold Pd.loc_setitem in H.
  destruct (forallb _ (Pd.index e)); [|discriminate].
  injection H as <-. split; [|split].
  - unfold columns. cbn [schema]. rewrite columns_loc_dtype. exact Hc.
  - unfold Pd.index in *. cbn [rows]. rewrite length_map, <- Hi, map_map.
    apply map_ext. intros r. destruct (find _ (rows e)); reflexivity.
  - cbn [rows]. rewrite map_map. rewrite forallb_forall in *.
    intros cells Hin.
    apply in_map_iff in Hin as (r & <- & Hin).
    destruct (find (fun x => fst x =? fst r) (rows e)) as [x|] eqn:Ef.
    + apply find_some in Ef as [Hx _]. cbn [snd]. rewrite Hce, Hc.
      assert (Hcx : Spec.canonical_row (snd x) = true)
        by (apply Hre, in_map, Hx).
      now rewrite (reindex_canonical _ Hcx).
    + apply Hr, in_map, Hin.
Qed.

Section EditFacts.
Variable re_meta : string -> option (string -> bool).

Lemma view_rows_of_table (df v : DataFrame) uf sc search :
  Spec.Table df ->
  App.filtered_data re_meta df uf sc search = Ok v ->
  Spec.subseq (rows v) (rows df)
  /\ forallb Spec.canonical_row (map snd (rows v)) = true.
Proof.
  intros (Hc & Hi & Hr) Hv.
  pose proof (filtered_data_cases re_meta df uf sc search Hc Hr) as H.
  rewrite Hv in H. destruct H as (om & _ & -> & _). split.
  - apply subseq_view_rows.
  - unfold Spec.view_rows. now do 3 apply canonical_rows_filter.
Qed.

Lemma loc_setitem_ok (df e : DataFrame) :
  incl (Pd.index e) (Pd.index df) ->
  exists df', Pd.loc_setitem df e = Ok df'.
Proof.
  intros Hincl. unfold Pd.loc_setitem.
  assert (Hchk : forallb (fun l => existsb (Nat.eqb l) (Pd.index df))
                   (Pd.index e) = true).
  { apply forallb_forall. intros l Hl. apply existsb_eqb_In, Hincl, Hl. }
  rewrite Hchk. eexists. reflexivity.
Qed.

Lemma forallb_combine_snd (ks : list nat) (es : list (list cell)) :
  forallb Spec.canonical_row es = true ->
  forallb Spec.canonical_row (map snd (combine ks es)) = true.
Proof.
  intros H. rewrite forallb_forall in *. intros c Hin.
  apply in_map_iff in Hin as ([k e] & <- & Hin).
  apply in_combine_r in Hin. now apply H.
Qed.

(** X12: editing keeps a Table a Table, with the same labels, when the
    editor returns canonical rows, one per row of the view. *)
Theorem edit_table_keeps_table (st : State) (uf : list Urgency) (sc : bool)
        (search : string) (view : DataFrame) (edits : list (list cell)) :
  Spec.Table (session_df st) ->
  App.filtered_data re_meta (session_df st) uf sc search = Ok view ->
  List.length edits = List.length (rows view) ->
  forallb Spec.canonical_row edits = true ->
  exists st',
    App.edit_table st view edits = Ok st'
    /\ Spec.Table (session_df st')
    /\ Pd.index (session_df st') = Pd.index (session_df st).
Proof.
  intros HT Hv Hlen Hed.
  destruct (view_labels re_meta _ _ _ _ _ HT Hv) as (Hsv & Hnd & Hincl & _).
  unfold App.edit_table. destruct (Pd.empty view) eqn:Ee.
  - eexists. split; [reflexivity|]. split; [exact HT | reflexivity].
  - assert (Hne : rows view <> []).
    { intros E. unfold Pd.empty in Ee. rewrite E in Ee. cbn in Ee.
      rewrite orb_true_r in Ee. discriminate. }
    specialize (Hsv Hne).
    set (e := App.data_editor view edits).
    assert (Hie : Pd.index e = Pd.index view).
    { unfold e, App.data_editor, Pd.index at 1. cbn [rows].
      apply map_fst_combine. unfold Pd.index. now rewrite length_map. }
    assert (Hce : columns e = App.CANONICAL).
    { unfold e, App.data_editor, columns. cbn [schema]. rewrite Hsv.
      apply HT. }
    destruct (loc_setitem_ok (session_df st) e) as [df' Hset];
      [now rewrite Hie|].
    rewrite Hset. cbn [bind].
    assert (HT' : Spec.Table df').
    { apply (loc_setitem_keeps_table (session_df st) e df' HT); auto.
      unfold e, App.data_editor. cbn [rows]. now apply forallb_combine_snd. }
    rewrite (save_data_canonical df') by apply HT'.
    eexists. split; [reflexivity|]. cbn [session_df]. split; [exact HT'|].
    destruct HT as (_ & Hi & _), HT' as (_ & Hi' & _).
    rewrite Hi, Hi'. f_equal.
    unfold Pd.loc_setitem in Hset.
    destruct (forallb _ (Pd.index e)); [|discriminate].
    injection Hset as <-. cbn [rows]. apply length_map.
Qed.

(** Writing back the rows of a view as they are leaves a Table as it is. *)
Lemma loc_setitem_view (df view : DataFrame) :
  Spec.Table df ->
  schema view = schema df ->
  Spec.subseq (rows view) (rows df) ->
  Pd.loc_setitem df view = Ok df.
Proof.
  intros HT Hsv Hsub. unfold Pd.loc_setitem.
  assert (Hchk : forallb (fun l => existsb (Nat.eqb l) (Pd.index df))
                   (Pd.index view) = true).
  { apply forallb_forall. intros l Hl. apply existsb_eqb_In.
    unfold Pd.index in *. eapply subseq_In; [|exact Hl].
    apply subseq_map, Hsub. }
  rewrite Hchk. f_equal.
  assert (Hcv : columns view = columns df) by (unfold columns; now rewrite Hsv).
  rewrite Hcv.
  assert (Hnd : NoDup (map fst (schema df))).
  { destruct HT as (Hc & _). unfold columns in Hc. rewrite Hc.
    apply canonical_NoDup. }
  destruct view as [schv rsv]. cbn [schema rows] in *. subst schv.
  destruct df as [sch rs] eqn:Ed. cbn [schema rows] in *.
  rewrite (loc_dtype_same sch rsv Hnd).
  f_equal. rewrite <- (map_id rs) at 2. apply map_ext_in. intros r Hr.
  destruct (find (fun x => fst x =? fst r) rsv) as [x|] eqn:Ef;
    [|reflexivity].
  apply find_some in Ef as [Hx Hlab]. apply Nat.eqb_eq in Hlab.
  assert (Hxr : x = r).
  { apply (same_label_same_row (mkDataFrame sch rs)); auto.
    cbn [rows]. eapply subseq_In; eassumption. }
  subst x. destruct HT as (Hc & _ & Hrows).
  cbn [rows] in Hrows. rewrite Hc.
  rewrite reindex_canonical; [now destruct r|].
  rewrite forallb_forall in Hrows. apply Hrows, in_map, Hr.
Qed.

(** X13: when the editor returns the rows as they are shown, the frame stays
    as it is, and the Table is written to the sheet all the same: a run with
    a view that is not empty saves even without any edit. *)
Theorem edit_table_without_edits (st : State) (uf : list Urgency) (sc : bool)
        (search : string) (view : DataFrame) :
  Spec.Table (session_df st) ->
  App.filtered_data re_meta (session_df st) uf sc search = Ok view ->
  rows view <> [] ->
  App.edit_table st view (map snd (rows view))
  = Ok (mkState (session_df st) (App.conn_update (session_df st))
          (trace st ++ [Update (App.conn_update (session_df st))])).
Proof.
  intros HT Hv Hne.
  destruct (view_labels re_meta _ _ _ _ _ HT Hv) as (Hsv & Hnd & Hincl & _).
  destruct (view_rows_of_table _ _ _ _ _ HT Hv) as (Hsub & Hcan).
  specialize (Hsv Hne).
  unfold App.edit_table, Pd.empty, columns. rewrite Hsv.
  fold (columns (session_df st)). rewrite (proj1 HT).
  destruct (rows view) as [|r0 rv] eqn:Ev; [congruence|].
  cbn [List.length Nat.eqb orb App.CANONICAL]. rewrite <- Ev in *.
  assert (He : App.data_editor view (map snd (rows view)) = view).
  { unfold App.data_editor, Pd.index. rewrite combine_fst_snd.
    destruct view. reflexivity. }
  rewrite He. rewrite (loc_setitem_view _ _ HT Hsv Hsub). cbn [bind].
  rewrite save_data_canonical by apply HT. reflexivity.
Qed.
End EditFacts.

(** ** The search text *)

Lemma is_space_lower_char (c : ascii) :
  PyStr.is_space (PyStr.lower_char c) = PyStr.is_space c.
Proof. destruct c as [[] [] [] [] [] [] [] []]; reflexivity. Qed.

Lemma lower_char_idem (c : ascii) :
  PyStr.lower_char (PyStr.lower_char c) = PyStr.lower_char c.
Proof. destruct c as [[] [] [] [] [] [] [] []]; reflexivity. Qed.

Lemma lower_idem (s : string) : PyStr.lower (PyStr.lower s) = PyStr.lower s.
Proof.
  induction s as [|c s IH]; simpl; [reflexivity|].
  now rewrite lower_char_idem, IH.
Qed.

Lemma lstrip_lower (s : string) :
  PyStr.lstrip (PyStr.lower s) = PyStr.lower (PyStr.lstrip s).
Proof.
  induction s as [|c s IH]; simpl; [reflexivity|].
  rewrite is_space_lower_char. destruct (PyStr.is_space c); auto.
Qed.

Lemma rstrip_lower (s : string) :
  PyStr.rstrip (PyStr.lower s) = PyStr.lower (PyStr.rstrip s).
Proof.
  induction s as [|c s IH]; simpl; [reflexivity|].
  rewrite IH, is_space_lower_char.
  destruct (PyStr.rstrip s); simpl; [|reflexivity].
  destruct (PyStr.is_space c); reflexivity.
Qed.

Lemma strip_lower (s : string) :
  PyStr.strip (PyStr.lower s) = PyStr.lower (PyStr.strip s).
Proof. unfold PyStr.strip. now rewrite lstrip_lower, rstrip_lower. Qed.

Lemma rstrip_cons (c : ascii) (t : string) :
  PyStr.rstrip (String c t)
  = match PyStr.rstrip t with
    | EmptyString =>
        if PyStr.is_space c then EmptyString else String c EmptyString
    | x => String c x
    end.
Proof. reflexivity. Qed.

Lemma rstrip_idem (s : string) : PyStr.rstrip (PyStr.rstrip s) = PyStr.rstrip s.
Proof.
  induction s as [|c s IH]; [reflexivity|].
  rewrite rstrip_cons. destruct (PyStr.rstrip s) as [|d u] eqn:E.
  - destruct (PyStr.is_space c) eqn:Ec; [reflexivity|].
    rewrite rstrip_cons. cbn [PyStr.rstrip]. now rewrite Ec.
  - rewrite rstrip_cons, IH. reflexivity.
Qed.

Lemma lstrip_head (s : string) :
  match PyStr.lstrip s with
  | EmptyString => True
  | String c _ => PyStr.is_space c = false
  end.
Proof.
  induction s as [|c s IH]; simpl; [exact I|].
  destruct (PyStr.is_space c) eqn:E; [exact IH | exact E].
Qed.

Lemma lstrip_rstrip_head (s : string) :
  match s with
  | EmptyString => True
  | String c _ => PyStr.is_space c = false
  end ->
  PyStr.lstrip (PyStr.rstrip s) = PyStr.rstrip s.
Proof.
  destruct s as [|c s]; [reflexivity|]. intros Hc.
  rewrite rstrip_cons. destruct (PyStr.rstrip s); rewrite ?Hc;
    cbn [PyStr.lstrip]; now rewrite Hc.
Qed.

Lemma strip_idem (s : string) : PyStr.strip (PyStr.strip s) = PyStr.strip s.
Proof.
  unfold PyStr.strip.
  rewrite (lstrip_rstrip_head _ (lstrip_head s)). apply rstrip_idem.
Qed.

Lemma truthy_lower (s : string) :
  PyStr.truthy (PyStr.lower s) = PyStr.truthy s.
Proof. destruct s; reflexivity. Qed.

Section SearchFacts.
Variable re_meta : string -> option (string -> bool).

(** X14: on any frame the view depends on the search text only through its
    trimmed, lower-cased form. *)
Theorem search_text_normal_form (df : DataFrame) (uf : list Urgency)
        (sc : bool) (search : string) :
  App.filtered_data re_meta df uf sc (PyStr.lower (PyStr.strip search))
  = App.filtered_data re_meta df uf sc search.
Proof.
  unfold App.filtered_data, App.filter_search.
  rewrite strip_lower, strip_idem, lower_idem, truthy_lower. reflexivity.
Qed.

Lemma filter_idem {A : Type} (p : A -> bool) (l : list A) :
  filter p (filter p l) = filter p l.
Proof.
  induction l as [|a l IH]; simpl; [reflexivity|].
  destruct (p a) eqn:E; simpl; [rewrite E|]; now rewrite ?IH.
Qed.

(** X15: filtering the view of a Table again, with the same controls, gives
    that view again, where "Completed" is a bool column when completed rows
    are hidden, and the searched columns are searchable when a search is
    made. *)
Theorem filtered_data_again (df v : DataFrame) (uf : list Urgency) (sc : bool)
        (search : string) :
  Spec.Table df ->
  (sc = false -> Spec.bool_completed df) ->
  (PyStr.truthy (PyStr.strip search) = true -> Spec.searchable df) ->
  App.filtered_data re_meta df uf sc search = Ok v ->
  App.filtered_data re_meta v uf sc search = Ok v.
Proof.
  intros (Hc & Hi & Hr) Hb Hs Hv.
  rewrite (filtered_data_char re_meta df uf sc search Hc Hr Hb Hs) in Hv.
  destruct (Spec.search_test re_meta search) as [om|e] eqn:Hom;
    cbn [bind] in Hv; [|discriminate].
  injection Hv as <-.
  rewrite filtered_data_char.
  - rewrite Hom. cbn [bind schema rows]. f_equal. f_equal.
    unfold Spec.view_rows.
    rewrite (filter_filter_filter _ _ _ (rows df)).
    rewrite filter_filter_filter. apply filter_idem.
  - exact Hc.
  - cbn [rows]. unfold Spec.view_rows. now do 3 apply canonical_rows_filter.
  - intros E. apply (Hb E).
  - intros E. destruct (Hs E) as (Da & Db & Ht).
    repeat split; try assumption. cbn [rows]. unfold Spec.view_rows.
    now do 3 apply text_rows_filter.
Qed.
End SearchFacts.

(** ** Views of a Table *)

Lemma subseq_filter_both {A : Type} (p : A -> bool) (v l : list A) :
  Spec.subseq v l -> Spec.subseq (filter p v) (filter p l).
Proof.
  induction 1 as [|a v l H IH|a v l H IH]; simpl.
  - constructor.
  - destruct (p a); [constructor|]; assumption.
  - destruct (p a); [constructor|]; assumption.
Qed.

Lemma isin_label (uf : list Urgency) (u : Urgency) :
  In u uf -> Pd.isin (map App.label uf) (Text (App.label u)) = true.
Proof.
  intros H. cbn [Pd.isin]. apply existsb_exists. exists (App.label u).
  split; [now apply in_map | apply String.eqb_refl].
Qed.

Section ViewFacts.
Variable re_meta : string -> option (string -> bool).

(** X16: selecting the three urgencies is not selecting none: a row whose
    "Urgency" is none of the three labels (a missing value, another text) is
    hidden when all three are selected, and shown when none is. *)
Theorem all_urgencies_is_not_none (df : DataFrame) (r : nat * list cell) :
  Spec.Table df ->
  In r (rows df) ->
  Pd.isin (map App.label App.ALL_URGENCIES) (Spec.urgency (snd r)) = false ->
  (exists v,
     App.filtered_data re_meta df App.ALL_URGENCIES true EmptyString = Ok v
     /\ ~ In r (rows v))
  /\ (exists v,
        App.filtered_data re_meta df [] true EmptyString = Ok v
        /\ In r (rows v)).
Proof.
  intros (Hc & Hi & Hr) Hin Hu. split.
  - rewrite (filtered_data_char re_meta df _ _ _ Hc Hr)
      by discriminate.
    eexists. split; [reflexivity|]. cbn [rows]. unfold Spec.view_rows.
    intros H. apply filter_In in H as [H _]. apply filter_In in H as [H _].
    apply filter_In in H as [_ H].
    cbn [Spec.keep_urgency App.ALL_URGENCIES] in H.
    congruence.
  - exists df. split; [reflexivity | exact Hin].
Qed.

Lemma column_missing (df : DataFrame) (c : string) :
  Pd.has_column df c = false -> Pd.column df c = Raise KeyError.
Proof.
  unfold Pd.has_column, Pd.column, Pd.getitem.
  destruct (Pd.get_loc c (columns df)); [discriminate | reflexivity].
Qed.

Lemma filter_urgency_columns (df df' : DataFrame) (uf : list Urgency) :
  App.filter_urgency df uf = Ok df' -> schema df' = schema df.
Proof.
  unfold App.filter_urgency. destruct uf as [|u uf].
  - now intros [= <-].
  - destruct (Pd.getitem df "Urgency"); cbn [bind]; [|discriminate].
    now intros [= <-].
Qed.

Lemma filter_urgency_present (df : DataFrame) (uf : list Urgency) :
  uf = [] \/ Pd.has_column df "Urgency" = true ->
  exists df', App.filter_urgency df uf = Ok df'.
Proof.
  unfold App.filter_urgency, Pd.has_column, Pd.getitem.
  intros [-> | H]; [eexists; reflexivity|].
  destruct uf; [eexists; reflexivity|].
  destruct (Pd.get_loc "Urgency" (columns df)); [|discriminate].
  eexists; reflexivity.
Qed.

Lemma has_column_schema (df df' : DataFrame) (c : string) :
  schema df' = schema df -> Pd.has_column df' c = Pd.has_column df c.
Proof. intros H. unfold Pd.has_column, columns. now rewrite H. Qed.

(** What hiding the completed rows leaves of the columns: those of the
    frame, or none. *)
Lemma filter_completed_columns (df df' : DataFrame) (sc : bool) :
  App.filter_completed df sc = Ok df' ->
  schema df' = schema df \/ schema df' = [].
Proof.
  unfold App.filter_completed. destruct sc; cbn [negb].
  - intros [= <-]. now left.
  - destruct (Pd.column df "Completed") as [c|e]; cbn [bind]; [|discriminate].
    destruct (Pd.invert c) as [[m|[|n]]|e]; cbn [bind Pd.getitem_key];
      try discriminate; intros [= <-]; auto.
Qed.

Lemma filter_completed_errors (df : DataFrame) (sc : bool) (e : exn) :
  App.filter_completed df sc = Raise e -> e = KeyError \/ e = TypeError.
Proof.
  unfold App.filter_completed. destruct sc; cbn [negb]; [discriminate|].
  unfold Pd.column, Pd.getitem.
  destruct (Pd.get_loc "Completed" (columns df)); cbn [bind].
  2:{ intros [= <-]. now left. }
  destruct (Pd.dtype_of df "Completed") as [t|]; cbn [bind].
  2:{ intros [= <-]. now left. }
  unfold Pd.invert. cbn [fst snd].
  assert (Hb : forall l e', mapM Pd.invert_bool l = Raise e' ->
                            e' = TypeError).
  { induction l as [|c l IH]; simpl; intros e' H; [discriminate|].
    destruct c; cbn [Pd.invert_bool bind] in H; try (now injection H).
    destruct (mapM Pd.invert_bool l); cbn [bind] in H; [discriminate|].
    injection H as <-. now apply IH. }
  assert (Ho : forall l e', mapM Pd.invert_object l = Raise e' ->
                            e' = TypeError).
  { induction l as [|c l IH]; simpl; intros e' H; [discriminate|].
    destruct c; cbn [Pd.invert_object bind] in H; try (now injection H).
    destruct (mapM Pd.invert_object l); cbn [bind] in H; [discriminate|].
    injection H as <-. now apply IH. }
  destruct t.
  - destruct (mapM Pd.invert_bool _) as [m|e'] eqn:E; cbn [bind].
    + discriminate.
    + intros [= <-]. right. eapply Hb, E.
  - intros [= <-]. now right.
  - destruct (mapM Pd.invert_object _) as [m|e'] eqn:E; cbn [bind].
    + destruct (List.length m); cbn; [discriminate|].
      intros [= <-]. now left.
    + intros [= <-]. right. eapply Ho, E.
Qed.

(** X17: on any frame, the first control in the order of the script that
    reads a column the frame lacks ends the block.  A selection that is not
    empty raises [KeyError] without "Urgency".  Past the urgency filter,
    hiding completed items raises [KeyError] without "Completed".  Past the
    urgency filter, a search that is not blank fails without "Item Needed":
    with [KeyError] when completed items are shown, with [KeyError] or the
    [TypeError] of [~] when they are hidden.  With no selection, completed
    items shown and a blank search no column is read and any frame is its
    own view. *)
Theorem filtered_data_missing_column (df : DataFrame) (uf : list Urgency)
        (sc : bool) (search : string) :
  (uf <> [] -> Pd.has_column df "Urgency" = false ->
   App.filtered_data re_meta df uf sc search = Raise KeyError)
  /\ (uf = [] \/ Pd.has_column df "Urgency" = true ->
      sc = false -> Pd.has_column df "Completed" = false ->
      App.filtered_data re_meta df uf sc search = Raise KeyError)
  /\ (uf = [] \/ Pd.has_column df "Urgency" = true ->
      PyStr.truthy (PyStr.strip search) = true ->
      Pd.has_column df "Item Needed" = false ->
      exists e,
        App.filtered_data re_meta df uf sc search = Raise e
        /\ (e = KeyError \/ (e = TypeError /\ sc = false))
        /\ (sc = true -> e = KeyError))
  /\ (uf = [] -> sc = true -> PyStr.truthy (PyStr.strip search) = false ->
      App.filtered_data re_meta df uf sc search = Ok df).
Proof.
  unfold App.filtered_data. split; [|split; [|split]].
  - intros Huf H. unfold App.filter_urgency, Pd.getitem.
    unfold Pd.has_column in H. destruct uf; [congruence|].
    destruct (Pd.get_loc "Urgency" (columns df)); [discriminate | reflexivity].
  - intros Hu -> H.
    destruct (filter_urgency_present df uf Hu) as [df1 E1]. rewrite E1.
    cbn [bind]. unfold App.filter_completed. cbn [negb].
    rewrite column_missing; [reflexivity|].
    now rewrite (has_column_schema _ _ _ (filter_urgency_columns _ _ _ E1)).
  - intros Hu Hs H.
    destruct (filter_urgency_present df uf Hu) as [df1 E1]. rewrite E1.
    cbn [bind].
    pose proof (filter_urgency_columns _ _ _ E1) as S1.
    destruct (App.filter_completed df1 sc) as [df2|e] eqn:E2; cbn [bind].
    + assert (H2 : Pd.has_column df2 "Item Needed" = false).
      { destruct (filter_completed_columns _ _ _ E2) as [S2|S2].
        - rewrite (has_column_schema _ _ _ S2).
          now rewrite (has_column_schema _ _ _ S1).
        - unfold Pd.has_column, columns. now rewrite S2. }
      exists KeyError. unfold App.filter_search. rewrite Hs.
      rewrite (column_missing _ _ H2). auto.
    + exists e. split; [reflexivity|].
      destruct sc; [discriminate E2|].
      destruct (filter_completed_errors _ _ _ E2) as [-> | ->]; split; auto;
        discriminate.
  - intros -> -> Hs. cbn [App.filter_urgency App.filter_completed bind negb].
    unfold App.filter_search. now rewrite Hs.
Qed.

(** A search that gave a view ran on object columns. *)
Lemma search_ok_dtypes (df v : DataFrame) (uf : list Urgency) (sc : bool)
      (search : string) :
  columns df = App.CANONICAL ->
  forallb Spec.canonical_row (map snd (rows df)) = true ->
  App.filtered_data re_meta df uf sc search = Ok v ->
  PyStr.truthy (PyStr.strip search) = true ->
  Pd.dtype_of df "Item Needed" = Some Object
  /\ Pd.dtype_of df "Where to Get" = Some Object.
Proof.
  intros Hc Hr Hv Hs. revert Hv. unfold App.filtered_data.
  rewrite (filter_urgency_canonical df uf Hc). cbn [bind].
  pose proof (canonical_rows_filter (Spec.keep_urgency uf) _ Hr) as Hr1.
  set (rs1 := filter (Spec.keep_urgency uf) (rows df)) in *.
  rewrite (filter_completed_canonical (mkDataFrame (schema df) rs1) sc Hc Hr1).
  assert (Canon : forall rs2,
    App.filter_search re_meta (mkDataFrame (schema df) rs2) search = Ok v ->
    Pd.dtype_of df "Item Needed" = Some Object
    /\ Pd.dtype_of df "Where to Get" = Some Object).
  { intros rs2.
    rewrite (filter_search_canonical re_meta (mkDataFrame (schema df) rs2)
               search Hc).
    rewrite Hs. clear - Hc. canonical_frame df Hc. cbn [schema rows].
    pose proof (column_canonical t0 t1 t2 t3 t4 t5 rs2) as G.
    cbv zeta in G. destruct G as (_ & _ & Ga & Gb). rewrite Ga, Gb.
    cbn [bind].
    change (Pd.dtype_of _ "Item Needed") with (Some t1).
    change (Pd.dtype_of _ "Where to Get") with (Some t3).
    unfold Pd.str at 1. cbn [fst snd].
    destruct t1; cbn [bind]; try discriminate.
    destruct (_ || _); cbn [bind]; [|discriminate].
    destruct (Re.compile_search re_meta _); cbn [bind]; [|discriminate].
    unfold Pd.str at 1. cbn [fst snd].
    destruct t3; cbn [bind]; try discriminate.
    auto. }
  destruct sc.
  - cbn [bind]. apply Canon.
  - change (Pd.dtype_of (mkDataFrame (schema df) rs1) "Completed")
      with (Pd.dtype_of df "Completed").
    destruct (Pd.dtype_of df "Completed") as [[| |]|]; cbn [bind schema rows];
      try discriminate.
    + apply Canon.
    + destruct rs1; cbn [bind]; [|discriminate].
      unfold App.filter_search. rewrite Hs. discriminate.
Qed.

(** X18: hiding the completed items only removes rows: the view is a
    subsequence of the one with completed items shown, and the rows that are
    left out are those whose "Completed" is true.  Where a search is made,
    this is for rows that hold no boolean under "Item Needed" and "Where to
    Get". *)
Theorem hiding_completed_shows_less (df v : DataFrame) (uf : list Urgency)
        (search : string) :
  Spec.Table df ->
  (PyStr.truthy (PyStr.strip search) = true ->
   forallb Spec.text_row (map snd (rows df)) = true) ->
  App.filtered_data re_meta df uf false search = Ok v ->
  exists v',
    App.filtered_data re_meta df uf true search = Ok v'
    /\ Spec.subseq (rows v) (rows v')
    /\ forall r, In r (rows v') ->
                 In r (rows v) \/ Spec.completed (snd r) = Flag true.
Proof.
  intros (Hc & Hi & Hr) Ht Hv.
  assert (Hs : PyStr.truthy (PyStr.strip search) = true -> Spec.searchable df).
  { intros E. destruct (search_ok_dtypes df v uf false search Hc Hr Hv E).
    repeat split; auto. }
  pose proof (filtered_data_cases re_meta df uf false search Hc Hr) as H.
  rewrite Hv in H. destruct H as (om & Hom & Hrows & _).
  rewrite (filtered_data_char re_meta df uf true search Hc Hr)
    by (discriminate || exact Hs).
  rewrite Hom. cbn [bind].
  eexists. split; [reflexivity|]. cbn [rows]. rewrite Hrows.
  unfold Spec.view_rows. split.
  - apply subseq_filter_both. rewrite (filter_all (Spec.keep_completed true))
      by reflexivity.
    apply subseq_filter, subseq_refl.
  - intros r Hin. apply filter_In in Hin as [Hin Hse].
    apply filter_In in Hin as [Hin _].
    assert (Hcan : Spec.canonical_row (snd r) = true).
    { rewrite forallb_forall in Hr. apply Hr, in_map.
      apply filter_In in Hin. tauto. }
    destruct (canonical_row_inv _ Hcan) as (a & b & c & d & e & f & E).
    destruct f.
    + right. unfold Spec.completed. now rewrite E.
    + left. apply filter_In. split; [|exact Hse]. apply filter_In.
      split; [exact Hin|]. unfold Spec.keep_completed, Spec.completed.
      now rewrite E.
Qed.

Lemma view_rows_app (uf : list Urgency) (sc : bool)
      (om : option (string -> bool)) (rs : list (nat * list cell))
      (r : nat * list cell) :
  Spec.keep_urgency uf r = true ->
  Spec.keep_completed sc r = true ->
  Spec.keep_search_opt om r = true ->
  Spec.view_rows uf sc om (rs ++ [r]) = Spec.view_rows uf sc om rs ++ [r].
Proof.
  intros Hu Hc Hs. unfold Spec.view_rows.
  rewrite !filter_app. cbn [filter]. rewrite Hu. cbn [filter]. rewrite Hc.
  cbn [filter]. now rewrite Hs.
Qed.

Lemma contains_refl (s : string) : PyStr.contains s s = true.
Proof.
  destruct s as [|c s]; [reflexivity|]. cbn [PyStr.contains].
  assert (H : forall t, prefix t t = true).
  { induction t as [|d t IH]; simpl; [reflexivity|].
    destruct (ascii_dec d d); [exact IH | congruence]. }
  now rewrite H.
Qed.

(** After a valid submission "Completed" is a bool column when it was one,
    and the searched columns are object columns. *)
Lemma add_item_dtypes (st : State) (now item q w : string) (u : Urgency) :
  Spec.Table (session_df st) ->
  PyStr.truthy (PyStr.strip item) = true ->
  let df' := session_df (App.add_item st now item q w u) in
  (Spec.bool_completed (session_df st) -> Spec.bool_completed df')
  /\ Pd.dtype_of df' "Item Needed" = Some Object
  /\ Pd.dtype_of df' "Where to Get" = Some Object.
Proof.
  intros HT Hv df'. unfold df'.
  rewrite (add_item_valid st now item q w u HT Hv). cbn [session_df].
  destruct HT as (Hc & _). destruct (session_df st) as [sch rs].
  unfold columns in Hc. cbn [schema] in Hc.
  destruct (canonical_schema _ Hc) as (t0 & t1 & t2 & t3 & t4 & t5 & ->).
  unfold Spec.bool_completed.
  split; [|split].
  - intros Hb. change (Some t5 = Some BoolDtype) in Hb. injection Hb as ->.
    reflexivity.
  - change (Some (Pd.common t1 Object) = Some Object). now destruct t1.
  - change (Some (Pd.common t3 Object) = Some Object). now destruct t3.
Qed.

Lemma add_item_text_rows (st : State) (now item q w : string) (u : Urgency) :
  Spec.Table (session_df st) ->
  forallb Spec.text_row (map snd (rows (session_df st))) = true ->
  forallb Spec.text_row
    (map snd (rows (session_df (App.add_item st now item q w u)))) = true.
Proof.
  intros HT Ht. destruct (PyStr.truthy (PyStr.strip item)) eqn:Hv.
  - rewrite (add_item_valid st now item q w u HT Hv). cbn [session_df rows].
    rewrite map_app, forallb_app, Ht. reflexivity.
  - unfold App.add_item. rewrite Hv. exact Ht.
Qed.


(** X10: an item that was just added is shown: when its urgency is selected
    (or none is), and the search text is blank or is the name of the item
    (without metacharacter), the view after the submission is the view
    before it with the new row at the end.  This is on a Table whose
    "Completed" is a bool column where completed rows are hidden, and whose
    searched columns are searchable where a search is made. *)
Theorem added_item_is_shown (st : State) (now item q w : string) (u : Urgency)
        (uf : list Urgency) (sc : bool) (search : string) :
  Spec.Table (session_df st) ->
  (sc = false -> Spec.bool_completed (session_df st)) ->
  (PyStr.truthy (PyStr.strip search) = true ->
   Spec.searchable (session_df st)) ->
  PyStr.truthy (PyStr.strip item) = true ->
  uf = [] \/ In u uf ->
  PyStr.truthy (PyStr.strip search) = false
  \/ (Re.literal (PyStr.lower (PyStr.strip search)) = true
      /\ PyStr.lower (PyStr.strip search) = PyStr.lower (PyStr.strip item)) ->
  exists v0,
    App.filtered_data re_meta (session_df st) uf sc search = Ok v0
    /\ App.filtered_data re_meta
         (session_df (App.add_item st now item q w u)) uf sc search
       = Ok (mkDataFrame (schema (session_df (App.add_item st now item q w u)))
               (rows v0
                ++ [(List.length (rows (session_df st)),
                     Spec.added_row now item q w u)])).
Proof.
  intros HT Hb Hse Hv Huf Hs.
  pose proof (add_item_keeps_table st now item q w u HT) as HT'.
  destruct (add_item_dtypes st now item q w u HT Hv) as (Hb' & Da' & Db').
  pose proof (add_item_text_rows st now item q w u HT) as Ht'.
  cbv zeta in Hb'.
  assert (Hse' : PyStr.truthy (PyStr.strip search) = true ->
                 Spec.searchable
                   (session_df (App.add_item st now item q w u))).
  { intros E. destruct (Hse E) as (_ & _ & Ht). repeat split; auto. }
  assert (Hrows : rows (session_df (App.add_item st now item q w u))
                  = rows (session_df st)
                    ++ [(List.length (rows (session_df st)),
                         Spec.added_row now item q w u)])
    by (now rewrite (add_item_valid st now item q w u HT Hv)).
  destruct HT as (Hc & Hi & Hr), HT' as (Hc' & Hi' & Hr').
  rewrite (filtered_data_char re_meta _ uf sc search Hc Hr Hb Hse).
  rewrite (filtered_data_char re_meta _ uf sc search Hc' Hr'
             (fun E => Hb' (Hb E)) Hse').
  rewrite Hrows.
  assert (Hom : exists om,
             Spec.search_test re_meta search = Ok om
             /\ Spec.keep_search_opt om
                  (List.length (rows (session_df st)),
                   Spec.added_row now item q w u) = true).
  { unfold Spec.search_test. destruct Hs as [Hs|[Hlit Hs]].
    - rewrite Hs. eexists. split; reflexivity.
    - destruct (PyStr.truthy (PyStr.strip search));
        [|eexists; split; reflexivity].
      unfold Re.compile_search. rewrite Hlit. cbn [bind].
      eexists. split; [reflexivity|].
      cbn [Spec.keep_search_opt]. unfold Spec.keep_search.
      cbn [snd Spec.added_row Spec.itemNeeded nth Spec.field_matches].
      rewrite Hs, contains_refl. reflexivity. }
  destruct Hom as (om & Hom & Hk). rewrite Hom. cbn [bind].
  eexists. split; [reflexivity|]. cbn [rows]. f_equal. f_equal.
  apply view_rows_app;
    [|unfold Spec.keep_completed; apply orb_true_r|exact Hk].
  unfold Spec.keep_urgency. destruct uf as [|u0 uf]; [reflexivity|].
  cbn [snd Spec.added_row Spec.urgency nth]. apply isin_label.
  destruct Huf as [Huf|Huf]; [discriminate | exact Huf].
Qed.

Lemma load_data_rows_le (sh : Sheet) :
  List.length (rows (App.load_data_body sh)) <= List.length (body sh).
Proof.
  destruct (empty_read_cases sh) as [[_ He]|(_ & Hh & Hb)].
  - rewrite (load_data_empty sh He). cbn. lia.
  - rewrite (load_data_rows sh Hh Hb). lia.
Qed.

Lemma view_rows_length (uf : list Urgency) (sc : bool)
      (om : option (string -> bool)) (rs : list (nat * list cell)) :
  List.length (Spec.view_rows uf sc om rs) <= List.length rs.
Proof.
  unfold Spec.view_rows.
  eapply Nat.le_trans; [apply filter_length_le|].
  eapply Nat.le_trans; [apply filter_length_le|].
  apply filter_length_le.
Qed.

(** Under the canonical header a read leaves a bool "Completed". *)
Lemma load_data_bool_completed (sh : Sheet) :
  header sh = App.CANONICAL ->
  Spec.bool_completed (App.load_data_body sh).
Proof.
  intros Hh. unfold Spec.bool_completed.
  destruct (body sh) as [|b bs] eqn:Eb.
  - now rewrite (load_data_empty sh (or_intror Eb)).
  - assert (Hb : body sh <> []) by congruence.
    assert (Hloc : Pd.get_loc "Completed" (header sh) = Some 5)
      by (rewrite Hh; reflexivity).
    rewrite (load_data_completed sh 5 Hb Hloc). unfold Pd.dtype_of.
    cbn [schema]. apply (lookup_set_dtype _ _ _ 5).
    fold (columns (App.conn_read sh)). now rewrite columns_conn_read.
Qed.

(** The dtype inferred for cells that hold a text and no boolean is
    object. *)
Lemma infer_text (vals : list cell) :
  existsb Pd.is_str vals = true -> existsb Pd.is_bool vals = false ->
  Pd.infer vals = Object.
Proof.
  intros Hs Hb. unfold Pd.infer. destruct vals as [|c vals]; [reflexivity|].
  assert (H1 : forallb Pd.is_bool (c :: vals) = false).
  { apply existsb_exists in Hs as (x & Hin & Hx).
    apply not_true_is_false. intros H. rewrite forallb_forall in H.
    specialize (H x Hin). destruct x; discriminate. }
  assert (H2 : forallb Pd.is_nan (c :: vals) = false).
  { apply existsb_exists in Hs as (x & Hin & Hx).
    apply not_true_is_false. intros H. rewrite forallb_forall in H.
    specialize (H x Hin). destruct x; discriminate. }
  now rewrite H1, H2.
Qed.

Lemma map_nth_combine_seq (j : nat) (lines : list (list cell)) (k : nat) :
  map (fun r : nat * list cell => nth j (snd r) NaN)
    (combine (seq k (List.length lines)) lines)
  = map (fun r => nth j r NaN) lines.
Proof.
  rewrite <- (map_map snd (fun r => nth j r NaN)).
  now rewrite map_snd_combine_seq.
Qed.

(** A sheet under the canonical header, with lines of six cells, a text
    somewhere under "Item Needed" and under "Where to Get" and no boolean
    there, is read as a Table on which every control works. *)
Lemma load_data_ready (sh : Sheet) :
  header sh = App.CANONICAL ->
  Spec.rectangular sh ->
  forallb Spec.text_row (body sh) = true ->
  existsb Pd.is_str (map Spec.itemNeeded (body sh)) = true ->
  existsb Pd.is_str (map Spec.whereToGet (body sh)) = true ->
  Spec.Ready (App.load_data_body sh).
Proof.
  intros Hh Hrect Ht Ha Hb.
  split; [now apply load_data_is_table|].
  split; [now apply load_data_bool_completed|].
  assert (Hne : body sh <> []).
  { intros E. rewrite E in Ha. discriminate. }
  assert (Hloc : Pd.get_loc "Completed" (header sh) = Some 5)
    by (rewrite Hh; reflexivity).
  assert (Hna : existsb Pd.is_bool (map Spec.itemNeeded (body sh)) = false
                /\ existsb Pd.is_bool (map Spec.whereToGet (body sh))
                   = false).
  { clear - Ht. induction (body sh) as [|r rs IH]; simpl; [auto|].
    simpl in Ht. apply andb_true_iff in Ht as [Hr Hrs].
    destruct (IH Hrs) as [-> ->].
    unfold Spec.text_row in Hr. apply andb_true_iff in Hr as [H1 H2].
    apply negb_true_iff in H1, H2. rewrite H1, H2. auto. }
  destruct Hna as [Hna Hnb].
  rewrite (load_data_completed sh 5 Hne Hloc).
  unfold Spec.searchable, Pd.dtype_of. cbn [schema rows].
  rewrite !lookup_set_dtype_other by reflexivity.
  unfold App.conn_read. cbn [schema rows].
  rewrite (lookup_read_schema "Item Needed" _ 0 1)
    by (rewrite Hh; reflexivity).
  rewrite (lookup_read_schema "Where to Get" _ 0 3)
    by (rewrite Hh; reflexivity).
  cbn [Nat.add].
  split; [f_equal; now apply infer_text|].
  split; [f_equal; now apply infer_text|].
  rewrite map_map. cbn [snd].
  unfold Spec.rectangular in Hrect. rewrite Hh in Hrect. clear - Ht Hrect.
  assert (G : forall k,
    forallb Spec.text_row
      (map (fun x : nat * list cell =>
              Pd.set_nth 5 (Spec.normalize (nth 5 (snd x) NaN)) (snd x))
         (combine (seq k (List.length (body sh))) (body sh))) = true).
  { induction Hrect as [|r rs Hr Hrs IH]; intros k; [reflexivity|].
    cbn [List.length seq combine map forallb snd].
    cbn [forallb] in Ht. apply andb_true_iff in Ht as [Ht1 Ht2].
    rewrite (IH Ht2), andb_true_r.
    destruct r as [|a [|b [|c [|d [|e [|f [|g r]]]]]]]; try discriminate.
    exact Ht1. }
  apply G.
Qed.

(** X20: a sheet under the canonical header, with lines of six cells, can
    be read and filtered whatever its cells hold without [KeyError] and
    without [TypeError]: "Completed" is read as a bool column.  The view has
    the columns of the frame and at most as many rows as the sheet has
    lines.  The block fails on a search text that does not compile, and with
    [AttributeError] on a search in a frame whose "Item Needed" or "Where to
    Get" is not an object column of texts and missing values, as when a
    column of the sheet is blank throughout.  A sheet with a text somewhere
    under both labels and no boolean there is searchable. *)
Theorem loaded_sheet_filters (sh : Sheet) (uf : list Urgency) (sc : bool)
        (search : string) :
  header sh = App.CANONICAL ->
  Spec.rectangular sh ->
  match App.filtered_data re_meta (App.load_data_body sh) uf sc search with
  | Ok v =>
      schema v = schema (App.load_data_body sh)
      /\ List.length (rows v) <= List.length (body sh)
  | Raise e =>
      (e = ReError /\ Re.literal (PyStr.lower (PyStr.strip search)) = false)
      \/ (e = AttributeError
          /\ PyStr.truthy (PyStr.strip search) = true
          /\ ~ Spec.searchable (App.load_data_body sh)
          /\ ~ (forallb Spec.text_row (body sh) = true
                /\ existsb Pd.is_str (map Spec.itemNeeded (body sh)) = true
                /\ existsb Pd.is_str (map Spec.whereToGet (body sh)) = true))
  end.
Proof.
  intros Hh Hrect. pose proof (load_data_is_table sh Hh Hrect) as HT.
  pose proof (load_data_bool_completed sh Hh) as Hb.
  destruct HT as (Hc & Hi & Hr).
  pose proof (filtered_data_cases re_meta _ uf sc search Hc Hr) as H.
  destruct (App.filtered_data re_meta (App.load_data_body sh) uf sc search)
    as [v|e] eqn:E.
  - destruct H as (om & Hom & Hrows & Hsch). split.
    + destruct Hsch as [Hsch|[Hsch Hnil]]; [exact Hsch|].
      exfalso. revert E. unfold App.filtered_data.
      rewrite (filter_urgency_canonical _ uf Hc). cbn [bind].
      pose proof (canonical_rows_filter (Spec.keep_urgency uf) _ Hr) as Hr1.
      rewrite (filter_completed_canonical
                 (mkDataFrame (schema (App.load_data_body sh))
                    (filter (Spec.keep_urgency uf)
                       (rows (App.load_data_body sh)))) sc Hc Hr1).
      change (Pd.dtype_of (mkDataFrame (schema (App.load_data_body sh)) _)
                "Completed")
        with (Pd.dtype_of (App.load_data_body sh) "Completed").
      rewrite Hb.
      assert (G : forall rs2,
        App.filter_search re_meta
          (mkDataFrame (schema (App.load_data_body sh)) rs2) search
        <> Ok v).
      { intros rs2 E.
        pose proof (filter_search_cases re_meta
                      (mkDataFrame (schema (App.load_data_body sh)) rs2)
                      search Hc) as G.
        rewrite E in G. destruct G as (om' & _ & ->). cbn [schema] in Hsch.
        unfold columns in Hc. rewrite Hsch in Hc. discriminate. }
      destruct sc; cbn [bind]; apply G.
    + rewrite Hrows.
      eapply Nat.le_trans; [apply view_rows_length | apply load_data_rows_le].
  - destruct H as [[-> H]|[(-> & Hs & Hn)|(_ & _ & Hn)]].
    + left. split; [reflexivity|].
      unfold Spec.search_test in H.
      destruct (PyStr.truthy (PyStr.strip search)); [|discriminate].
      unfold Re.compile_search in H.
      destruct (Re.literal _); [discriminate | reflexivity].
    + right. repeat split; try assumption.
      intros (Ht & Ha & Hw). apply Hn.
      now apply (load_data_ready sh Hh Hrect Ht Ha Hw).
    + contradiction.
Qed.
End ViewFacts.

(** ** The styled view *)

Lemma mapM_map_ok {A B C : Type} (f : B -> result C) (h : A -> B)
      (g : A -> C) (l : list A) :
  (forall a, In a l -> f (h a) = Ok (g a)) ->
  mapM f (map h l) = Ok (map g l).
Proof.
  induction l as [|a l IH]; intros H; [reflexivity|].
  cbn [mapM map]. rewrite (H a (or_introl eq_refl)). cbn [bind].
  rewrite IH; [reflexivity|]. intros x Hx. apply H. now right.
Qed.

Section StyledFacts.
Variable emoji : Urgency -> string.

Lemma getitem_columns (df : DataFrame) (c : string) (i : nat) :
  Pd.get_loc c (columns df) = Some i ->
  Pd.getitem df c = Ok (map (fun r => nth i (snd r) NaN) (rows df)).
Proof. intros H. unfold Pd.getitem. now rewrite H. Qed.

Lemma styled_urgency_canonical (view : DataFrame) :
  columns view = App.CANONICAL ->
  exists sch,
    App.styled_urgency emoji view
    = Ok (mkDataFrame sch (map (Spec.display_row emoji) (rows view)))
    /\ map fst sch = App.CANONICAL.
Proof.
  intros Hc. unfold App.styled_urgency.
  rewrite (getitem_columns view "Urgency" 4) by (now rewrite Hc).
  cbn [bind]. unfold Pd.setitem. rewrite Hc.
  change (Pd.get_loc "Urgency" App.CANONICAL) with (Some 4). cbv iota.
  cbn [fst snd]. eexists. split.
  - f_equal. f_equal. rewrite map_map.
    apply (assign_at_map 4 (App.fmt emoji)).
  - rewrite columns_set_dtype. exact Hc.
Qed.

Lemma style_row_canonical (r : nat * list cell) :
  Spec.canonical_row (snd r) = true ->
  App.style_row App.CANONICAL (snd (Spec.display_row emoji r))
  = Ok (Spec.row_styles r).
Proof.
  intros H. destruct r as [l cells]. cbn [snd] in *.
  destruct (canonical_row_inv _ H) as (a & b & c & d & e & f & ->).
  unfold App.style_row, Spec.display_row, Spec.row_styles.
  change (Pd.get_loc "Completed" App.CANONICAL) with (Some 5).
  cbn. destruct f; reflexivity.
Qed.

(** The styled view of canonical rows, in full. *)
Lemma styled_view_canonical (view : DataFrame) :
  columns view = App.CANONICAL ->
  forallb Spec.canonical_row (map snd (rows view)) = true ->
  rows view <> [] ->
  exists sch,
    App.styled_view emoji view
    = Ok (Some (mkDataFrame sch (map (Spec.display_row emoji) (rows view)),
                map Spec.row_styles (rows view)))
    /\ map fst sch = App.CANONICAL.
Proof.
  intros Hc Hr Hne. unfold App.styled_view, Pd.empty. rewrite Hc.
  destruct (rows view) as [|r0 rs0] eqn:Ers; [congruence|].
  rewrite <- Ers in *.
  assert (El : (List.length (rows view) =? 0) = false)
    by (rewrite Ers; reflexivity).
  cbn [List.length App.CANONICAL Nat.eqb orb]. rewrite El.
  destruct (styled_urgency_canonical view Hc) as (sch & Es & Hsch).
  rewrite Es. cbn [bind].
  rewrite (getitem_columns _ "Completed" 5)
    by (unfold columns; cbn [schema]; now rewrite Hsch).
  cbn [bind rows]. unfold columns. cbn [schema]. rewrite Hsch.
  rewrite map_map.
  rewrite (mapM_map_ok _ _ Spec.row_styles).
  - exists sch. split; [reflexivity | exact Hsch].
  - intros r Hin. apply style_row_canonical.
    rewrite forallb_forall in Hr. apply Hr, in_map, Hin.
Qed.

(** X21: the styled view of a view with canonical columns and rows.  For
    the empty view there is only the message.  Otherwise the displayed frame
    has the columns and the labels of the view, every row differs from the
    row of the view in "Urgency" only, where it holds [fmt] of the urgency,
    and the styles are one list of six per row: six times the dimmed style
    for a completed row, six empty styles for the others. *)
Theorem styled_view_shape (view : DataFrame) :
  columns view = App.CANONICAL ->
  forallb Spec.canonical_row (map snd (rows view)) = true ->
  (rows view = [] -> App.styled_view emoji view = Ok None)
  /\ (rows view <> [] ->
      exists d styles,
        App.styled_view emoji view = Ok (Some (d, styles))
        /\ columns d = columns view
        /\ Pd.index d = Pd.index view
        /\ List.length styles = List.length (rows view)
        /\ forall k r,
             nth_error (rows view) k = Some r ->
             exists r',
               nth_error (rows d) k = Some (fst r, r')
               /\ (forall j, j <> 4 -> nth j r' NaN = nth j (snd r) NaN)
               /\ Spec.urgency r' = App.fmt emoji (Spec.urgency (snd r))
               /\ nth_error styles k = Some (Spec.row_styles r)).
Proof.
  intros Hc Hr. split.
  - intros E. unfold App.styled_view, Pd.empty. rewrite E. cbn.
    now rewrite orb_true_r.
  - intros Hne.
    destruct (styled_view_canonical view Hc Hr Hne) as (sch & Es & Hsch).
    rewrite Es.
    do 2 eexists. split; [reflexivity|].
    split; [now rewrite Hc|]. split.
    { unfold Pd.index. cbn [rows]. rewrite map_map. reflexivity. }
    split; [apply length_map|].
    intros k r Hk. eexists. cbn [rows]. rewrite !nth_error_map, Hk.
    cbn [option_map].
    split; [reflexivity|].
    assert (Hcan : Spec.canonical_row (snd r) = true).
    { rewrite forallb_forall in Hr. apply Hr, in_map.
      eapply nth_error_In, Hk. }
    split; [|split; [|reflexivity]].
    + intros j Hj. apply nth_set_nth_other. congruence.
    + unfold Spec.urgency at 1. apply nth_set_nth.
      destruct (canonical_row_inv _ Hcan) as (a & b & c & d & e & f & ->).
      simpl. lia.
Qed.
End StyledFacts.

(** ** One run of the script *)


Section RunFacts.
Variable re_meta : string -> option (string -> bool).
Variable emoji : Urgency -> string.
Variable quote_cr : bool.


End RunFacts.

(** ** Round trips and growth *)

Lemma canonical_flags (rs : list (nat * list cell)) :
  forallb Spec.canonical_row (map snd rs) = true ->
  Forall (fun r => Spec.is_flag (nth 5 r NaN) = true) (map snd rs).
Proof.
  intros H. apply Forall_forall. intros r Hin.
  rewrite forallb_forall in H.
  destruct (canonical_row_inv r (H r Hin)) as (a & b & c & d & e & f & ->).
  reflexivity.
Qed.

(** What a read makes of the sheet that a save wrote for a Table: the
    columns and the rows of the Table, "Completed" a bool column. *)
Lemma read_after_save (df : DataFrame) :
  Spec.Table df ->
  columns (App.load_data_body (App.conn_update df)) = columns df
  /\ rows (App.load_data_body (App.conn_update df)) = rows df
  /\ Spec.bool_completed (App.load_data_body (App.conn_update df)).
Proof.
  intros (Hc & Hi & Hr).
  assert (Hh : header (App.conn_update df) = App.CANONICAL) by exact Hc.
  split; [|split; [|now apply load_data_bool_completed]].
  - destruct (rows df) as [|r0 rs0] eqn:Ers.
    + rewrite load_data_empty
        by (right; unfold App.conn_update; cbn [body]; now rewrite Ers).
      now rewrite Hc.
    + rewrite columns_load_data; [now rewrite Hc| |].
      * rewrite Hh. discriminate.
      * unfold App.conn_update. cbn [body]. rewrite Ers. discriminate.
  - destruct (rows df) as [|r0 rs0] eqn:Ers.
    + rewrite load_data_empty
        by (right; unfold App.conn_update; cbn [body]; now rewrite Ers).
      reflexivity.
    + rewrite <- Ers in *.
      assert (Hb : body (App.conn_update df) <> []).
      { unfold App.conn_update. cbn [body]. rewrite Ers. discriminate. }
      assert (Hloc : Pd.get_loc "Completed" (header (App.conn_update df))
                     = Some 5) by (rewrite Hh; reflexivity).
      rewrite (load_data_completed _ 5 Hb Hloc).
      cbn [App.conn_update header body rows App.conn_read].
      rewrite (normalize_flags_id 5 (map snd (rows df)) 0
                 (canonical_flags (rows df) Hr)).
      rewrite length_map. unfold Pd.index in Hi.
      rewrite <- Hi. apply combine_fst_snd.
Qed.

(** X6: the save leaves a Table as it is, and what it writes for the Table
    is what the next read of the sheet returns: the columns and the rows of
    the Table, "Completed" a bool column.  That read takes place when the
    cache of [load_data] has no entry younger than sixty seconds; while it
    has one, a load after the save returns the cached frame, whatever was
    saved. *)
Theorem load_after_save (clock : nat) (cache : Cache) (df : DataFrame) :
  Spec.Table df ->
  App.save_data df = (df, App.conn_update df)
  /\ (Spec.fresh_read clock cache ->
      let df' := fst (App.load_data clock cache (App.conn_update df)) in
      columns df' = columns df
      /\ rows df' = rows df
      /\ Spec.bool_completed df')
  /\ (forall e,
        cache = Some e -> clock < stored_at e + App.TTL ->
        fst (App.load_data clock cache (App.conn_update df)) = cached e).
Proof.
  intros HT. split; [apply save_data_canonical, HT|]. split.
  - intros Hf df'.
    assert (E : df' = App.load_data_body (App.conn_update df)).
    { unfold df', App.load_data, App.cache_lookup.
      destruct cache as [e|]; [|reflexivity].
      cbn in Hf. apply Nat.ltb_ge in Hf. now rewrite Hf. }
    rewrite E. now apply read_after_save.
  - intros e -> Hlt. unfold App.load_data, App.cache_lookup.
    apply Nat.ltb_lt in Hlt. now rewrite Hlt.
Qed.

Lemma subseq_filter_impl {A : Type} (p q : A -> bool) (l : list A) :
  (forall a, p a = true -> q a = true) ->
  Spec.subseq (filter p l) (filter q l).
Proof.
  intros H. induction l as [|a l IH]; simpl; [constructor|].
  destruct (p a) eqn:Ep.
  - rewrite (H a Ep). now constructor.
  - destruct (q a); [constructor|]; assumption.
Qed.

Section MoreViewFacts.
Variable re_meta : string -> option (string -> bool).

(** X19: selecting more urgencies only adds rows: for a selection that is
    not empty and a larger one, the first view is a subsequence of the
    second.  This is on a Table whose "Completed" is a bool column where
    completed rows are hidden, and whose rows hold no boolean under "Item
    Needed" and "Where to Get" where a search is made. *)
Theorem selecting_more_shows_more (df v : DataFrame) (uf uf' : list Urgency)
        (sc : bool) (search : string) :
  Spec.Table df ->
  (sc = false -> Spec.bool_completed df) ->
  (PyStr.truthy (PyStr.strip search) = true ->
   forallb Spec.text_row (map snd (rows df)) = true) ->
  uf <> [] ->
  incl uf uf' ->
  App.filtered_data re_meta df uf sc search = Ok v ->
  exists v',
    App.filtered_data re_meta df uf' sc search = Ok v'
    /\ Spec.subseq (rows v) (rows v').
Proof.
  intros (Hc & Hi & Hr) Hb Ht Hne Hincl Hv.
  assert (Hs : PyStr.truthy (PyStr.strip search) = true -> Spec.searchable df).
  { intros E. destruct (search_ok_dtypes re_meta df v uf sc search Hc Hr Hv E).
    repeat split; auto. }
  rewrite (filtered_data_char re_meta df uf sc search Hc Hr Hb Hs) in Hv.
  rewrite (filtered_data_char re_meta df uf' sc search Hc Hr Hb Hs).
  destruct (Spec.search_test re_meta search) as [om|e]; cbn [bind] in *;
    [|discriminate].
  injection Hv as <-. eexists. split; [reflexivity|]. cbn [rows].
  unfold Spec.view_rows. do 2 apply subseq_filter_both.
  apply subseq_filter_impl. intros r. unfold Spec.keep_urgency.
  destruct uf as [|u0 uf0] eqn:Eu; [congruence|]. rewrite <- Eu in *.
  destruct uf' as [|u1 uf1] eqn:Eu'; [reflexivity|]. rewrite <- Eu' in *.
  unfold Pd.isin. destruct (Spec.urgency (snd r)); try discriminate.
  rewrite !existsb_exists. intros (x & Hx & Hse). exists x.
  split; [|exact Hse].
  apply in_map_iff in Hx as (u & <- & Hu). apply in_map, Hincl, Hu.
Qed.

(** X22: the frame of "Create New List" has object columns only, and its
    sheet is the canonical header.  With completed items shown and a blank
    search its view is the frame itself.  With completed items hidden, [~]
    on the empty object column "Completed" is no mask: the view of a blank
    search has no column, and a search that is not blank raises
    [KeyError]. *)
Theorem new_list_view (st : State) (uf : list Urgency) (search : string) :
  let st' := App.create_new_list st in
  session_df st' = Pd.new_frame App.CANONICAL
  /\ sheet st' = mkSheet App.CANONICAL []
  /\ trace st'
     = trace st
       ++ [Update (mkSheet App.CANONICAL []); StSuccess "Started a new list!"]
  /\ (if PyStr.truthy (PyStr.strip search)
      then App.filtered_data re_meta (session_df st') uf false search
           = Raise KeyError
      else App.filtered_data re_meta (session_df st') uf true search
           = Ok (session_df st')
           /\ App.filtered_data re_meta (session_df st') uf false search
              = Ok (mkDataFrame [] [])).
Proof.
  cbv zeta. split; [reflexivity|]. split; [reflexivity|].
  split; [reflexivity|].
  change (session_df (App.create_new_list st))
    with (Pd.new_frame App.CANONICAL).
  unfold App.filtered_data.
  rewrite (filter_urgency_canonical (Pd.new_frame App.CANONICAL) uf eq_refl).
  cbn [bind Pd.new_frame rows filter].
  unfold App.filter_search.
  destruct (PyStr.truthy (PyStr.strip search)).
  - reflexivity.
  - split; reflexivity.
Qed.
End MoreViewFacts.

Section ExportFacts.
Variable quote_cr : bool.

Lemma fold_append_app (l1 l2 : list string) :
  fold_right String.append EmptyString (l1 ++ l2)
  = (fold_right String.append EmptyString l1
     ++ fold_right String.append EmptyString l2)%string.
Proof.
  induction l1 as [|a l1 IH]; simpl; [reflexivity|].
  now rewrite IH, append_assoc_s.
Qed.

Lemma to_csv_lines (df : DataFrame) :
  columns df = App.CANONICAL ->
  forallb Spec.canonical_row (map snd (rows df)) = true ->
  forallb Spec.one_line (map snd (rows df)) = true ->
  PyStr.lines (Pd.to_csv quote_cr df)
  = Spec.HEADER_LINE
    :: map (fun r => Pd.csv_line quote_cr (snd r)) (rows df).
Proof.
  intros Hc Hr Hl. unfold Pd.to_csv. rewrite Hc. cbn [fold_right].
  rewrite header_record, append_assoc_s. cbn [append].
  rewrite lines_app_line by reflexivity.
  now rewrite (lines_records quote_cr _ Hr Hl).
Qed.

(** X11: a valid submission adds one line to the export: when no text of
    the Table or of the new row holds a line feed, the lines of the export
    after the submission are those of the frame before it, then the line of
    the new row. *)
Theorem add_item_adds_a_line (st : State) (now item q w : string)
        (u : Urgency) :
  Spec.Table (session_df st) ->
  forallb Spec.one_line (map snd (rows (session_df st))) = true ->
  PyStr.truthy (PyStr.strip item) = true ->
  Spec.one_line (Spec.added_row now item q w u) = true ->
  exists text,
    App.export_csv quote_cr (App.add_item st now item q w u) = Some text
    /\ PyStr.lines text
       = PyStr.lines (Pd.to_csv quote_cr (session_df st))
         ++ [Pd.csv_line quote_cr (Spec.added_row now item q w u)].
Proof.
  intros HT Hl Hv Hnew. pose proof HT as (Hc & Hi & Hr).
  rewrite (add_item_valid st now item q w u HT Hv).
  unfold App.export_csv, Pd.empty. cbn [session_df rows].
  assert (E : (List.length
                 (rows (session_df st)
                  ++ [(List.length (rows (session_df st)),
                       Spec.added_row now item q w u)]) =? 0) = false).
  { rewrite length_app. cbn [List.length]. apply Nat.eqb_neq. lia. }
  rewrite E.
  match goal with
  | |- context [columns ?d] =>
      change (columns d) with App.CANONICAL
  end.
  cbn [List.length App.CANONICAL Nat.eqb orb negb].
  eexists. split; [reflexivity|].
  rewrite (to_csv_lines (session_df st) Hc Hr Hl).
  rewrite to_csv_lines; cbn [rows].
  - rewrite map_app. reflexivity.
  - reflexivity.
  - rewrite map_app, forallb_app, Hr. reflexivity.
  - rewrite map_app, forallb_app, Hl. cbn [map forallb snd]. now rewrite Hnew.
Qed.
End ExportFacts.

(** ** The session at its start *)

(** X5: a session that starts when the cache of [load_data] has no entry
    younger than sixty seconds reads the sheet: under the canonical header,
    with lines of six cells, it holds a Table with one row per line and a
    bool "Completed", and the frame is cached with the time.  A session that
    starts while the cache has such an entry holds the cached frame,
    whatever the sheet holds, and the cache stays as it is.  Either way the
    sheet is left as it is and nothing is written. *)
Theorem initialize_from_sheet (clock : nat) (cache : Cache) (sh : Sheet) :
  header sh = App.CANONICAL ->
  Spec.rectangular sh ->
  let st := fst (App.initialize None clock cache sh) in
  let cache' := snd (App.initialize None clock cache sh) in
  sheet st = sh
  /\ trace st = []
  /\ (Spec.fresh_read clock cache ->
      session_df st = App.load_data_body sh
      /\ Spec.Table (session_df st)
      /\ List.length (rows (session_df st)) = List.length (body sh)
      /\ Spec.bool_completed (session_df st)
      /\ cache' = Some (mkEntry clock (session_df st)))
  /\ (forall e,
        cache = Some e -> clock < stored_at e + App.TTL ->
        session_df st = cached e /\ cache' = cache).
Proof.
  intros Hh Hrect st cache'. unfold st, cache', App.initialize.
  destruct (App.load_data clock cache sh) as [df c1] eqn:E.
  cbn [fst snd session_df sheet trace].
  split; [reflexivity|]. split; [reflexivity|]. split.
  - intros Hf.
    assert (E' : App.load_data clock cache sh
                 = (App.load_data_body sh,
                    Some (mkEntry clock (App.load_data_body sh)))).
    { unfold App.load_data, App.cache_lookup.
      destruct cache as [e|]; [|reflexivity].
      cbn in Hf. apply Nat.ltb_ge in Hf. now rewrite Hf. }
    rewrite E' in E. injection E as <- <-.
    split; [reflexivity|]. split; [now apply load_data_is_table|].
    split; [|split; [now apply load_data_bool_completed | reflexivity]].
    destruct (empty_read_cases sh) as [[_ He]|(_ & Hne & Hb)].
    + rewrite (load_data_empty sh He). cbn.
      destruct He as [He|He]; [rewrite Hh in He; discriminate|].
      now rewrite He.
    + apply (load_data_rows sh Hne Hb).
  - intros e -> Hlt. unfold App.load_data, App.cache_lookup in E.
    apply Nat.ltb_lt in Hlt. rewrite Hlt in E. now injection E as <- <-.
Qed.

(** ** Why the views need their dtypes *)

(** With a boolean under "Item Needed", a search succeeds with completed
    items hidden and fails with them shown: the hidden row is the one that
    makes [.str] raise. *)
Lemma hiding_completed_needs_text :
  let df :=
    mkDataFrame Sample.SCHEMA
      [(0, Sample.blank);
       (1, [Text "2024-05-01 09:35"; Flag true; NaN; NaN; Text "Now";
            Flag true])] in
  Spec.Table df
  /\ App.filtered_data Sample.strict_engine df [] false "milk"
     = Ok (mkDataFrame Sample.SCHEMA [])
  /\ App.filtered_data Sample.strict_engine df [] true "milk"
     = Raise AttributeError.
Proof. repeat split. Qed.

(** After "Create New List" and a submission, "Completed" is an object
    column: hiding completed items gives a view without columns while the
    urgency filter leaves no row, and [KeyError] once it leaves one. *)
Lemma selecting_more_needs_bool :
  let df :=
    session_df
      (App.add_item
         (App.create_new_list (Sample.state_of Sample.table3))
         "2024-05-01 09:30" "Milk" "2 gallons" "Walmart" Now) in
  Spec.Table df
  /\ Pd.dtype_of df "Completed" = Some Object
  /\ App.filtered_data Sample.strict_engine df [Soon] false EmptyString
     = Ok (mkDataFrame [] [])
  /\ App.filtered_data Sample.strict_engine df [Soon; Now] false EmptyString
     = Raise KeyError.
Proof. repeat split. Qed.

(** The sheet of one line with blanks under "Quantity" and "Where to Get":
    both are read as float64 columns, and a search on the frame raises
    [AttributeError]. *)
Lemma blank_column_is_not_searchable :
  Pd.dtype_of (App.load_data_body Sample.raw_sheet) "Where to Get"
  = Some Float64
  /\ App.filtered_data Sample.strict_engine
       (App.load_data_body Sample.raw_sheet) App.ALL_URGENCIES false "milk"
     = Raise AttributeError.
Proof. split; reflexivity. Qed.

Lemma raw_sheet_rectangular : Spec.rectangular Sample.raw_sheet.
Proof. repeat constructor. Qed.

Lemma initialize_from_sheet_witness :
  Spec.Table (session_df (fst (App.initialize None 0 None Sample.raw_sheet)))
  /\ List.length
       (rows (session_df (fst (App.initialize None 0 None Sample.raw_sheet))))
     = 1
  /\ session_df
       (fst (App.initialize None 30 (Some (mkEntry 0 Sample.table3))
               Sample.raw_sheet))
     = Sample.table3.
Proof.
  destruct (initialize_from_sheet 0 None Sample.raw_sheet eq_refl
              raw_sheet_rectangular) as (_ & _ & Hf & _).
  destruct (Hf I) as (_ & HT & Hn & _).
  destruct (initialize_from_sheet 30 (Some (mkEntry 0 Sample.table3))
              Sample.raw_sheet eq_refl raw_sheet_rectangular)
    as (_ & _ & _ & Hc).
  destruct (Hc (mkEntry 0 Sample.table3) eq_refl
              ltac:(unfold App.TTL; cbn; lia)) as [Hs _].
  split; [exact HT|]. split; [exact Hn | exact Hs].
Defined.

(** ** Instances *)

Lemma load_data_cells_witness :
  columns (App.load_data_body Sample.raw_sheet) = App.CANONICAL
  /\ Pd.index (App.load_data_body Sample.raw_sheet) = [0].
Proof.
  destruct (proj2 (load_data_cells Sample.raw_sheet)
              ltac:(discriminate) ltac:(discriminate)) as (Hc & Hi & _).
  split; [exact Hc | exact Hi].
Defined.

Lemma load_after_save_witness :
  rows (fst (App.load_data 0 None (App.conn_update Sample.table3)))
  = rows Sample.table3
  /\ fst (App.load_data 30 (Some (mkEntry 0 Sample.table1))
            (App.conn_update Sample.table3))
     = Sample.table1.
Proof.
  destruct (load_after_save 0 None Sample.table3 table3_is_table)
    as (_ & Hf & _).
  destruct (Hf I) as (_ & Hr & _).
  destruct (load_after_save 30 (Some (mkEntry 0 Sample.table1)) Sample.table3
              table3_is_table) as (_ & _ & Hc).
  split; [exact Hr|].
  exact (Hc (mkEntry 0 Sample.table1) eq_refl ltac:(unfold App.TTL; cbn; lia)).
Defined.

Lemma save_after_load_settles_witness :
  snd (App.save_data
         (App.load_data_body
            (snd (App.save_data (App.load_data_body Sample.raw_sheet)))))
  = snd (App.save_data (App.load_data_body Sample.raw_sheet)).
Proof.
  exact (save_after_load_settles Sample.raw_sheet raw_sheet_rectangular).
Defined.

Lemma add_item_any_frame_witness :
  Forall (fun c =>
            Pd.has_column
              (session_df
                 (App.add_item (Sample.state_of Sample.frame_without_urgency)
                    "2024-05-02 10:00" " Bread " "1" "Bakery" Soon)) c = true)
    App.CANONICAL.
Proof.
  exact (proj1 (add_item_any_frame
                  (Sample.state_of Sample.frame_without_urgency)
                  "2024-05-02 10:00" " Bread " "1" "Bakery" Soon eq_refl)).
Defined.

Lemma table3_searchable : Spec.searchable Sample.table3.
Proof. repeat split. Qed.

Lemma added_item_is_shown_witness :
  exists v0,
    App.filtered_data Sample.strict_engine Sample.table3 [Soon] false "BREAD"
    = Ok v0
    /\ App.filtered_data Sample.strict_engine
         (session_df (App.add_item (Sample.state_of Sample.table3)
                        "2024-05-02 10:00" " Bread " "1" "Bakery" Soon))
         [Soon] false "BREAD"
       = Ok (mkDataFrame Sample.SCHEMA
               (rows v0
                ++ [(3, Spec.added_row "2024-05-02 10:00" " Bread " "1"
                          "Bakery" Soon)])).
Proof.
  exact (added_item_is_shown Sample.strict_engine
           (Sample.state_of Sample.table3) "2024-05-02 10:00" " Bread " "1"
           "Bakery" Soon [Soon] false "BREAD" table3_is_table
           (fun _ => eq_refl) (fun _ => table3_searchable) eq_refl
           (or_intror (or_introl eq_refl))
           (or_intror (conj eq_refl eq_refl))).
Defined.

Lemma add_item_adds_a_line_witness :
  exists text,
    App.export_csv true
      (App.add_item (Sample.state_of Sample.table3) "2024-05-02 10:00"
         " Bread " "1" "Bakery" Soon) = Some text
    /\ List.length (PyStr.lines text) = 5.
Proof.
  destruct (add_item_adds_a_line true (Sample.state_of Sample.table3)
              "2024-05-02 10:00" " Bread " "1" "Bakery" Soon
              table3_is_table eq_refl eq_refl eq_refl) as (text & Ht & Hl).
  exists text. split; [exact Ht|]. rewrite Hl. reflexivity.
Defined.

Lemma edit_table_keeps_table_witness :
  exists st',
    App.edit_table (Sample.state_of Sample.table3)
      (mkDataFrame Sample.SCHEMA [(0, Sample.milk); (2, Sample.blank)])
      [Sample.eggs; Sample.milk] = Ok st'
    /\ Spec.Table (session_df st').
Proof.
  destruct (edit_table_keeps_table Sample.strict_engine
              (Sample.state_of Sample.table3) [Now] true EmptyString
              (mkDataFrame Sample.SCHEMA [(0, Sample.milk); (2, Sample.blank)])
              [Sample.eggs; Sample.milk] table3_is_table eq_refl eq_refl
              eq_refl) as (st' & Hrun & HT & _).
  exists st'. split; [exact Hrun | exact HT].
Defined.

Lemma edit_table_without_edits_witness :
  App.edit_table (Sample.state_of Sample.table3)
    (mkDataFrame Sample.SCHEMA [(0, Sample.milk); (2, Sample.blank)])
    [Sample.milk; Sample.blank]
  = Ok (mkState Sample.table3 (App.conn_update Sample.table3)
          [Update (App.conn_update Sample.table3)]).
Proof.
  exact (edit_table_without_edits Sample.strict_engine
           (Sample.state_of Sample.table3) [Now] true EmptyString
           (mkDataFrame Sample.SCHEMA [(0, Sample.milk); (2, Sample.blank)])
           table3_is_table eq_refl ltac:(discriminate)).
Defined.

Lemma filtered_data_again_witness :
  App.filtered_data Sample.strict_engine
    (mkDataFrame Sample.SCHEMA [(1, Sample.eggs)]) [Soon] true "egg"
  = Ok (mkDataFrame Sample.SCHEMA [(1, Sample.eggs)]).
Proof.
  exact (filtered_data_again Sample.strict_engine Sample.table3
           (mkDataFrame Sample.SCHEMA [(1, Sample.eggs)]) [Soon] true "egg"
           table3_is_table (fun _ => eq_refl) (fun _ => table3_searchable)
           eq_refl).
Defined.

Lemma table_someday_is_table : Spec.Table Sample.table_someday.
Proof. repeat split. Qed.

Lemma all_urgencies_is_not_none_witness :
  exists v,
    App.filtered_data Sample.strict_engine Sample.table_someday
      App.ALL_URGENCIES true EmptyString = Ok v
    /\ ~ In (1, Sample.someday) (rows v).
Proof.
  exact (proj1 (all_urgencies_is_not_none Sample.strict_engine
                  Sample.table_someday (1, Sample.someday)
                  table_someday_is_table
                  (or_intror (or_introl eq_refl)) eq_refl)).
Defined.

Lemma filtered_data_missing_column_witness :
  App.filtered_data Sample.strict_engine Sample.frame_without_urgency [Now]
    true EmptyString = Raise KeyError
  /\ App.filtered_data Sample.strict_engine
       (mkDataFrame [("Urgency", Object)] [(0, [Text "Now"])]) [Now] false
       "milk" = Raise KeyError.
Proof.
  split.
  - exact (proj1 (filtered_data_missing_column Sample.strict_engine
                    Sample.frame_without_urgency [Now] true EmptyString)
             ltac:(discriminate) eq_refl).
  - exact (proj1 (proj2 (filtered_data_missing_column Sample.strict_engine
                           (mkDataFrame [("Urgency", Object)]
                              [(0, [Text "Now"])]) [Now] false "milk"))
             (or_intror eq_refl) eq_refl eq_refl).
Defined.

Lemma hiding_completed_shows_less_witness :
  exists v',
    App.filtered_data Sample.strict_engine Sample.table3 [] true "e" = Ok v'
    /\ rows v' <> []
    /\ forall r, In r (rows v') -> Spec.completed (snd r) = Flag true.
Proof.
  destruct (hiding_completed_shows_less Sample.strict_engine Sample.table3
              (mkDataFrame Sample.SCHEMA [])
              [] "e" table3_is_table (fun _ => eq_refl) eq_refl)
    as (v' & Hv & _ & Hc).
  exists v'. split; [exact Hv|]. split.
  - vm_compute in Hv. injection Hv as <-. discriminate.
  - intros r Hin. destruct (Hc r Hin) as [[]|H]. exact H.
Defined.

Lemma selecting_more_shows_more_witness :
  exists v',
    App.filtered_data Sample.strict_engine Sample.table3 [Soon; Now] true
      "e" = Ok v'
    /\ Spec.subseq [(1, Sample.eggs)] (rows v').
Proof.
  refine (selecting_more_shows_more Sample.strict_engine Sample.table3
            (mkDataFrame Sample.SCHEMA [(1, Sample.eggs)]) [Soon] [Soon; Now]
            true "e" table3_is_table (fun _ => eq_refl) (fun _ => eq_refl)
            ltac:(discriminate) _ eq_refl).
  intros u [<-|[]]. now left.
Defined.

Lemma loaded_sheet_filters_witness :
  App.filtered_data Sample.strict_engine
    (App.load_data_body Sample.raw_sheet) App.ALL_URGENCIES false "milk"
  = Raise AttributeError
  /\ exists v,
       App.filtered_data Sample.strict_engine
         (App.load_data_body Sample.raw_sheet) App.ALL_URGENCIES false
         EmptyString = Ok v
       /\ schema v = schema (App.load_data_body Sample.raw_sheet).
Proof.
  split.
  - pose proof (loaded_sheet_filters Sample.strict_engine Sample.raw_sheet
                  App.ALL_URGENCIES false "milk" eq_refl
                  raw_sheet_rectangular) as H.
    destruct (App.filtered_data Sample.strict_engine
                (App.load_data_body Sample.raw_sheet) App.ALL_URGENCIES false
                "milk") as [v|e] eqn:E.
    + exfalso. vm_compute in E. discriminate E.
    + destruct H as [[_ H]|[-> _]]; [|reflexivity].
      exfalso. vm_compute in H. discriminate H.
  - pose proof (loaded_sheet_filters Sample.strict_engine Sample.raw_sheet
                  App.ALL_URGENCIES false EmptyString eq_refl
                  raw_sheet_rectangular) as H.
    destruct (App.filtered_data Sample.strict_engine
                (App.load_data_body Sample.raw_sheet) App.ALL_URGENCIES false
                EmptyString) as [v|e] eqn:E.
    + exists v. split; [reflexivity | exact (proj1 H)].
    + exfalso. vm_compute in E. discriminate E.
Defined.

Lemma styled_view_shape_witness :
  exists d styles,
    App.styled_view Sample.plain_emoji Sample.table3 = Ok (Some (d, styles))
    /\ Pd.index d = [0; 1; 2]
    /\ List.length styles = 3.
Proof.
  destruct (proj2 (styled_view_shape Sample.plain_emoji Sample.table3
                     eq_refl eq_refl) ltac:(discriminate))
    as (d & styles & Hrun & _ & Hi & Hl & _).
  exists d, styles. split; [exact Hrun|]. split; [exact Hi | exact Hl].
Defined.



